(** * Pitch-Deck-Generator: a shallow embedding of the data pipeline and
      the deck builder

    The development follows the TypeScript sources:

    - [Module JS]             the fragment of JavaScript semantics the code
                              relies on (numbers, [||], [toFixed],
                              [toLocaleString], [parseInt], [Date], stable
                              [Array.prototype.sort]);
    - [Module Types]          lib/types.ts;
    - [Module FmpClient]      the FMP client, lib/fmpClient.ts (the second
                              part of src/next.config.js): request
                              classification, [calculateRevenueGrowth],
                              formatting;
    - [Module ChartHelpers]   lib/chartHelpers.ts;
    - [Module CompanyDataApi] the company-data endpoint with the Yahoo
                              fallback (src/unnamed/part_004);
    - [Module PptxTemplates]  the PPTX templates with [PitchDeckBuilder]
                              (src/unnamed/part_001);
    - [Module FmpClientCache] the rest of the FMP client: the cache, the
                              guarded fetches, [getPeerData],
                              [condenseDescription];
    - [Module FmpCompanyDataApi] the company-data endpoint without fallback
                              (src/pages/api/fmp/company-data.ts);
    - [Module SearchApi]      the search endpoint (src/unnamed/part_005);
    - [Module Home]           the chart configurations of the page
                              (src/unnamed/part_006) and the colours of the
                              pie chart;
    - [Module PeersCompsTable] the table of the peer-comparison slide;
    - [Module ChartRenderer]  the export of the rendered charts
                              (src/components/ProgressSteps.tsx).

    They are followed by the notions and the sample data that the statements
    use, and then by the properties.

    Numbers are rationals extended with [NaN] and the two infinities. The
    growth of [calculateRevenueGrowth] and the upside of the deck are
    computed as the code computes them, every operation rounded to the
    nearest IEEE-754 double ([double_sub], [double_div], [double_mul]); the
    other computations are exact, and the statements about them say so.
    Strings are sequences of bytes: where the code counts, cuts or
    lower-cases UTF-16 units the statements are about ASCII text. *)

From Stdlib Require Import ZArith QArith Qround Qabs String Ascii List Lia Lqa Bool.
From Stdlib Require Import DecimalString Sorting.Sorted Sorting.Permutation.
From stdpp Require Import gmap strings list sorting.

Local Open Scope string_scope.

(* ================================================================== *)
(** * The JavaScript fragment *)
(* ================================================================== *)

Module JS.

(** A JavaScript number: a finite value, [NaN], or an infinity. Finite
    results of arithmetic are kept reduced ([Qred]), so that Leibniz
    equality on [number] coincides with numeric equality. *)
Inductive number : Type :=
| Num (q : Q)
| NaN
| PosInf
| NegInf.

(** A property typed [number] in TypeScript that may be [null] or absent at
    run time (the JSON of the provider decides). *)
Inductive jsnum : Type :=
| JUndefined
| JNull
| JNum (n : number).

Definition Qlt_bool (a b : Q) : bool := negb (Qle_bool b a).

Definition num (z : Z) : number := Num (inject_Z z).

(** ToNumber *)
Definition ToNumber (v : jsnum) : number :=
  match v with
  | JUndefined => NaN
  | JNull => Num 0
  | JNum n => n
  end.

(** ToBoolean on a numeric property: [undefined], [null], [0] and [NaN] are
    falsy. *)
Definition truthy (v : jsnum) : bool :=
  match v with
  | JUndefined | JNull => false
  | JNum (Num q) => negb (Qeq_bool q 0)
  | JNum NaN => false
  | JNum _ => true
  end.

(** [v || d] and [v ?? d] with a numeric default. *)
Definition or_default (v : jsnum) (d : number) : number :=
  if truthy v then ToNumber v else d.

Definition nullish_default (v : jsnum) (d : number) : number :=
  match v with
  | JUndefined | JNull => d
  | JNum n => n
  end.

Definition isNaN (v : jsnum) : bool :=
  match ToNumber v with NaN => true | _ => false end.

Definition num_neg (a : number) : number :=
  match a with
  | Num q => Num (Qred (- q))
  | NaN => NaN
  | PosInf => NegInf
  | NegInf => PosInf
  end.

Definition num_add (a b : number) : number :=
  match a, b with
  | NaN, _ | _, NaN => NaN
  | Num x, Num y => Num (Qred (x + y))
  | PosInf, NegInf | NegInf, PosInf => NaN
  | PosInf, _ | _, PosInf => PosInf
  | NegInf, _ | _, NegInf => NegInf
  end.

Definition num_sub (a b : number) : number := num_add a (num_neg b).

(** The sign of a non-NaN number: [Some true] negative, [Some false]
    positive, [None] zero. *)
Definition sign (a : number) : option bool :=
  match a with
  | Num q => if Qeq_bool q 0 then None else Some (Qlt_bool q 0)
  | NaN => None
  | PosInf => Some false
  | NegInf => Some true
  end.

Definition inf_of_sign (neg : bool) : number := if neg then NegInf else PosInf.

Definition num_mul (a b : number) : number :=
  match a, b with
  | NaN, _ | _, NaN => NaN
  | Num x, Num y => Num (Qred (x * y))
  | _, _ =>
      match sign a, sign b with
      | Some s, Some t => inf_of_sign (xorb s t)
      | _, _ => NaN
      end
  end.

Definition num_div (a b : number) : number :=
  match a, b with
  | NaN, _ | _, NaN => NaN
  | Num x, Num y =>
      if Qeq_bool y 0
      then match sign a with
           | Some s => inf_of_sign s
           | None => NaN
           end
      else Num (Qred (x / y))
  | Num _, _ => Num 0
  | _, Num y => match sign a with
                | Some s => inf_of_sign (xorb s (Qlt_bool y 0))
                | None => NaN
                end
  | _, _ => NaN
  end.

(** [a < b]; every comparison with [NaN] is false. *)
Definition num_lt (a b : number) : bool :=
  match a, b with
  | NaN, _ | _, NaN => false
  | Num x, Num y => Qlt_bool x y
  | NegInf, NegInf | PosInf, _ => false
  | NegInf, _ => true
  | Num _, PosInf => true
  | Num _, NegInf => false
  end.

Definition num_le (a b : number) : bool :=
  match a, b with
  | NaN, _ | _, NaN => false
  | Num x, Num y => Qle_bool x y
  | NegInf, _ | _, PosInf => true
  | _, _ => false
  end.

Definition num_gt (a b : number) : bool := num_lt b a.
Definition num_ge (a b : number) : bool := num_le b a.

(** [v > n] on a property goes through ToNumber. *)
Definition js_gt (v : jsnum) (n : number) : bool := num_gt (ToNumber v) n.


Definition Math_floor (a : number) : number :=
  match a with
  | Num q => Num (inject_Z (Qfloor q))
  | _ => a
  end.

(** [Math.max(a, b)]: [NaN] if either argument is. *)
Definition Math_max (a b : number) : number :=
  match a, b with
  | NaN, _ | _, NaN => NaN
  | _, _ => if num_lt a b then b else a
  end.

(** ** Doubles

    A JavaScript number is an IEEE-754 binary64 value, and [+], [-], [*] and
    [/] return the exact result rounded to the nearest such value, ties to
    the even mantissa. [binary64 q] is that rounding of the real number [q]:
    53 significant bits, the grid [2 ^ -1074] of the subnormal numbers below
    [2 ^ -1022], and infinity from [2 ^ 1024 - 2 ^ 970] on. The sign of zero
    is not modelled. *)

Definition round_half_even (x : Q) : Z :=
  let f := Qfloor x in
  match Qcompare (x - inject_Z f) (1 # 2) with
  | Lt => f
  | Gt => (f + 1)%Z
  | Eq => if Z.even f then f else (f + 1)%Z
  end.

(** The exponent [e] of the grid at a positive [a]: [a / 2 ^ e] lies in
    [[2 ^ 52, 2 ^ 53)], unless [a] is subnormal. *)
Definition binary64_exponent (a : Q) : Z :=
  let e0 := (Z.log2 (Qnum a) - Z.log2 (Zpos (Qden a)) - 53)%Z in
  let e := if Qle_bool (2 ^ 53 * 2 ^ e0) a then (e0 + 1)%Z else e0 in
  Z.max e (-1074).

Definition binary64 (q : Q) : number :=
  if Qeq_bool q 0 then Num 0
  else
    let a := Qabs q in
    let e := binary64_exponent a in
    let v := (inject_Z (round_half_even (a / 2 ^ e)) * 2 ^ e)%Q in
    if Qle_bool (2 ^ 1024) v
    then (if Qlt_bool q 0 then NegInf else PosInf)
    else Num (Qred (if Qlt_bool q 0 then - v else v)).

(** The rounding of a result; [NaN] and the infinities stay. *)
Definition double (a : number) : number :=
  match a with
  | Num q => binary64 q
  | _ => a
  end.

(** [a - b], [a * b] and [a / b] as the runtime computes them. *)
Definition double_sub (a b : number) : number := double (num_sub a b).
Definition double_mul (a b : number) : number := double (num_mul a b).
Definition double_div (a b : number) : number := double (num_div a b).

(** ** Strings *)

Definition digits (n : N) : string := NilZero.string_of_uint (N.to_uint n).

Fixpoint pad_zeros (k : nat) (s : string) : string :=
  match k with
  | O => s
  | S k' => String "0" (pad_zeros k' s)
  end.

(** [n] written with at least [w] digits. *)
Definition digits_padded (w : nat) (n : N) : string :=
  let s := digits n in pad_zeros (w - String.length s) s.

(** [Number.prototype.toFixed(d)] on a finite value below 1e21 in
    magnitude: round the magnitude to [d] decimals, ties upwards, and keep
    the sign of the argument. *)
Definition toFixed_Q (d : nat) (q : Q) : string :=
  let scale := (10 ^ Z.of_nat d)%Z in
  let n := Qfloor (Qabs q * inject_Z scale + (1 # 2)) in
  let ip := Z.to_N (n / scale) in
  let fp := Z.to_N (n mod scale) in
  (if Qlt_bool q 0 then "-" else "") ++
  digits ip ++
  match d with
  | O => ""
  | _ => "." ++ digits_padded d fp
  end.

Definition toFixed (d : nat) (a : number) : string :=
  match a with
  | Num q => toFixed_Q d q
  | NaN => "NaN"
  | PosInf => "Infinity"
  | NegInf => "-Infinity"
  end.

(** Commas between groups of three digits, counted from the right. *)
Fixpoint group3 (s : string) : string :=
  match s with
  | EmptyString => EmptyString
  | String c rest =>
      String c
        (match rest with
         | EmptyString => EmptyString
         | _ => if Nat.eqb (String.length rest mod 3) 0
                then String "," (group3 rest)
                else group3 rest
         end)
  end.

(** Drop the trailing zeros of a fraction. *)
Fixpoint strip_zeros (s : string) : string :=
  match s with
  | EmptyString => EmptyString
  | String c rest =>
      match strip_zeros rest with
      | EmptyString => if Ascii.eqb c "0" then EmptyString else String c EmptyString
      | r => String c r
      end
  end.

(** [Number.prototype.toLocaleString()] in the en-US locale: grouped
    integer part, at most three fraction digits, ties away from zero. *)
Definition toLocaleString_Q (q : Q) : string :=
  let n := Qfloor (Qabs q * 1000 + (1 # 2)) in
  let ip := Z.to_N (n / 1000) in
  let fp := Z.to_N (n mod 1000) in
  (if Qlt_bool q 0 then "-" else "") ++
  group3 (digits ip) ++
  match strip_zeros (digits_padded 3 fp) with
  | EmptyString => ""
  | f => "." ++ f
  end.

Definition toLocaleString (a : number) : string :=
  match a with
  | Num q => toLocaleString_Q q
  | NaN => "NaN"
  | PosInf => "∞"
  | NegInf => "-∞"
  end.

(** ** [parseInt(s)] without a radix argument

    Leading white space is skipped, a sign is read, a [0x] prefix selects
    base 16, and the longest prefix of digits is converted; no digit at all
    gives [NaN]. *)

Definition is_space (c : ascii) : bool :=
  match nat_of_ascii c with
  | 9 | 10 | 11 | 12 | 13 | 32 => true
  | _ => false
  end%nat.

Fixpoint skip_spaces (s : string) : string :=
  match s with
  | String c rest => if is_space c then skip_spaces rest else s
  | EmptyString => s
  end.

Definition digit_val (radix : N) (c : ascii) : option N :=
  let n := N_of_ascii c in
  let v := if (48 <=? n)%N && (n <=? 57)%N then Some (n - 48)%N
           else if (97 <=? n)%N && (n <=? 122)%N then Some (n - 87)%N
           else if (65 <=? n)%N && (n <=? 90)%N then Some (n - 55)%N
           else None in
  match v with
  | Some d => if (d <? radix)%N then Some d else None
  | None => None
  end.

Fixpoint parse_digits (radix : N) (s : string) (acc : option N) : option N :=
  match s with
  | EmptyString => acc
  | String c rest =>
      match digit_val radix c with
      | Some d =>
          parse_digits radix rest
            (Some (match acc with
                   | None => d
                   | Some a => a * radix + d
                   end)%N)
      | None => acc
      end
  end.

Definition parse_unsigned (s : string) : option N :=
  match s with
  | String "0" (String "x" rest) | String "0" (String "X" rest) =>
      parse_digits 16 rest None
  | _ => parse_digits 10 s None
  end.

Definition parseInt (s : string) : number :=
  let s := skip_spaces s in
  let '(neg, s) := match s with
                   | String "-" rest => (true, rest)
                   | String "+" rest => (false, rest)
                   | _ => (false, s)
                   end in
  match parse_unsigned s with
  | Some n => num (if neg then - Z.of_N n else Z.of_N n)
  | None => NaN
  end.

(** ** [new Date(s).getTime()]

    The provider sends calendar dates as [YYYY-MM-DD]; such a string denotes
    midnight UTC of that day. The model reads this format only: any other
    string is an invalid date, whose time value is [NaN]. *)

Definition dec_digit (c : ascii) : option Z :=
  match digit_val 10 c with
  | Some d => Some (Z.of_N d)
  | None => None
  end.

Definition is_leap (y : Z) : bool :=
  ((y mod 4 =? 0) && negb (y mod 100 =? 0) || (y mod 400 =? 0))%Z.

Definition days_in_month (y m : Z) : Z :=
  match m with
  | 2 => if is_leap y then 29 else 28
  | 4 | 6 | 9 | 11 => 30
  | _ => 31
  end%Z.

(** Days between 1970-01-01 and the given civil date. *)
Definition days_from_civil (y m d : Z) : Z :=
  let y' := if (m <=? 2)%Z then (y - 1)%Z else y in
  let era := (y' / 400)%Z in
  let yoe := (y' - era * 400)%Z in
  let mp := if (m <=? 2)%Z then (m + 9)%Z else (m - 3)%Z in
  let doy := ((153 * mp + 2) / 5 + d - 1)%Z in
  let doe := (yoe * 365 + yoe / 4 - yoe / 100 + doy)%Z in
  (era * 146097 + doe - 719468)%Z.

Definition Date_getTime (s : string) : number :=
  match s with
  | String y1 (String y2 (String y3 (String y4 (String "-"
      (String m1 (String m2 (String "-"
      (String d1 (String d2 EmptyString))))))))) =>
      match dec_digit y1, dec_digit y2, dec_digit y3, dec_digit y4,
            dec_digit m1, dec_digit m2, dec_digit d1, dec_digit d2 with
      | Some a, Some b, Some c, Some e, Some f, Some g, Some h, Some i =>
          let y := (a * 1000 + b * 100 + c * 10 + e)%Z in
          let m := (f * 10 + g)%Z in
          let d := (h * 10 + i)%Z in
          if ((1 <=? m) && (m <=? 12) && (1 <=? d) && (d <=? days_in_month y m))%Z
          then num (days_from_civil y m d * 86400000)
          else NaN
      | _, _, _, _, _, _, _, _ => NaN
      end
  | _ => NaN
  end.

(** ** [Array.prototype.sort(compare)]

    The sort is stable. [compare x y > 0] moves [x] behind [y]; a [NaN]
    from the comparator counts as [+0] (SortCompare). For a comparator that
    is not a consistent ordering the order is implementation-defined; the
    model then yields what a stable insertion sort does. *)
Section Sort.
Context {A : Type} (compare : A -> A -> number).

Definition comes_after (x y : A) : bool := num_gt (compare x y) (Num 0).

Fixpoint insert_sorted (x : A) (l : list A) : list A :=
  match l with
  | [] => [x]
  | y :: l' => if comes_after x y then y :: insert_sorted x l' else x :: l
  end.

Definition Array_sort (l : list A) : list A := foldr insert_sorted [] l.
End Sort.

(** [array.filter((_, index) => keep index)] *)
Fixpoint filter_index {A : Type} (keep : nat -> bool) (i : nat) (l : list A) : list A :=
  match l with
  | [] => []
  | x :: l' => if keep i then x :: filter_index keep (S i) l'
               else filter_index keep (S i) l'
  end.

(** [array.find(p)] *)
Fixpoint Array_find {A : Type} (p : A -> bool) (l : list A) : option A :=
  match l with
  | [] => None
  | x :: l' => if p x then Some x else Array_find p l'
  end.

(** [string.includes(t)] *)
Fixpoint includes (t s : string) : bool :=
  if String.prefix t s then true
  else match s with
       | EmptyString => false
       | String _ rest => includes t rest
       end.

(** [index % m === 0] for an array index: [x % 0] and [x % NaN] are [NaN],
    [x % Infinity] is [x]. *)
Definition rem_is_zero (index : nat) (m : number) : bool :=
  match m with
  | Num q =>
      if Qeq_bool q 0 then false
      else let r := (inject_Z (Z.of_nat index) / Qabs q)%Q in
           Qeq_bool (inject_Z (Qfloor r)) r
  | NaN => false
  | PosInf | NegInf => Nat.eqb index 0
  end.

Definition month_short (m : string) : string :=
  if String.eqb m "01" then "Jan" else if String.eqb m "02" then "Feb"
  else if String.eqb m "03" then "Mar" else if String.eqb m "04" then "Apr"
  else if String.eqb m "05" then "May" else if String.eqb m "06" then "Jun"
  else if String.eqb m "07" then "Jul" else if String.eqb m "08" then "Aug"
  else if String.eqb m "09" then "Sep" else if String.eqb m "10" then "Oct"
  else if String.eqb m "11" then "Nov" else "Dec".

(** [new Date(s).toLocaleDateString('en-US', { month: 'short', year:
    '2-digit' })], read in UTC. *)
Definition Date_monthYear (s : string) : string :=
  match Date_getTime s with
  | Num _ => month_short (substring 5 2 s) ++ " " ++ substring 2 2 s
  | _ => "Invalid Date"
  end.

(** [s.toUpperCase()] on ASCII letters. *)
Definition upper_char (c : ascii) : ascii :=
  let n := nat_of_ascii c in
  if ((97 <=? n) && (n <=? 122))%nat then ascii_of_nat (n - 32) else c.

Fixpoint toUpperCase (s : string) : string :=
  match s with
  | EmptyString => EmptyString
  | String c rest => String (upper_char c) (toUpperCase rest)
  end.

(** [s.split('\n')[0]] *)
Fixpoint first_line (s : string) : string :=
  match s with
  | EmptyString => EmptyString
  | String c rest =>
      if Ascii.eqb c (ascii_of_nat 10) then EmptyString
      else String c (first_line rest)
  end.

(** [s || d] on strings: the empty string is falsy. *)
Definition str_or (s d : string) : string :=
  if String.eqb s "" then d else s.

Definition str_truthy (s : string) : bool := negb (String.eqb s "").

(** The double-quote character. *)
Definition dquote : string := String (ascii_of_nat 34) EmptyString.

End JS.

(* ================================================================== *)
(** * lib/types.ts *)
(* ================================================================== *)

Module Types.
Import JS.

(** The fields of an income statement that the pipeline reads. *)
Record FMPIncomeStatement : Type := {
  date : string;
  calendarYear : string;
  revenue : jsnum;
  grossProfit : jsnum;
  grossProfitRatio : jsnum;
  ebitda : jsnum;
  operatingIncome : jsnum;
  netIncome : jsnum;
  netIncomeRatio : jsnum;
  epsdiluted : jsnum
}.

Record FMPHistoricalPrice : Type := {
  price_date : string;
  close : jsnum
}.

(** String properties are kept as strings; an absent one is the empty
    string, which every use site treats alike ([x || default]). *)
Record FMPCompanyProfile : Type := {
  symbol : string;
  companyName : string;
  price : jsnum;
  beta : jsnum;
  volAvg : jsnum;
  mktCap : jsnum;
  range : string;
  sector : string;
  industry : string;
  city : string;
  state : string;
  country : string;
  ceo : string;
  fullTimeEmployees : string;
  ipoDate : string
}.

Record FMPRatiosTTM : Type := {
  dividendYieldTTM : jsnum;
  peRatioTTM : jsnum;
  grossProfitMarginTTM : jsnum;
  netProfitMarginTTM : jsnum;
  returnOnEquityTTM : jsnum;
  debtEquityRatioTTM : jsnum;
  priceToBookRatioTTM : jsnum;
  priceToSalesRatioTTM : jsnum;
  enterpriseValueMultipleTTM : jsnum
}.

Record PeerData : Type := {
  peer_symbol : string;
  peer_companyName : string;
  marketCap : jsnum
}.

Record CompanyData : Type := {
  profile : option FMPCompanyProfile;
  incomeStatements : list FMPIncomeStatement;
  ratiosTTM : option FMPRatiosTTM;
  historicalPrices : list FMPHistoricalPrice;
  peers : list string;
  peersData : list PeerData
}.

Inductive Rating : Type := Buy | Outperform | Hold | Sell.

Inductive TimeHorizon : Type := H12 | H24 | H36.

Record ChartToggles : Type := {
  en_marketShare : bool;
  en_revenueGrowth : bool;
  en_pricePerformance : bool
}.

Record FormData : Type := {
  companyInput : string;
  rating : Rating;
  timeHorizon : TimeHorizon;
  targetPrice : jsnum;
  charts : ChartToggles;
  themeColor : string;
  authorName : string;
  investmentThesis : string;
  valuation : string;
  risksAndMitigants : string
}.

Record APIError : Type := {
  message : string;
  code : string
}.

End Types.

(* ================================================================== *)
(** * lib/fmpClient.ts *)
(* ================================================================== *)

Module FmpClient.
Import JS Types.

Definition createAPIError (message code : string) : APIError :=
  {| message := message; code := code |}.

(** What [axios.get] does: a response with data, an error carrying the
    response of the server, a timeout ([ECONNABORTED]), or another failure
    without a response. *)
Inductive AxiosResult (T : Type) : Type :=
| Response (data : T)
| ErrorResponse (status : Z) (msg : string)
| Aborted
| NoResponse.
Arguments Response {T} data.
Arguments ErrorResponse {T} status msg.
Arguments Aborted {T}.
Arguments NoResponse {T}.

(** [fmpRequest]: the classification of the outcome of the GET. [empty]
    is the [[]] returned on a 403 when [allowEmpty] is set. *)
Definition fmpRequest {T : Type} (empty : T) (allowEmpty : bool)
    (r : AxiosResult T) : APIError + T :=
  match r with
  | Response data => inr data
  | ErrorResponse status msg =>
      if (status =? 401)%Z then
        inl (createAPIError "Invalid API key. Please check your FMP_API_KEY." "AUTH_ERROR")
      else if (status =? 403)%Z then
        if allowEmpty then inr empty
        else inl (createAPIError "API access forbidden. Your plan may not include this endpoint." "FORBIDDEN")
      else if (status =? 429)%Z then
        inl (createAPIError "API rate limit exceeded. Please try again later." "RATE_LIMIT")
      else inl (createAPIError ("API error: " ++ msg) "API_ERROR")
  | Aborted =>
      inl (createAPIError "Request timeout. The API is taking too long to respond." "TIMEOUT")
  | NoResponse =>
      inl (createAPIError "Network error. Please check your connection." "NETWORK_ERROR")
  end.

(** [getCompanyProfile]: the first element of the answer, or [null]. *)
Definition getCompanyProfile (r : AxiosResult (list FMPCompanyProfile))
  : APIError + option FMPCompanyProfile :=
  match fmpRequest [] false r with
  | inl e => inl e
  | inr data => inr (head data)
  end.

(** [fetchAllCompanyData]: the profile comes first and is required; [rest]
    stands for the outcome of the remaining, individually guarded fetches
    ([Promise.all] of the [safeFetch] calls and the peer wave), given the
    profile. *)
Definition fetchAllCompanyData (upperSymbol : string)
    (profileResult : AxiosResult (list FMPCompanyProfile))
    (rest : FMPCompanyProfile -> APIError + CompanyData)
  : APIError + CompanyData :=
  match getCompanyProfile profileResult with
  | inl e => inl e
  | inr None => inl (createAPIError ("Company not found: " ++ upperSymbol) "NOT_FOUND")
  | inr (Some p) => rest p
  end.





Definition e6 : number := Num 1000000.
Definition e9 : number := Num 1000000000.
Definition e12 : number := Num 1000000000000.

Definition formatLargeNumber (value : jsnum) : string :=
  match value with
  | JUndefined | JNull => "N/A"
  | JNum NaN => "N/A"
  | JNum v =>
      if num_ge v e12 then "$" ++ toFixed 2 (num_div v e12) ++ "T"
      else if num_ge v e9 then "$" ++ toFixed 2 (num_div v e9) ++ "B"
      else if num_ge v e6 then "$" ++ toFixed 2 (num_div v e6) ++ "M"
      else "$" ++ toLocaleString v
  end.

Definition formatPercentage (value : jsnum) (decimals : nat) : string :=
  match value with
  | JUndefined | JNull => "N/A"
  | JNum NaN => "N/A"
  | JNum v => toFixed decimals v ++ "%"
  end.

Definition formatRatio (value : jsnum) (decimals : nat) : string :=
  match value with
  | JUndefined | JNull => "N/A"
  | JNum NaN => "N/A"
  | JNum v => toFixed decimals v ++ "x"
  end.

End FmpClient.

(* ================================================================== *)
(** * lib/chartHelpers.ts *)
(* ================================================================== *)

Module ChartHelpers.
Import JS Types.

Record PriceChartData : Type := {
  price_labels : list string;
  prices : list jsnum;
  normalizedPrices : list number
}.

Definition by_price_date (a b : FMPHistoricalPrice) : number :=
  num_sub (Date_getTime (price_date a)) (Date_getTime (price_date b)).

Definition sampling_step (length : nat) (maxPoints : number) : number :=
  Math_max (Num 1) (Math_floor (num_div (num (Z.of_nat length)) maxPoints)).

Definition processPriceData (historicalPrices : list FMPHistoricalPrice)
    (maxPoints : number) : PriceChartData :=
  let sorted := Array_sort by_price_date historicalPrices in
  let step := sampling_step (length sorted) maxPoints in
  let sampled := filter_index (fun index => rem_is_zero index step) 0 sorted in
  let startPrice :=
    or_default (match head sampled with
                | Some p => close p
                | None => JUndefined
                end) (Num 1) in
  let normalizedPrices :=
    map (fun p => num_mul (num_div (ToNumber (close p)) startPrice) (Num 100)) sampled in
  {| price_labels := map (fun p => Date_monthYear (price_date p)) sampled;
     prices := map close sampled;
     normalizedPrices := normalizedPrices |}.

(** The default value of [maxPoints]. *)
Definition defaultMaxPoints : number := Num 250.

Record RevenueChartData : Type := {
  revenue_labels : list string;
  revenues : list number;
  growthRates : list (option number)   (* [None] is [null] *)
}.

Definition by_calendarYear (a b : FMPIncomeStatement) : number :=
  num_sub (parseInt (calendarYear a)) (parseInt (calendarYear b)).

(** The loop of [processRevenueData] over the sorted array. *)
Fixpoint growthRates_loop (prev : FMPIncomeStatement) (rest : list FMPIncomeStatement)
  : list (option number) :=
  match rest with
  | [] => []
  | curr :: rest' =>
      let prevRevenue := revenue prev in
      let currRevenue := revenue curr in
      (if js_gt prevRevenue (Num 0)
       then Some (num_mul (num_div (num_sub (ToNumber currRevenue) (ToNumber prevRevenue))
                                   (ToNumber prevRevenue))
                          (Num 100))
       else None)
      :: growthRates_loop curr rest'
  end.

Definition processRevenueData (incomeStatements : list FMPIncomeStatement)
  : RevenueChartData :=
  let sorted := Array_sort by_calendarYear incomeStatements in
  let revenues := map (fun s => num_div (ToNumber (revenue s)) (Num 1000000000)) sorted in
  let growthRates :=
    None :: match sorted with
            | [] => []
            | first :: rest => growthRates_loop first rest
            end in
  {| revenue_labels := map calendarYear sorted;
     revenues := revenues;
     growthRates := growthRates |}.

Record MarketShareData : Type := {
  share_labels : list string;
  values : list number;
  percentages : list number
}.

Record Company : Type := {
  name : string;
  company_revenue : number
}.

Definition by_revenue_desc (a b : Company) : number :=
  num_sub (company_revenue b) (company_revenue a).

(** [peerRevenues.get(symbol)] *)
Definition Map_get (m : gmap string number) (k : string) : jsnum :=
  match m !! k with
  | Some n => JNum n
  | None => JUndefined
  end.

(** The peers pushed by the [forEach] of [calculateMarketShare]. *)
Definition known_peers (peersData : list PeerData) (peerRevenues : gmap string number)
  : list Company :=
  flat_map
    (fun peer =>
       let revenue := Map_get peerRevenues (peer_symbol peer) in
       if truthy revenue && js_gt revenue (Num 0)
       then [ {| name := peer_companyName peer; company_revenue := ToNumber revenue |} ]
       else [])
    peersData.

Definition share_label (c : Company) : string :=
  if (15 <? String.length (name c))%nat
  then substring 0 15 (name c) ++ "..."
  else name c.

Definition calculateMarketShare (companyRevenue : jsnum) (companyName : string)
    (peersData : list PeerData) (peerRevenues : gmap string number)
  : MarketShareData :=
  let companies :=
    {| name := companyName; company_revenue := ToNumber companyRevenue |}
    :: known_peers peersData peerRevenues in
  let sorted := take 6 (Array_sort by_revenue_desc companies) in
  let total := fold_left (fun sum c => num_add sum (company_revenue c)) sorted (Num 0) in
  {| share_labels := map share_label sorted;
     values := map company_revenue sorted;
     percentages :=
       map (fun c => num_mul (num_div (company_revenue c) total) (Num 100)) sorted |}.

Inductive ChartType : Type := pricePerformance | revenueGrowth | marketShare.

Definition ChartType_eqb (a b : ChartType) : bool :=
  match a, b with
  | pricePerformance, pricePerformance
  | revenueGrowth, revenueGrowth
  | marketShare, marketShare => true
  | _, _ => false
  end.

(** A chart specification: the data and the accent colour; the styling
    constants of the three factories are fixed and left out. *)
Inductive ChartConfiguration : Type :=
| LineConfig (data : PriceChartData) (companyName themeColor : string)
| BarLineConfig (data : RevenueChartData) (themeColor : string)
| PieConfig (data : MarketShareData) (themeColor : string).

Definition createPricePerformanceConfig (data : PriceChartData)
    (companyName themeColor : string) : ChartConfiguration :=
  LineConfig data companyName themeColor.

Definition createRevenueGrowthConfig (data : RevenueChartData)
    (themeColor : string) : ChartConfiguration :=
  BarLineConfig data themeColor.

Definition createMarketShareConfig (data : MarketShareData)
    (themeColor : string) : ChartConfiguration :=
  PieConfig data themeColor.

Record ChartExportResult : Type := {
  type : ChartType;
  dataURL : string;
  title : string
}.

(** [generateAllCharts]. The rasterizer [renderChartToDataURL] is external:
    it yields a data URL or throws, and a throw rejects the whole call. *)
Section GenerateAllCharts.
Context {E : Type}
        (renderChartToDataURL : ChartConfiguration -> nat -> nat -> E + string).

Definition push_chart (results : list ChartExportResult) (config : ChartConfiguration)
    (width height : nat) (type : ChartType) (title : string)
  : E + list ChartExportResult :=
  match renderChartToDataURL config width height with
  | inl e => inl e
  | inr dataURL =>
      inr (results ++ [ {| type := type; dataURL := dataURL; title := title |} ])%list
  end.

Definition price_ready (en : ChartToggles) (priceData : option PriceChartData)
  : option PriceChartData :=
  match priceData with
  | Some d => if en_pricePerformance en && (0 <? length (prices d))%nat
              then Some d else None
  | None => None
  end.

Definition revenue_ready (en : ChartToggles) (revenueData : option RevenueChartData)
  : option RevenueChartData :=
  match revenueData with
  | Some d => if en_revenueGrowth en && (0 <? length (revenues d))%nat
              then Some d else None
  | None => None
  end.

Definition marketShare_ready (en : ChartToggles) (marketShareData : option MarketShareData)
  : option MarketShareData :=
  match marketShareData with
  | Some d => if en_marketShare en && (1 <? length (values d))%nat
              then Some d else None
  | None => None
  end.

Definition generateAllCharts
    (priceData : option PriceChartData)
    (revenueData : option RevenueChartData)
    (marketShareData : option MarketShareData)
    (companyName themeColor : string)
    (enabledCharts : ChartToggles) : E + list ChartExportResult :=
  let results := [] in
  match
    match price_ready enabledCharts priceData with
    | Some d =>
        push_chart results (createPricePerformanceConfig d companyName themeColor)
                   900 450 pricePerformance "Stock Price Performance"
    | None => inr results
    end
  with
  | inl e => inl e
  | inr results =>
      match
        match revenue_ready enabledCharts revenueData with
        | Some d =>
            push_chart results (createRevenueGrowthConfig d themeColor)
                       900 450 revenueGrowth "Revenue & Growth"
        | None => inr results
        end
      with
      | inl e => inl e
      | inr results =>
          match marketShare_ready enabledCharts marketShareData with
          | Some d =>
              push_chart results (createMarketShareConfig d themeColor)
                         800 500 marketShare "Market Share"
          | None => inr results
          end
      end
  end.
End GenerateAllCharts.

End ChartHelpers.

(* ================================================================== *)
(** * pages/api/fmp/company-data.ts *)
(* ================================================================== *)

Module CompanyDataApi.
Import JS Types.

Record Request : Type := {
  method : string;
  query_symbol : option string   (* [None]: absent or not a string *)
}.

Inductive Body : Type :=
| Data (companyData : CompanyData)
| ErrorBody (error msg : string).

Record HttpResponse : Type := {
  status : Z;
  body : Body
}.

(** The providers the handler calls, in the order of the calls. *)
Inductive Call : Type := CallFMP | CallYahoo.

Section Handler.
(** [process.env.FMP_API_KEY], the primary aggregation and the secondary
    one; [E] is whatever the Yahoo client throws. *)
Context {E : Type}
        (FMP_API_KEY : option string)
        (fetchAllCompanyData : string -> APIError + CompanyData)
        (fetchYahooCompanyData : string -> E + CompanyData).

Definition has_profile (d : CompanyData) : bool :=
  match profile d with Some _ => true | None => false end.

(** The second [try] block. *)
Definition tryYahoo (upperSymbol : string) (calls : list Call)
  : list Call * HttpResponse :=
  let calls := (calls ++ [CallYahoo])%list in
  match fetchYahooCompanyData upperSymbol with
  | inr companyData =>
      if has_profile companyData
      then (calls, {| status := 200; body := Data companyData |})
      else (calls, {| status := 404;
                      body := ErrorBody "Company not found"
                                ("No data found for symbol: " ++ upperSymbol) |})
  | inl _ =>
      (calls, {| status := 500;
                 body := ErrorBody "Failed to fetch company data"
                           ("Could not fetch data for " ++ upperSymbol ++
                            " from any source. Please check the symbol and try again.") |})
  end.

Definition apiKey_set : bool :=
  match FMP_API_KEY with
  | Some k => str_truthy k
  | None => false
  end.

Definition handler (req : Request) : list Call * HttpResponse :=
  if negb (String.eqb (method req) "GET") then
    ([], {| status := 405; body := ErrorBody "Method not allowed" "" |})
  else
    match query_symbol req with
    | None =>
        ([], {| status := 400;
                body := ErrorBody "Symbol required" "Please provide a stock symbol" |})
    | Some symbol =>
        if negb (str_truthy symbol) then
          ([], {| status := 400;
                  body := ErrorBody "Symbol required" "Please provide a stock symbol" |})
        else
          let upperSymbol := toUpperCase symbol in
          if apiKey_set then
            match fetchAllCompanyData upperSymbol with
            | inr companyData =>
                if has_profile companyData
                then ([CallFMP], {| status := 200; body := Data companyData |})
                else tryYahoo upperSymbol [CallFMP]
            | inl apiError =>
                if negb (String.eqb (code apiError) "RATE_LIMIT")
                   && negb (String.eqb (code apiError) "NETWORK_ERROR")
                   && negb (String.eqb (code apiError) "TIMEOUT")
                   && String.eqb (code apiError) "AUTH_ERROR"
                then ([CallFMP], {| status := 401;
                                    body := ErrorBody "Invalid API key" (message apiError) |})
                else tryYahoo upperSymbol [CallFMP]
            end
          else tryYahoo upperSymbol []
    end.

Definition yahoo_attempted (req : Request) : bool :=
  existsb (fun c => match c with CallYahoo => true | CallFMP => false end)
          (fst (handler req)).
End Handler.

End CompanyDataApi.

(* ================================================================== *)
(** * lib/pptxTemplates.ts *)
(* ================================================================== *)

Module PptxTemplates.
Import JS Types FmpClient ChartHelpers.

(** ** Slides

    A slide is the sequence of the [addShape], [addText], [addTable] and
    [addImage] calls made on it, and its notes. Positions, sizes, fonts and
    colours are left out. [kind] is a label of the model: it names the
    method that created the slide. *)
Inductive Element : Type :=
| Shape
| Text (text : string)
| Table (rows : list (list string))
| Image (data : string).

Inductive SlideKind : Type :=
| Cover | TOC | InvestmentSummary | CompanyOverview | IndustryOverview
| KeyMetrics | FinancialSummary | PeersComps | GrowthDrivers
| InvestmentThesis | Valuation | RisksAndMitigants | Appendix
| ChartSlide (t : ChartType).

Record Slide : Type := {
  kind : SlideKind;
  elements : list Element;
  notes : list string
}.

(** The presentation under construction ([this.pptx]). *)
Definition Deck : Type := list Slide.

Record PitchDeckBuilder : Type := {
  companyData : CompanyData;
  formData : FormData;
  charts : list ChartExportResult;
  generatedDate : string
}.

(** [safeText] on a string argument, which is what every call site passes. *)
Definition safeText (value : string) : string := str_or value "N/A".

(** [validateTableRows]: cells whose text is a string are kept as they are. *)
Definition validateTableRows (rows : list (list string)) : list (list string) :=
  map (map (fun cell => cell)) rows.

Definition nl : string := String (ascii_of_nat 10) EmptyString.

(** [lines.join('\n')] *)
Fixpoint join_lines (lines : list string) : string :=
  match lines with
  | [] => ""
  | [l] => l
  | l :: rest => l ++ nl ++ join_lines rest
  end.

Definition Rating_text (r : Rating) : string :=
  match r with
  | Buy => "Buy"
  | Outperform => "Outperform"
  | Hold => "Hold"
  | Sell => "Sell"
  end.

Definition TimeHorizon_text (h : TimeHorizon) : string :=
  match h with
  | H12 => "12"
  | H24 => "24"
  | H36 => "36"
  end.

(** [profile?.field] and [ratios?.field] *)
Definition pstr (p : option FMPCompanyProfile) (f : FMPCompanyProfile -> string) : string :=
  match p with Some p => f p | None => "" end.

Definition pnum (p : option FMPCompanyProfile) (f : FMPCompanyProfile -> jsnum) : jsnum :=
  match p with Some p => f p | None => JUndefined end.

Definition rnum (r : option FMPRatiosTTM) (f : FMPRatiosTTM -> jsnum) : jsnum :=
  match r with Some r => f r | None => JUndefined end.

(** [v ? render(v) : fallback] *)
Definition if_truthy (v : jsnum) (render : number -> string) (fallback : string) : string :=
  if truthy v then render (ToNumber v) else fallback.

Definition times100 (n : number) : number := num_mul n (Num 100).

Section Slides.
Variable this : PitchDeckBuilder.

Let profile_ := profile (companyData this).
Let ratios_ := ratiosTTM (companyData this).
Let income_ := incomeStatements (companyData this).
Let form_ := formData this.

Definition footer : Element :=
  Text ("Generated with QuickBuy • Data: Financial Modeling Prep (FMP) • "
        ++ generatedDate this).

(** [Number(profile?.price) || 0] and [Number(formData.targetPrice) || 0] *)
Definition currentPrice : number :=
  or_default (JNum (ToNumber (pnum profile_ price))) (Num 0).

Definition targetPrice_ : number :=
  or_default (JNum (ToNumber (targetPrice form_))) (Num 0).

Definition both_positive : bool :=
  num_gt currentPrice (Num 0) && num_gt targetPrice_ (Num 0).

Definition upside : number :=
  if both_positive
  then double_mul (double_div (double_sub targetPrice_ currentPrice) currentPrice) (Num 100)
  else Num 0.

Definition signed_percent (u : number) : string :=
  (if num_ge u (Num 0) then "+" else "") ++ toFixed 1 u ++ "%".

(** *** Slide 2: table of contents *)

Definition toc_items : list string :=
  [ "Investment Summary"; "Company Overview"; "Industry Overview";
    "Key Metrics"; "Financial Summary"; "Revenue & Growth Analysis";
    "Price Performance"; "Peer Comparison"; "Market Position";
    "Growth Drivers"; "Investment Thesis"; "Valuation";
    "Risks & Mitigants"; "Appendix" ].

Definition tocText : string :=
  join_lines (imap (fun i item => digits (N.of_nat (i + 1)) ++ ". " ++ item) toc_items).

Definition tableOfContentsSlide : Slide :=
  {| kind := TOC;
     elements := [ Text "Table of Contents"; Text (safeText tocText); footer ];
     notes := [] |}.

(** *** Slide 3: investment summary *)

Definition pricingData : list (string * string) :=
  [ ("Rating", safeText (Rating_text (rating form_)));
    ("Target Price",
     safeText (if num_gt targetPrice_ (Num 0)
               then "$" ++ toFixed 2 targetPrice_ else "TBD"));
    ("Current Price",
     safeText (if num_gt currentPrice (Num 0)
               then "$" ++ toFixed 2 currentPrice else "N/A"));
    ("Upside/(Downside)",
     safeText (if both_positive then signed_percent upside else "N/A"));
    ("Time Horizon", safeText (TimeHorizon_text (timeHorizon form_) ++ " months"));
    ("52-Week Range", safeText (str_or (pstr profile_ range) "N/A")) ].

Definition multiple1 (n : number) : string := toFixed 1 n ++ "x".
Definition percent1 (n : number) : string := toFixed 1 (times100 n) ++ "%".

Definition valuationData : list (string * string) :=
  [ ("Market Cap",
     safeText (if truthy (pnum profile_ mktCap)
               then formatLargeNumber (pnum profile_ mktCap) else "N/A"));
    ("Enterprise Value",
     safeText (if_truthy (rnum ratios_ enterpriseValueMultipleTTM)
                         (fun _ => "See metrics") "N/A"));
    ("P/E (TTM)", safeText (if_truthy (rnum ratios_ peRatioTTM) multiple1 "N/A"));
    ("EV/EBITDA",
     safeText (if_truthy (rnum ratios_ enterpriseValueMultipleTTM) multiple1 "N/A"));
    ("P/S (TTM)", safeText (if_truthy (rnum ratios_ priceToSalesRatioTTM) multiple1 "N/A"));
    ("P/B (TTM)", safeText (if_truthy (rnum ratios_ priceToBookRatioTTM) multiple1 "N/A")) ].

(** [income[0]] *)
Definition latestIncome : option FMPIncomeStatement := head income_.

Definition ebitdaMargin : string :=
  match latestIncome with
  | Some latest =>
      if js_gt (revenue latest) (Num 0) && truthy (ebitda latest)
      then toFixed 1 (times100 (num_div (ToNumber (ebitda latest))
                                        (ToNumber (revenue latest)))) ++ "%"
      else "N/A"
  | None => "N/A"
  end.

Definition operatingData : list (string * string) :=
  [ ("Revenue (LTM)",
     safeText (match latestIncome with
               | Some latest => formatLargeNumber (revenue latest)
               | None => "N/A"
               end));
    ("Gross Margin", safeText (if_truthy (rnum ratios_ grossProfitMarginTTM) percent1 "N/A"));
    ("EBITDA Margin", safeText ebitdaMargin);
    ("Net Margin", safeText (if_truthy (rnum ratios_ netProfitMarginTTM) percent1 "N/A"));
    ("ROE", safeText (if_truthy (rnum ratios_ returnOnEquityTTM) percent1 "N/A"));
    ("Debt/Equity",
     safeText (if_truthy (rnum ratios_ debtEquityRatioTTM)
                         (fun n => toFixed 2 n ++ "x") "N/A")) ].

Definition thesisBullets : list string :=
  let companyName := str_or (pstr profile_ companyName) "Company" in
  let sector := str_or (pstr profile_ sector) "Technology" in
  let industry := str_or (pstr profile_ industry) "the industry" in
  let mktCapStr := if truthy (pnum profile_ mktCap)
                   then formatLargeNumber (pnum profile_ mktCap) else "significant" in
  let peStr := if_truthy (rnum ratios_ peRatioTTM) multiple1 "current" in
  [ safeText (companyName ++ " is a " ++ sector ++ " company operating in " ++ industry);
    safeText ("Strong competitive position with " ++ mktCapStr ++
              " market cap and established market presence");
    safeText "Key catalysts include [user to add: product launches, market expansion, margin improvement initiatives]";
    safeText ("Attractive valuation at " ++ peStr ++ " P/E vs. historical average and peers") ].

Definition employees : string :=
  let n := parseInt (pstr profile_ fullTimeEmployees) in
  if str_truthy (pstr profile_ fullTimeEmployees) && negb (isNaN (JNum n))
  then toLocaleString n else "N/A".

Definition snapshotData : list (string * string) :=
  [ ("Sector", safeText (str_or (pstr profile_ sector) "N/A"));
    ("Industry", safeText (str_or (pstr profile_ industry) "N/A"));
    ("Headquarters",
     safeText (str_or (pstr profile_ city) "" ++ ", " ++
               str_or (pstr profile_ state) (str_or (pstr profile_ country) "")));
    ("CEO", safeText (str_or (pstr profile_ ceo) "N/A"));
    ("Employees", safeText employees);
    ("Founded/IPO", safeText (str_or (pstr profile_ ipoDate) "N/A")) ].

Definition summaryRisks : list string :=
  [ "Market/macro volatility and economic uncertainty";
    "Competitive pressures and pricing dynamics";
    "Execution risk on strategic initiatives";
    "Regulatory and compliance considerations" ].

(** A two-column block: label and value of each row. *)
Definition label_value (rows : list (string * string)) : list Element :=
  flat_map (fun row => [ Text (safeText (fst row)); Text (safeText (snd row)) ]) rows.

Definition investmentSummarySlide : Slide :=
  {| kind := InvestmentSummary;
     elements :=
       ([ Shape;
          Text (safeText (str_or (pstr profile_ companyName) "Company" ++ " (" ++
                          str_or (pstr profile_ symbol) "" ++ ") | Investment Summary"));
          Shape;
          Text (toUpperCase (Rating_text (rating form_)));
          Text "RECOMMENDATION" ]
        ++ label_value pricingData
        ++ [ Text "VALUATION METRICS" ]
        ++ label_value valuationData
        ++ [ Text "OPERATING METRICS" ]
        ++ label_value operatingData
        ++ [ Shape; Text "INVESTMENT THESIS SUMMARY"; Shape ]
        ++ map (fun bullet => Text (safeText ("• " ++ bullet))) thesisBullets
        ++ [ Text "COMPANY SNAPSHOT" ]
        ++ flat_map (fun row => [ Text (safeText (fst row ++ ":"));
                                  Text (safeText (snd row)) ]) snapshotData
        ++ [ Text "KEY RISKS" ]
        ++ map (fun risk => Text (safeText ("• " ++ risk))) summaryRisks
        ++ [ footer ])%list;
     notes := [] |}.

(** *** Slide 6: key metrics *)

Definition kpis : list (string * string) :=
  [ ("MKT CAP", if truthy (pnum profile_ mktCap)
                then formatLargeNumber (pnum profile_ mktCap) else "N/A");
    ("PRICE", if_truthy (pnum profile_ price) (fun n => "$" ++ toFixed 2 n) "N/A");
    ("P/E", if_truthy (rnum ratios_ peRatioTTM) multiple1 "N/A");
    ("EV/EBITDA", if_truthy (rnum ratios_ enterpriseValueMultipleTTM) multiple1 "N/A");
    ("DIV YIELD", if_truthy (rnum ratios_ dividendYieldTTM) percent1 "N/A");
    ("BETA", if_truthy (pnum profile_ beta) (toFixed 2) "N/A") ].

Definition altMetrics : list (string * string) :=
  [ ("Beta", if_truthy (pnum profile_ beta) (toFixed 2) "N/A");
    ("52-Week Range", str_or (pstr profile_ range) "N/A");
    ("Average Volume",
     if truthy (pnum profile_ volAvg) && negb (isNaN (pnum profile_ volAvg))
     then toLocaleString (ToNumber (pnum profile_ volAvg)) else "N/A");
    ("Dividend Yield",
     if_truthy (rnum ratios_ dividendYieldTTM)
               (fun n => formatPercentage (JNum (times100 n)) 1) "N/A");
    ("ROE",
     if_truthy (rnum ratios_ returnOnEquityTTM)
               (fun n => formatPercentage (JNum (times100 n)) 1) "N/A");
    ("Debt/Equity",
     if_truthy (rnum ratios_ debtEquityRatioTTM)
               (fun n => formatRatio (JNum n) 2) "N/A") ].

(** [parseInt(s.calendarYear || '0')] *)
Definition fiscalYear (s : FMPIncomeStatement) : number :=
  parseInt (str_or (calendarYear s) "0").

Definition by_year_desc (a b : FMPIncomeStatement) : number :=
  num_sub (fiscalYear b) (fiscalYear a).

Definition by_year_asc (a b : FMPIncomeStatement) : number :=
  num_sub (fiscalYear a) (fiscalYear b).

Definition has_year (s : FMPIncomeStatement) : bool := str_truthy (calendarYear s).

Definition yearHeader (stmt : FMPIncomeStatement) : string :=
  safeText ("FY" ++ str_or (calendarYear stmt) "N/A").

(** One row of the key-metrics table: its name, the cell of a statement
    and the cell of the TTM column. *)
Record Metric : Type := {
  metric_name : string;
  getValue : FMPIncomeStatement -> string;
  ttm : string
}.

Definition ttm_margin (f : FMPRatiosTTM -> jsnum) : string :=
  match ratios_ with
  | Some ratios =>
      safeText (formatPercentage (JNum (times100 (or_default (f ratios) (Num 0)))) 1)
  | None => "-"
  end.

Definition metrics : list Metric :=
  [ {| metric_name := "Revenue";
       getValue := fun s => safeText (formatLargeNumber (JNum (or_default (revenue s) (Num 0))));
       ttm := "-" |};
    {| metric_name := "Gross Profit";
       getValue := fun s => safeText (formatLargeNumber (JNum (or_default (grossProfit s) (Num 0))));
       ttm := "-" |};
    {| metric_name := "EBITDA";
       getValue := fun s => safeText (formatLargeNumber (JNum (or_default (ebitda s) (Num 0))));
       ttm := "-" |};
    {| metric_name := "Net Income";
       getValue := fun s => safeText (formatLargeNumber (JNum (or_default (netIncome s) (Num 0))));
       ttm := "-" |};
    {| metric_name := "Gross Margin";
       getValue := fun s =>
         safeText (formatPercentage
                     (JNum (times100 (or_default (grossProfitRatio s) (Num 0)))) 1);
       ttm := ttm_margin grossProfitMarginTTM |};
    {| metric_name := "Net Margin";
       getValue := fun s =>
         safeText (formatPercentage
                     (JNum (times100 (or_default (netIncomeRatio s) (Num 0)))) 1);
       ttm := ttm_margin netProfitMarginTTM |};
    {| metric_name := "EPS (Diluted)";
       getValue := fun s =>
         safeText ("$" ++ toFixed 2 (nullish_default (epsdiluted s) (Num 0)));
       ttm := "-" |} ].

Definition keyMetrics_sortedIncome : list FMPIncomeStatement :=
  take 4 (Array_sort by_year_desc (List.filter has_year income_)).

Definition keyMetricsRows : list (list string) :=
  let sortedIncome := keyMetrics_sortedIncome in
  let has_ttm := match ratios_ with Some _ => true | None => false end in
  let headers :=
    ("Metric" :: map yearHeader sortedIncome
     ++ (if has_ttm then [safeText "TTM"] else []))%list in
  headers ::
  map (fun metric =>
         (safeText (metric_name metric)
          :: map (fun stmt => safeText (getValue metric stmt)) sortedIncome
          ++ (if has_ttm then [safeText (ttm metric)] else []))%list)
      metrics.

Definition keyMetricsSlide : Slide :=
  {| kind := KeyMetrics;
     elements :=
       ([ Shape; Text "Key Metrics at a Glance" ]
        ++ flat_map (fun kpi => [ Shape; Text (fst kpi); Text (snd kpi) ]) kpis
        ++ (if Nat.eqb (length income_) 0
            then [ Text "VALUATION & TRADING METRICS"; Shape ]
                 ++ flat_map (fun metric => [ Text (fst metric); Text (snd metric) ])
                             altMetrics
                 ++ [ Text "Note: Detailed financial data requires premium API access";
                      footer ]
            else [ Text "FINANCIAL PERFORMANCE";
                   Table (validateTableRows keyMetricsRows);
                   footer ]))%list;
     notes := [] |}.

(** *** Slide 7: financial summary *)

Definition financialSummary_sortedIncome : list FMPIncomeStatement :=
  Array_sort by_year_asc (List.filter has_year income_).

(** [safeText(((field || 0) / 1e6).toFixed(0))] *)
Definition millions (v : jsnum) : string :=
  safeText (toFixed 0 (num_div (or_default v (Num 0)) e6)).

Definition financialSummaryRows : list (list string) :=
  let sortedIncome := financialSummary_sortedIncome in
  [ "($ millions)" :: map yearHeader sortedIncome;
    "Revenue" :: map (fun stmt => millions (revenue stmt)) sortedIncome;
    "Gross Profit" :: map (fun stmt => millions (grossProfit stmt)) sortedIncome;
    "EBITDA" :: map (fun stmt => millions (ebitda stmt)) sortedIncome;
    "Operating Income" :: map (fun stmt => millions (operatingIncome stmt)) sortedIncome;
    "Net Income" :: map (fun stmt => millions (netIncome stmt)) sortedIncome ].

Definition financialSummaryNotice : string :=
  "Financial statement data requires premium API access." ++ nl ++ nl ++
  "Please add financial data manually or upgrade your FMP subscription.".

Definition financialSummarySlide : Slide :=
  {| kind := FinancialSummary;
     elements :=
       (Text "Financial Summary" ::
        (if Nat.eqb (length income_) 0
         then [ Text financialSummaryNotice; footer ]
         else [ Table (validateTableRows financialSummaryRows); footer ]))%list;
     notes := [] |}.

(** *** Slides 8-10: chart slides *)

Definition chartSlide (chart : ChartExportResult) : Slide :=
  {| kind := ChartSlide (type chart);
     elements := [ Text (title chart); Image (dataURL chart); footer ];
     notes := [] |}.

(** *** Slide 13: investment thesis *)

Definition thesisText : string :=
  if str_truthy (investmentThesis form_)
  then first_line (investmentThesis form_)
  else "We recommend " ++ toUpperCase (Rating_text (rating form_)) ++ " on " ++
       str_or (pstr profile_ companyName) "the company" ++
       " based on [YOUR THESIS HERE]".

Definition thesisSections : list (string * string) :=
  [ ("KEY CATALYSTS",
     join_lines [ "• Product launches / expansion"; "• Earnings momentum";
                  "• Market share gains"; "• M&A opportunities" ]);
    ("SUPPORTING EVIDENCE",
     join_lines [ "• Financial metrics"; "• Competitive positioning";
                  "• Industry tailwinds"; "• Management track record" ]);
    ("WHY NOW?",
     join_lines [ "• Valuation opportunity"; "• Near-term catalysts";
                  "• Sentiment inflection"; "• Risk/reward favorable" ]) ].

Definition investmentThesisSlide : Slide :=
  {| kind := InvestmentThesis;
     elements :=
       ([ Shape; Text "Investment Thesis"; Shape; Text "ACTION REQUIRED";
          Shape; Text "CORE THESIS"; Text thesisText ]
        ++ flat_map (fun section => [ Shape; Text (fst section); Shape; Text (snd section) ])
                    thesisSections
        ++ [ Text "Note: Replace placeholder content with your specific investment thesis, catalysts, and supporting analysis.";
             footer ])%list;
     notes := [ "USER ACTION REQUIRED: Replace the placeholder text with your investment thesis. Include your core thesis, catalysts, and supporting evidence." ] |}.

(** *** Slide 14: valuation *)

Definition priceBoxes : list (string * string) :=
  [ ("CURRENT PRICE",
     if num_gt currentPrice (Num 0) then "$" ++ toFixed 2 currentPrice else "N/A");
    ("TARGET PRICE",
     if truthy (JNum targetPrice_) then "$" ++ toFixed 2 targetPrice_ else "TBD");
    ("UPSIDE/DOWNSIDE",
     if truthy (JNum upside) then signed_percent upside else "TBD");
    ("TIME HORIZON", TimeHorizon_text (timeHorizon form_) ++ " Months") ].

Definition valuationMethods : list (string * list string) :=
  [ ("DCF ANALYSIS",
     [ "Revenue Growth: [X]% CAGR"; "Terminal Growth: [X]%"; "WACC: [X]%";
       "Implied Value: $[XX]" ]);
    ("COMPARABLE COMPANIES",
     [ "P/E: " ++ if_truthy (rnum ratios_ peRatioTTM)
                            (fun n => formatRatio (JNum n) 1) "[X]x";
       "EV/EBITDA: " ++ if_truthy (rnum ratios_ enterpriseValueMultipleTTM)
                                  (fun n => formatRatio (JNum n) 1) "[X]x";
       "Peer Median: [X]x"; "Implied Range: $[XX]-$[XX]" ]);
    ("PRECEDENT TRANSACTIONS",
     [ "Transaction Multiple: [X]x"; "Premium Paid: [X]%"; "Control Premium: [X]%";
       "Implied Value: $[XX]" ]) ].

Definition valuationSlide : Slide :=
  {| kind := Valuation;
     elements :=
       ([ Shape; Text "Valuation Analysis"; Shape; Text "ACTION REQUIRED"; Shape ]
        ++ flat_map (fun box => [ Text (fst box); Text (snd box) ]) priceBoxes
        ++ flat_map (fun method =>
                       [ Shape; Text (fst method); Shape ]
                       ++ map (fun item => Text (safeText ("• " ++ item))) (snd method))
                    valuationMethods
        ++ [ Text "VALUATION SUMMARY"; Shape;
             Text "[Add valuation range football field chart]"; footer ])%list;
     notes := [ "USER ACTION REQUIRED: Replace placeholder text with your valuation analysis. Include DCF assumptions, comparable multiples, and target price derivation." ] |}.

(** *** Slide 15: risks and mitigants *)

Record RiskRow : Type := {
  category : string;
  risk : string;
  mitigant : string
}.

Definition risks : list RiskRow :=
  [ {| category := "MARKET / MACRO";
       risk := "Economic downturn, interest rate changes, market volatility";
       mitigant := "Diversified revenue, strong balance sheet, defensive positioning" |};
    {| category := "COMPETITIVE";
       risk := "New entrants, pricing pressure, technology disruption";
       mitigant := "Strong moat, brand loyalty, R&D investment, scale advantages" |};
    {| category := "EXECUTION";
       risk := "Management changes, integration risks, operational issues";
       mitigant := "Experienced team, track record, operational improvements" |};
    {| category := "REGULATORY";
       risk := "Policy changes, compliance costs, legal challenges";
       mitigant := "Proactive compliance, regulatory expertise, diversification" |};
    {| category := "VALUATION";
       risk := "Multiple compression, earnings miss, sentiment shift";
       mitigant := "Attractive entry point, catalyst visibility, margin of safety" |} ].

Definition risksAndMitigantsSlide : Slide :=
  {| kind := RisksAndMitigants;
     elements :=
       ([ Shape; Text "Risks & Mitigants"; Shape; Text "ACTION REQUIRED";
          Shape; Text "KEY RISKS"; Shape; Text "MITIGATING FACTORS" ]
        ++ flat_map (fun item =>
                       [ Shape; Shape; Shape; Text (category item); Text (risk item);
                         Text (safeText ("✓ " ++ mitigant item)) ])
                    risks
        ++ [ Text "Note: Replace placeholder risks and mitigants with company-specific analysis";
             footer ])%list;
     notes := [ "USER ACTION REQUIRED: Replace placeholder text with specific risks to your investment thesis and how they can be mitigated." ] |}.

(** *** The remaining slides

    Cover, company overview, industry overview, peer comparison, growth
    drivers and appendix: only the heading of each (and the footer, where
    the slide has one) is kept. *)

Definition coverSlide : Slide :=
  {| kind := Cover;
     elements := [ Text "BUY-SIDE EQUITY RESEARCH";
                   Text (str_or (pstr profile_ companyName) "Company Name") ];
     notes := [] |}.

Definition companyOverviewSlide : Slide :=
  {| kind := CompanyOverview;
     elements := [ Shape;
                   Text (safeText ("Company Overview | " ++
                                   str_or (pstr profile_ companyName) "Company"));
                   footer ];
     notes := [] |}.

Definition industryOverviewSlide : Slide :=
  {| kind := IndustryOverview;
     elements := [ Text "Industry Overview"; footer ];
     notes := [] |}.

Definition peersCompsSlide : Slide :=
  {| kind := PeersComps; elements := [ Text "Peer Comparison"; footer ]; notes := [] |}.

Definition growthDriversSlide : Slide :=
  {| kind := GrowthDrivers;
     elements := [ Shape; Text "Growth Drivers & Business Model"; footer ];
     notes := [] |}.

Definition appendixSlide : Slide :=
  {| kind := Appendix; elements := [ Text "Appendix"; footer ]; notes := [] |}.
End Slides.


(** ** Building the deck *)

(** What a [catch] clause receives: an [Error] with its message, or any
    other value. *)
Inductive Thrown : Type :=
| ThrownError (message : string)
| ThrownOther.

(** [error instanceof Error ? error.message : 'Unknown error'] *)
Definition message_of (error : Thrown) : string :=
  match error with
  | ThrownError message => message
  | ThrownOther => "Unknown error"
  end.

(** The rejection of [build]: [new Error(message)]. *)
Inductive BuildError : Type := Error (message : string).

Definition error_message (e : BuildError) : string :=
  match e with Error message => message end.

(** Sequencing of steps that may fail. *)
Definition bind {E A B : Type} (x : E + A) (k : A -> E + B) : E + B :=
  match x with
  | inl e => inl e
  | inr a => k a
  end.

Notation "x <- e ;; k" := (bind e (fun x => k))
  (at level 100, e at next level, right associativity).

(** [try { body } catch (error) { throw new Error(prefix + message) }] *)
Definition wrap {A : Type} (prefix : string) (body : Thrown + A) : BuildError + A :=
  match body with
  | inl error => inl (Error (prefix ++ message_of error))
  | inr a => inr a
  end.

(** A slide method adds its slide to the presentation or throws. *)
Definition SlideStep : Type := Deck -> Thrown + Deck.

(** The private slide methods of [PitchDeckBuilder]. *)
Record SlideMethods : Type := {
  addCoverSlide : SlideStep;
  addTableOfContents : SlideStep;
  addInvestmentSummary : SlideStep;
  addCompanyOverview : SlideStep;
  addIndustryOverview : SlideStep;
  addKeyMetrics : SlideStep;
  addFinancialSummary : SlideStep;
  addPeersComps : SlideStep;
  addGrowthDrivers : SlideStep;
  addInvestmentThesis : SlideStep;
  addValuation : SlideStep;
  addRisksAndMitigants : SlideStep;
  addAppendix : SlideStep;
  addChartSlide : ChartExportResult -> SlideStep
}.

(** [this.pptx.addSlide()] followed by the calls that fill the slide. *)
Definition addSlide (s : Slide) : SlideStep := fun pptx => inr (pptx ++ [s])%list.

(** The methods as the class defines them. *)
Definition methods (this : PitchDeckBuilder) : SlideMethods :=
  {| addCoverSlide := addSlide (coverSlide this);
     addTableOfContents := addSlide (tableOfContentsSlide this);
     addInvestmentSummary := addSlide (investmentSummarySlide this);
     addCompanyOverview := addSlide (companyOverviewSlide this);
     addIndustryOverview := addSlide (industryOverviewSlide this);
     addKeyMetrics := addSlide (keyMetricsSlide this);
     addFinancialSummary := addSlide (financialSummarySlide this);
     addPeersComps := addSlide (peersCompsSlide this);
     addGrowthDrivers := addSlide (growthDriversSlide this);
     addInvestmentThesis := addSlide (investmentThesisSlide this);
     addValuation := addSlide (valuationSlide this);
     addRisksAndMitigants := addSlide (risksAndMitigantsSlide this);
     addAppendix := addSlide (appendixSlide this);
     addChartSlide := fun chart => addSlide (chartSlide this chart) |}.

Section Build.
Context {Blob : Type}
        (m : SlideMethods)
        (write : Deck -> Thrown + Blob)       (* [this.pptx.write] *)
        (charts : list ChartExportResult).    (* [this.charts] *)

(** The [slides] array of [build]. *)
Definition slides : list (string * SlideStep) :=
  [ ("Cover", addCoverSlide m);
    ("TOC", addTableOfContents m);
    ("InvestmentSummary", addInvestmentSummary m);
    ("CompanyOverview", addCompanyOverview m);
    ("IndustryOverview", addIndustryOverview m);
    ("KeyMetrics", addKeyMetrics m);
    ("FinancialSummary", addFinancialSummary m);
    ("PeersComps", addPeersComps m);
    ("GrowthDrivers", addGrowthDrivers m);
    ("InvestmentThesis", addInvestmentThesis m);
    ("Valuation", addValuation m);
    ("RisksAndMitigants", addRisksAndMitigants m);
    ("Appendix", addAppendix m) ].

Definition slide_prefix (name : string) : string :=
  "Failed on slide " ++ dquote ++ name ++ dquote ++ ": ".

(** The [for] loop over [slides]. *)
Fixpoint run_slides (slides : list (string * SlideStep)) (pptx : Deck)
  : BuildError + Deck :=
  match slides with
  | [] => inr pptx
  | slide :: rest =>
      pptx' <- wrap (slide_prefix (fst slide)) (snd slide pptx) ;;
      run_slides rest pptx'
  end.

(** [const c = this.charts.find(...); if (c) this.addChartSlide(c)] *)
Definition add_chart_of_type (t : ChartType) (pptx : Deck) : Thrown + Deck :=
  match Array_find (fun c => ChartType_eqb (type c) t) charts with
  | Some chart => addChartSlide m chart pptx
  | None => inr pptx
  end.

(** The [try] block that adds the chart slides. *)
Definition add_chart_slides (pptx : Deck) : BuildError + Deck :=
  wrap "Failed on chart slide: "
       (pptx1 <- add_chart_of_type revenueGrowth pptx ;;
        pptx2 <- add_chart_of_type pricePerformance pptx1 ;;
        add_chart_of_type marketShare pptx2).

(** The presentation at the moment it is serialized. *)
Definition assemble : BuildError + Deck :=
  pptx <- run_slides slides [] ;;
  add_chart_slides pptx.

Definition build : BuildError + Blob :=
  pptx <- assemble ;;
  wrap "Failed generating PowerPoint file: " (write pptx).
End Build.

(** [generatePitchDeck] *)
Definition generatePitchDeck {Blob : Type} (write : Deck -> Thrown + Blob)
    (companyData : CompanyData) (formData : FormData)
    (charts : list ChartExportResult) (generatedDate : string)
  : BuildError + Blob :=
  let builder := {| companyData := companyData; formData := formData;
                    charts := charts; generatedDate := generatedDate |} in
  build (methods builder) write charts.

End PptxTemplates.

(* ================================================================== *)
(** * Notions used in the statements *)
(* ================================================================== *)

Module Notions.
Import JS Types.

(** [compare] orders [x] and [y] as the finite key [key] does. *)
Definition keyed {A : Type} (compare : A -> A -> number) (key : A -> Q) (x y : A) : Prop :=
  comes_after compare x y = Qlt_bool (key y) (key x).

Definition key_le {A : Type} (key : A -> Q) (x y : A) : Prop := (key x <= key y)%Q.

(** The finite value of a number, [0] when it has none. *)
Definition finite_part (n : number) : Q :=
  match n with
  | Num q => q
  | _ => 0%Q
  end.

Definition is_finite (n : number) : Prop := exists q, n = Num q.

(** Every character of [s] satisfies [p]. *)
Fixpoint string_forall (p : ascii -> bool) (s : string) : bool :=
  match s with
  | EmptyString => true
  | String c rest => p c && string_forall p rest
  end.

Definition is_digit (c : ascii) : bool :=
  let n := nat_of_ascii c in ((48 <=? n) && (n <=? 57))%nat.

(** The characters of a plain dollar amount: digits, the grouping comma,
    the decimal point, the minus sign and the dollar sign. *)
Definition plain_char (c : ascii) : bool :=
  is_digit c || Ascii.eqb c "," || Ascii.eqb c "." || Ascii.eqb c "-" || Ascii.eqb c "$".

End Notions.

(** ** Revenue growth *)

Module GrowthNotions.
Import JS Types.



(** The same two steps on doubles, each operation rounded:
    [(curr - prev) / prev * 100] and [Math.round(g * 10) / 10]. *)
Definition growth_percent_double (prev curr : number) : number :=
  double_mul (double_div (double_sub curr prev) prev) (Num 100).








End GrowthNotions.

(** ** Sample data *)

Module Samples.
Import JS Types.

(** A statement of which only the date, the year and the revenue are known. *)
Definition statement (date calendarYear : string) (revenue : jsnum) : FMPIncomeStatement :=
  {| date := date; calendarYear := calendarYear; revenue := revenue;
     grossProfit := JUndefined; grossProfitRatio := JUndefined;
     ebitda := JUndefined; operatingIncome := JUndefined;
     netIncome := JUndefined; netIncomeRatio := JUndefined;
     epsdiluted := JUndefined |}.

(** Three years in provider order (latest first), all with revenue. *)
Definition three_years : list FMPIncomeStatement :=
  [ statement "2023-12-31" "2023" (JNum (num 120));
    statement "2022-12-31" "2022" (JNum (num 113));
    statement "2021-12-31" "2021" (JNum (num 100)) ].




End Samples.

(** ** Price series *)

Module PriceNotions.
Import JS Types.

Definition price_dated (p : FMPHistoricalPrice) : Prop :=
  Notions.is_finite (Date_getTime (price_date p)).

Definition price_time (p : FMPHistoricalPrice) : Q :=
  Notions.finite_part (Date_getTime (price_date p)).

End PriceNotions.

Module PriceSamples.
Import JS Types.

Definition point (d : string) (c : Z) : FMPHistoricalPrice :=
  {| price_date := d; close := JNum (num c) |}.

(** The same trading day delivered twice. *)
Definition duplicated_day : list FMPHistoricalPrice :=
  [ point "2024-01-02" 10; point "2024-01-02" 10 ].

(** A series whose earliest close is zero. *)
Definition zero_start : list FMPHistoricalPrice :=
  [ point "2024-01-03" 12; point "2024-01-02" 0 ].

(** Three days in provider order (latest first). *)
Definition three_days : list FMPHistoricalPrice :=
  [ point "2024-01-04" 12; point "2024-01-03" 11; point "2024-01-02" 10 ].

End PriceSamples.

(** ** Market share *)

Module MarketNotions.
Import JS Types.

(** [numbers.reduce((sum, x) => sum + x, 0)] *)
Definition sum_numbers (l : list number) : number := fold_left num_add l (Num 0).

Fixpoint Qsum (l : list Q) : Q :=
  match l with
  | [] => 0
  | q :: l' => q + Qsum l'
  end%Q.

(** [b] does not exceed [a]. *)
Definition num_desc (a b : number) : Prop := num_le b a = true.

(** No listed peer has an infinite revenue in the map. *)
Definition no_infinite_estimate (peersData : list PeerData)
    (peerRevenues : gmap string number) : Prop :=
  forall peer, peer ∈ peersData -> peerRevenues !! peer_symbol peer <> Some PosInf.

End MarketNotions.

Module MarketSamples.
Import JS Types.

Definition peer (symbol name : string) : PeerData :=
  {| peer_symbol := symbol; peer_companyName := name; marketCap := JUndefined |}.

Definition one_peer : list PeerData := [ peer "MSFT" "Microsoft" ].

Definition one_estimate : gmap string number := {[ "MSFT" := num 5 ]}.

Definition two_peers : list PeerData := [ peer "MSFT" "Microsoft"; peer "GOOG" "Alphabet" ].

Definition two_estimates : gmap string number :=
  <[ "GOOG" := num 20 ]> {[ "MSFT" := num 50 ]}.

(** Three peers: one with a revenue, one whose estimate is [NaN] (as the
    page stores it for a peer without market capitalisation) and one that
    the map does not know. *)
Definition three_peers : list PeerData :=
  [ peer "MSFT" "Microsoft"; peer "GOOG" "Alphabet"; peer "META" "Meta Platforms" ].

Definition patchy_estimates : gmap string number :=
  <[ "GOOG" := NaN ]> {[ "MSFT" := num 50 ]}.

End MarketSamples.

Module CompanyNotions.
Import JS Types.

(** A company whose revenue is a finite number. *)
Definition finite_revenue (c : ChartHelpers.Company) : Prop :=
  Notions.is_finite (ChartHelpers.company_revenue c).

Definition revenue_value (c : ChartHelpers.Company) : Q :=
  Notions.finite_part (ChartHelpers.company_revenue c).

(** The sort key of the ranking: larger revenues first. *)
Definition rank_key (c : ChartHelpers.Company) : Q := (- revenue_value c)%Q.

Definition positive_company (c : ChartHelpers.Company) : Prop :=
  exists q, ChartHelpers.company_revenue c = Num q /\ (0 < q)%Q.

(** The peer has a revenue estimate, and it is positive. *)
Definition has_known_revenue (peerRevenues : gmap string number) (peer : PeerData) : bool :=
  let revenue := ChartHelpers.Map_get peerRevenues (peer_symbol peer) in
  truthy revenue && js_gt revenue (Num 0).

(** The revenue of a peer that counts as known: the entry of its symbol in
    the map, when there is one and it is above zero. *)
Definition known_revenue (peerRevenues : gmap string number) (peer : PeerData)
  : option number :=
  match peerRevenues !! peer_symbol peer with
  | Some (Num q) => if Qlt_bool 0 q then Some (Num q) else None
  | Some PosInf => Some PosInf
  | _ => None
  end.

(** The entities to rank: the subject with the revenue it comes with, then
    the peers with a known revenue, each under its company name. *)
Definition ranked_entities (companyRevenue : jsnum) (companyName : string)
    (peersData : list PeerData) (peerRevenues : gmap string number)
  : list ChartHelpers.Company :=
  {| ChartHelpers.name := companyName;
     ChartHelpers.company_revenue := ToNumber companyRevenue |}
  :: omap (fun peer =>
             match known_revenue peerRevenues peer with
             | Some v => Some {| ChartHelpers.name := peer_companyName peer;
                                 ChartHelpers.company_revenue := v |}
             | None => None
             end)
          peersData.

(** [a] ranks before [b]: its revenue is not smaller. *)
Definition ranks_before (a b : ChartHelpers.Company) : Prop :=
  num_le (ChartHelpers.company_revenue b) (ChartHelpers.company_revenue a) = true.

(** The entities that enter the ranking: the subject, then the peers with
    a known revenue. *)
Definition entities (companyRevenue : jsnum) (companyName : string)
    (peersData : list PeerData) (peerRevenues : gmap string number)
  : list ChartHelpers.Company :=
  {| ChartHelpers.name := companyName;
     ChartHelpers.company_revenue := ToNumber companyRevenue |}
  :: ChartHelpers.known_peers peersData peerRevenues.

End CompanyNotions.

(** ** The data-source fallback *)

Module ApiSamples.
Import JS Types.

Definition apple : FMPCompanyProfile :=
  {| symbol := "AAPL"; companyName := "Apple Inc.";
     price := JNum (Num (381 # 2)); beta := JNum (Num (6 # 5));
     volAvg := JNum (num 50000000); mktCap := JNum (num 3000000000000);
     range := "164.08-199.62"; sector := "Technology";
     industry := "Consumer Electronics"; city := "Cupertino"; state := "CA";
     country := "US"; ceo := "Tim Cook"; fullTimeEmployees := "164000";
     ipoDate := "1980-12-12" |}.

(** What the secondary source delivers: a profile and nothing else. *)
Definition profile_only : CompanyData :=
  {| profile := Some apple; incomeStatements := []; ratiosTTM := None;
     historicalPrices := []; peers := []; peersData := [] |}.

Definition get (symbol : string) : CompanyDataApi.Request :=
  {| CompanyDataApi.method := "GET"; CompanyDataApi.query_symbol := Some symbol |}.

(** The primary aggregation when the profile request is answered by
    [answer]; the remaining fetches, if reached, deliver nothing more. *)
Definition primary (answer : FmpClient.AxiosResult (list FMPCompanyProfile))
    (upperSymbol : string) : APIError + CompanyData :=
  FmpClient.fetchAllCompanyData upperSymbol answer
    (fun p => inr {| profile := Some p; incomeStatements := []; ratiosTTM := None;
                     historicalPrices := []; peers := []; peersData := [] |}).

(** A secondary source that knows the company, and one that is down. *)
Definition yahoo_up (upperSymbol : string) : unit + CompanyData := inr profile_only.
Definition yahoo_down (upperSymbol : string) : unit + CompanyData := inl tt.

End ApiSamples.

(** ** The deck *)

Module DeckNotions.
Import JS Types ChartHelpers PptxTemplates.

(** The thirteen slides that [build] adds in its loop, in the order of
    its [slides] array. *)
Definition fixed_slides (this : PitchDeckBuilder) : list Slide :=
  [ coverSlide this; tableOfContentsSlide this; investmentSummarySlide this;
    companyOverviewSlide this; industryOverviewSlide this; keyMetricsSlide this;
    financialSummarySlide this; peersCompsSlide this; growthDriversSlide this;
    investmentThesisSlide this; valuationSlide this; risksAndMitigantsSlide this;
    appendixSlide this ].

(** The order in which [build] looks the charts up. *)
Definition chart_order : list ChartType := [ revenueGrowth; pricePerformance; marketShare ].

(** An image of type [t] is among [charts]. *)
Definition produced (charts : list ChartExportResult) (t : ChartType) : bool :=
  existsb (fun c => ChartType_eqb (type c) t) charts.

(** The chart slides of a deck, in deck order. *)
Definition chart_types (deck : Deck) : list ChartType :=
  flat_map (fun s => match kind s with
                     | ChartSlide t => [t]
                     | _ => []
                     end) deck.

(** The toggle of a chart. *)
Definition enabled (en : ChartToggles) (t : ChartType) : bool :=
  match t with
  | pricePerformance => en_pricePerformance en
  | revenueGrowth => en_revenueGrowth en
  | marketShare => en_marketShare en
  end.

(** There is something to draw for a chart: a price, a revenue, or at
    least two market-share entities. *)
Definition drawable (priceData : option PriceChartData)
    (revenueData : option RevenueChartData)
    (marketShareData : option MarketShareData) (t : ChartType) : bool :=
  match t with
  | pricePerformance =>
      match priceData with Some d => (0 <? length (prices d))%nat | None => false end
  | revenueGrowth =>
      match revenueData with Some d => (0 <? length (revenues d))%nat | None => false end
  | marketShare =>
      match marketShareData with Some d => (1 <? length (values d))%nat | None => false end
  end.

(** The order of slides that the numbering of the slide methods and the
    table of contents announce: the chart slides between the financial
    summary and the peer comparison. *)
Definition announced_order : list SlideKind :=
  [ Cover; TOC; InvestmentSummary; CompanyOverview; IndustryOverview; KeyMetrics;
    FinancialSummary;
    ChartSlide revenueGrowth; ChartSlide pricePerformance; ChartSlide marketShare;
    PeersComps; GrowthDrivers; InvestmentThesis; Valuation; RisksAndMitigants;
    Appendix ].

(** Some text or table cell of the slide includes [t]. *)
Definition mentions (s : Slide) (t : string) : bool :=
  existsb (fun e => match e with
                    | Text x => includes t x
                    | Table rows => existsb (existsb (includes t)) rows
                    | Image _ | Shape => false
                    end) (elements s).

(** The builder with other free-text inputs. *)
Definition with_texts (this : PitchDeckBuilder) (thesis valuation risks : string)
  : PitchDeckBuilder :=
  let f := formData this in
  {| companyData := companyData this;
     formData := {| companyInput := companyInput f; rating := rating f;
                    timeHorizon := timeHorizon f; targetPrice := targetPrice f;
                    Types.charts := Types.charts f; themeColor := themeColor f;
                    authorName := authorName f;
                    investmentThesis := thesis; valuation := valuation;
                    risksAndMitigants := risks |};
     PptxTemplates.charts := PptxTemplates.charts this;
     generatedDate := generatedDate this |}.

(** The annotation that marks a slide as waiting for the user. *)
Definition action_required (s : Slide) : bool :=
  existsb (String.prefix "USER ACTION REQUIRED") (notes s).

End DeckNotions.

Module DeckSamples.
Import JS Types ChartHelpers PptxTemplates.

Definition image (t : ChartType) (title dataURL : string) : ChartExportResult :=
  {| type := t; dataURL := dataURL; title := title |}.

(** The three images in the order the rasterizer delivers them. *)
Definition all_charts : list ChartExportResult :=
  [ image pricePerformance "Stock Price Performance" "data:image/png;base64,P";
    image revenueGrowth "Revenue & Growth" "data:image/png;base64,R";
    image marketShare "Market Share" "data:image/png;base64,M" ].

Definition full_statement (year : string) (rev gp e oi ni : Z) (eps : Q)
  : FMPIncomeStatement :=
  {| date := year ++ "-09-30"; calendarYear := year;
     revenue := JNum (num rev); grossProfit := JNum (num gp);
     grossProfitRatio := JNum (Num (inject_Z gp / inject_Z rev));
     ebitda := JNum (num e); operatingIncome := JNum (num oi);
     netIncome := JNum (num ni);
     netIncomeRatio := JNum (Num (inject_Z ni / inject_Z rev));
     epsdiluted := JNum (Num eps) |}.

Definition ratios : FMPRatiosTTM :=
  {| dividendYieldTTM := JNum (Num (1 # 200)); peRatioTTM := JNum (Num (59 # 2));
     grossProfitMarginTTM := JNum (Num (11 # 25));
     netProfitMarginTTM := JNum (Num (1 # 4));
     returnOnEquityTTM := JNum (Num (3 # 2));
     debtEquityRatioTTM := JNum (Num (9 # 5));
     priceToBookRatioTTM := JNum (Num 45);
     priceToSalesRatioTTM := JNum (Num (15 # 2));
     enterpriseValueMultipleTTM := JNum (Num 23) |}.

Definition full_data : CompanyData :=
  {| profile := Some ApiSamples.apple;
     incomeStatements :=
       [ full_statement "2023" 383290000000 169148000000 125820000000
                        114301000000 96990000000 (613 # 100);
         full_statement "2022" 394328000000 170782000000 130541000000
                        119437000000 99803000000 (611 # 100) ];
     ratiosTTM := Some ratios;
     historicalPrices := PriceSamples.three_days;
     peers := [ "MSFT"; "GOOG" ];
     peersData := MarketSamples.two_peers |}.

Definition form (thesis valuation risks : string) : FormData :=
  {| companyInput := "AAPL"; rating := Buy; timeHorizon := H12;
     targetPrice := JNum (num 220);
     Types.charts := {| en_marketShare := true; en_revenueGrowth := true;
                        en_pricePerformance := true |};
     themeColor := "2563eb"; authorName := "Analyst";
     investmentThesis := thesis; valuation := valuation;
     risksAndMitigants := risks |}.

(** Full data, all three charts, no free text entered. *)
Definition full_builder : PitchDeckBuilder :=
  {| companyData := full_data; formData := form "" "" "";
     PptxTemplates.charts := all_charts; generatedDate := "November 1, 2026" |}.

(** The latest statement lacks EBITDA, gross profit, the margins and EPS. *)
Definition sparse_statement : FMPIncomeStatement :=
  {| date := "2023-09-30"; calendarYear := "2023";
     revenue := JNum (num 383290000000); grossProfit := JNull;
     grossProfitRatio := JUndefined; ebitda := JUndefined;
     operatingIncome := JNum (num 114301000000); netIncome := JNull;
     netIncomeRatio := JUndefined; epsdiluted := JUndefined |}.

Definition sparse_builder : PitchDeckBuilder :=
  {| companyData :=
       {| profile := Some ApiSamples.apple;
          incomeStatements := [ sparse_statement ];
          ratiosTTM := None; historicalPrices := []; peers := []; peersData := [] |};
     formData := form "" "" "";
     PptxTemplates.charts := []; generatedDate := "November 1, 2026" |}.

(** The user has written a valuation and a risk section. *)
Definition user_valuation : string := "DCF at 9% WACC gives $250 per share".
Definition user_risks : string := "Supply chain concentration in one region".

Definition user_text_builder : PitchDeckBuilder :=
  {| companyData := full_data;
     formData := form "Services growth is underpriced" user_valuation user_risks;
     PptxTemplates.charts := all_charts; generatedDate := "November 1, 2026" |}.

(** Slide methods whose chart method throws on the chart of type [t]. *)
Definition chart_method_failing_on (this : PitchDeckBuilder) (t : ChartType)
  : SlideMethods :=
  let m := methods this in
  {| addCoverSlide := addCoverSlide m;
     addTableOfContents := addTableOfContents m;
     addInvestmentSummary := addInvestmentSummary m;
     addCompanyOverview := addCompanyOverview m;
     addIndustryOverview := addIndustryOverview m;
     addKeyMetrics := addKeyMetrics m;
     addFinancialSummary := addFinancialSummary m;
     addPeersComps := addPeersComps m;
     addGrowthDrivers := addGrowthDrivers m;
     addInvestmentThesis := addInvestmentThesis m;
     addValuation := addValuation m;
     addRisksAndMitigants := addRisksAndMitigants m;
     addAppendix := addAppendix m;
     addChartSlide := fun chart pptx =>
       if ChartType_eqb (type chart) t
       then inl (ThrownError "image data is not valid")
       else addChartSlide m chart pptx |}.

(** Slide methods whose valuation method throws. *)
Definition valuation_method_failing (this : PitchDeckBuilder) : SlideMethods :=
  let m := methods this in
  {| addCoverSlide := addCoverSlide m;
     addTableOfContents := addTableOfContents m;
     addInvestmentSummary := addInvestmentSummary m;
     addCompanyOverview := addCompanyOverview m;
     addIndustryOverview := addIndustryOverview m;
     addKeyMetrics := addKeyMetrics m;
     addFinancialSummary := addFinancialSummary m;
     addPeersComps := addPeersComps m;
     addGrowthDrivers := addGrowthDrivers m;
     addInvestmentThesis := addInvestmentThesis m;
     addValuation := fun pptx => inl (ThrownError "toFixed is not a function");
     addRisksAndMitigants := addRisksAndMitigants m;
     addAppendix := addAppendix m;
     addChartSlide := addChartSlide m |}.

(** A serializer that returns the deck itself, and one that fails. *)
Definition write_ok (deck : Deck) : Thrown + Deck := inr deck.
Definition write_failing (deck : Deck) : Thrown + Deck := inl (ThrownError "out of memory").

(** A rasterizer that always delivers. *)
Definition render_ok (config : ChartConfiguration) (width height : nat) : unit + string :=
  inr "data:image/png;base64,AAAA".

End DeckSamples.

Module ChartSamples.
Import JS Types ChartHelpers.

Definition all_enabled : ChartToggles :=
  {| en_marketShare := true; en_revenueGrowth := true; en_pricePerformance := true |}.

Definition priceData : PriceChartData :=
  processPriceData PriceSamples.three_days defaultMaxPoints.

Definition revenueData : RevenueChartData := processRevenueData Samples.three_years.

Definition marketShareData : MarketShareData :=
  calculateMarketShare (JNum (num 30)) "Apple Inc."
                       MarketSamples.two_peers MarketSamples.two_estimates.

(** What [generateAllCharts] returns for these data with the rasterizer
    [DeckSamples.render_ok]. *)
Definition generated : list ChartExportResult :=
  [ DeckSamples.image pricePerformance "Stock Price Performance" "data:image/png;base64,AAAA";
    DeckSamples.image revenueGrowth "Revenue & Growth" "data:image/png;base64,AAAA";
    DeckSamples.image marketShare "Market Share" "data:image/png;base64,AAAA" ].

End ChartSamples.

(* ================================================================== *)
(** * The rest of lib/fmpClient.ts: cache, guarded fetches, peers,
      descriptions *)
(* ================================================================== *)

Module FmpClientCache.
Import JS Types FmpClient.

(** [parseInt(s, 10)]: as [parseInt], but a [0x] prefix is not special. *)
Definition parseInt10 (s : string) : number :=
  let s := skip_spaces s in
  let '(neg, s) := match s with
                   | String "-" rest => (true, rest)
                   | String "+" rest => (false, rest)
                   | _ => (false, s)
                   end in
  match parse_digits 10 s None with
  | Some n => num (if neg then - Z.of_N n else Z.of_N n)
  | None => NaN
  end.

(** [CACHE_DURATION_MS], from [process.env.CACHE_DURATION_MINUTES]. *)
Definition CACHE_DURATION_MS (CACHE_DURATION_MINUTES : option string) : number :=
  let minutes := match CACHE_DURATION_MINUTES with
                 | Some v => str_or v "60"
                 | None => "60"
                 end in
  num_mul (num_mul (parseInt10 minutes) (Num 60)) (Num 1000).

Record CacheEntry (T : Type) : Type := {
  data : T;
  timestamp : Z
}.
Arguments data {T} _.
Arguments timestamp {T} _.

(** The module-level [cache]; [T] is the type of the cached answers. *)
Definition Cache (T : Type) : Type := gmap string (CacheEntry T).

(** [Date.now() - cached.timestamp < duration] *)
Definition still_valid {T : Type} (duration : number) (now : Z) (cached : CacheEntry T)
  : bool :=
  num_lt (num (now - timestamp cached)) duration.

(** [getCachedOrFetch]. [now] is the clock at the lookup and [stored_at]
    the clock when the answer is stored; the result is the answer (or what
    [fetchFn] threw) and the cache afterwards. *)
Definition getCachedOrFetch {E T : Type} (duration : number) (now stored_at : Z)
    (cacheKey : string) (fetchFn : unit -> E + T) (cache : Cache T)
  : (E + T) * Cache T :=
  let miss :=
    match fetchFn tt with
    | inl e => (inl e, cache)
    | inr d => (inr d, <[ cacheKey := {| data := d; timestamp := stored_at |} ]> cache)
    end in
  match cache !! cacheKey with
  | Some cached =>
      if still_valid duration now cached then (inr (data cached), cache) else miss
  | None => miss
  end.

(** [clearCache] *)
Definition clearCache {T : Type} (cache : Cache T) : Cache T := ∅.

(** [getIncomeStatements]: the cached request; [get] is [axios.get] for the
    endpoint with the given symbol and limit. *)
Definition incomeKey (symbol : string) (limit : nat) : string :=
  "income:" ++ toUpperCase symbol ++ ":" ++ digits (N.of_nat limit).

Definition getIncomeStatements (duration : number) (now stored_at : Z)
    (get : string -> nat -> AxiosResult (list FMPIncomeStatement))
    (symbol : string) (limit : nat) (cache : Cache (list FMPIncomeStatement))
  : (APIError + list FMPIncomeStatement) * Cache (list FMPIncomeStatement) :=
  getCachedOrFetch duration now stored_at (incomeKey symbol limit)
    (fun _ => fmpRequest [] false (get (toUpperCase symbol) limit)) cache.

(** [safeFetch]: a forbidden endpoint yields the default. *)
Definition safeFetch {T : Type} (fetchFn : APIError + T) (defaultValue : T)
  : APIError + T :=
  match fetchFn with
  | inr v => inr v
  | inl apiError =>
      if String.eqb (code apiError) "FORBIDDEN" || includes "403" (message apiError)
      then inr defaultValue
      else inl apiError
  end.

(** A row of [getPeerData]: [PeerData] with all its six properties
    ([Types.PeerData] keeps the three that the chart pipeline reads); the
    fields carry the prefix [row_]. *)
Record PeerRow : Type := {
  row_symbol : string;
  row_companyName : string;
  row_marketCap : jsnum;
  row_peRatio : jsnum;
  row_evToEbitda : jsnum;
  row_revenueGrowth : jsnum
}.

(** [v || null] *)
Definition or_null (v : jsnum) : jsnum := if truthy v then v else JNull.

(** The body of the [map] callback of [getPeerData]: [null] when a
    request fails or the profile is missing. *)
Definition peerRow (getCompanyProfile : string -> APIError + option FMPCompanyProfile)
    (getRatiosTTM : string -> APIError + option FMPRatiosTTM)
    (symbol : string) : option PeerRow :=
  match getCompanyProfile symbol, getRatiosTTM symbol with
  | inr (Some profile), inr ratios =>
      Some {| row_symbol := symbol;
              row_companyName := companyName profile;
              row_marketCap := mktCap profile;
              row_peRatio := or_null (match ratios with
                                  | Some r => peRatioTTM r
                                  | None => JUndefined
                                  end);
              row_evToEbitda := or_null (match ratios with
                                     | Some r => enterpriseValueMultipleTTM r
                                     | None => JUndefined
                                     end);
              row_revenueGrowth := JNull |}
  | _, _ => None
  end.

Definition getPeerData (getCompanyProfile : string -> APIError + option FMPCompanyProfile)
    (getRatiosTTM : string -> APIError + option FMPRatiosTTM)
    (peerSymbols : list string) : list PeerRow :=
  omap (peerRow getCompanyProfile getRatiosTTM) (take 5 peerSymbols).

(** [description.split(/\s+/)] on ASCII white space: the pieces between
    maximal runs of white space. *)
Definition starts_with_space (s : string) : bool :=
  match s with
  | String c _ => is_space c
  | EmptyString => false
  end.

Fixpoint split_spaces (s : string) : list string :=
  match s with
  | EmptyString => [ "" ]
  | String c rest =>
      if is_space c then
        if starts_with_space rest then split_spaces rest else "" :: split_spaces rest
      else
        match split_spaces rest with
        | w :: ws => String c w :: ws
        | [] => [ String c "" ]
        end
  end.

(** [words.join(' ')] *)
Fixpoint join_spaces (words : list string) : string :=
  match words with
  | [] => ""
  | [w] => w
  | w :: rest => w ++ " " ++ join_spaces rest
  end.

Definition condenseDescription (description : string) (maxWords : nat) : string :=
  let words := split_spaces description in
  if (length words <=? maxWords)%nat then description
  else
    let truncated := join_spaces (take maxWords words) in
    truncated ++ "...".

End FmpClientCache.

(* ================================================================== *)
(** * pages/api/fmp/company-data.ts: the aggregation endpoint without a
      secondary provider *)
(* ================================================================== *)

Module FmpCompanyDataApi.
Import JS Types CompanyDataApi.

Section Handler.
Context (FMP_API_KEY : option string)
        (fetchAllCompanyData : string -> APIError + CompanyData).

(** The result is the number of calls of [fetchAllCompanyData] and the
    response. *)
Definition handler (req : Request) : nat * HttpResponse :=
  if negb (String.eqb (method req) "GET") then
    (0%nat, {| status := 405; body := ErrorBody "Method not allowed" "" |})
  else
    match query_symbol req with
    | None =>
        (0%nat, {| status := 400;
                   body := ErrorBody "Symbol required" "Please provide a stock symbol" |})
    | Some symbol =>
        if negb (str_truthy symbol) then
          (0%nat, {| status := 400;
                     body := ErrorBody "Symbol required" "Please provide a stock symbol" |})
        else if negb (apiKey_set FMP_API_KEY) then
          (0%nat, {| status := 500;
                     body := ErrorBody "API key not configured"
                               "Please set FMP_API_KEY in your environment variables" |})
        else
          match fetchAllCompanyData (toUpperCase symbol) with
          | inr companyData =>
              if negb (has_profile companyData) then
                (1%nat, {| status := 404;
                           body := ErrorBody "Company not found"
                                     ("No data found for symbol: " ++ toUpperCase symbol) |})
              else (1%nat, {| status := 200; body := Data companyData |})
          | inl apiError =>
              if String.eqb (code apiError) "AUTH_ERROR" then
                (1%nat, {| status := 401;
                           body := ErrorBody "Invalid API key" (message apiError) |})
              else if String.eqb (code apiError) "RATE_LIMIT" then
                (1%nat, {| status := 429;
                           body := ErrorBody "API rate limit exceeded"
                                     "The free FMP API has strict rate limits. Please wait 1-2 minutes and try again. Tip: Data is cached for 1 hour, so subsequent requests for the same company will be faster." |})
              else
                (1%nat, {| status := 500;
                           body := ErrorBody "Failed to fetch company data"
                                     (str_or (message apiError)
                                             "An unexpected error occurred") |})
          end
    end.
End Handler.

End FmpCompanyDataApi.

(* ================================================================== *)
(** * pages/api/fmp/search.ts *)
(* ================================================================== *)

Module SearchApi.
Import JS Types FmpClientCache.

(** [FMPSearchResult]; a property the provider leaves out is [None]. *)
Record FMPSearchResult : Type := {
  result_symbol : string;
  result_name : string;
  currency : option string;
  stockExchange : option string;
  exchangeShortName : option string
}.

(** [s.toLowerCase()] on ASCII letters. *)
Definition lower_char (c : ascii) : ascii :=
  let n := nat_of_ascii c in
  if ((65 <=? n) && (n <=? 90))%nat then ascii_of_nat (n + 32) else c.

Fixpoint toLowerCase (s : string) : string :=
  match s with
  | EmptyString => EmptyString
  | String c rest => String (lower_char c) (toLowerCase rest)
  end.

(** [s.trim()] on ASCII white space. *)
Fixpoint trimEnd (s : string) : string :=
  match s with
  | EmptyString => EmptyString
  | String c rest =>
      match trimEnd rest with
      | EmptyString => if is_space c then EmptyString else String c EmptyString
      | rest' => String c rest'
      end
  end.

Definition trim (s : string) : string := trimEnd (skip_spaces s).

Definition normalizedQuery (query : string) : string := toLowerCase (trim query).

Definition cacheKey (query : string) : string := "search:" ++ normalizedQuery query.

(** [30 * 60 * 1000] *)
Definition CACHE_DURATION_MS : number := num (30 * 60 * 1000).

(** The predicate of the [filter]. *)
Definition actively_traded (result : FMPSearchResult) : bool :=
  match exchangeShortName result with
  | Some x => str_truthy x && negb (includes "OTC" x)
  | None => false
  end
  && match currency result with
     | Some c => str_truthy c
     | None => false
     end.

Inductive SearchBody : Type :=
| Results (data : list FMPSearchResult)
| SearchError (error : string) (msg : option string).

Record SearchResponse : Type := {
  search_status : Z;
  search_body : SearchBody
}.

Record SearchRequest : Type := {
  search_method : string;
  query : option string   (* [None]: absent or not a string *)
}.

Section Handler.
(** [process.env.FMP_API_KEY] and [axios.get] of the search endpoint at a
    query; [E] is what it throws. *)
Context {E : Type}
        (FMP_API_KEY : option string)
        (get : string -> E + list FMPSearchResult).

(** The result is the queries sent upstream, the response and the
    [searchCache] afterwards; [now] is the clock at the lookup and
    [stored_at] the clock when the answer is stored. *)
Definition handler (now stored_at : Z) (req : SearchRequest)
    (searchCache : Cache (list FMPSearchResult))
  : list string * SearchResponse * Cache (list FMPSearchResult) :=
  if negb (String.eqb (search_method req) "GET") then
    ([], {| search_status := 405;
            search_body := SearchError "Method not allowed" None |}, searchCache)
  else
    let missing :=
      ([], {| search_status := 400;
              search_body := SearchError "Query parameter required" None |}, searchCache) in
    match query req with
    | None => missing
    | Some query =>
        if negb (str_truthy query) then missing
        else if negb (CompanyDataApi.apiKey_set FMP_API_KEY) then
          ([], {| search_status := 500;
                  search_body :=
                    SearchError "API key not configured"
                      (Some "Please set FMP_API_KEY in your environment variables") |},
           searchCache)
        else
          let fetch :=
            match get (normalizedQuery query) with
            | inr data =>
                let filtered := List.filter actively_traded data in
                ([normalizedQuery query],
                 {| search_status := 200; search_body := Results filtered |},
                 <[ cacheKey query := {| data := filtered; timestamp := stored_at |} ]>
                   searchCache)
            | inl _ =>
                ([normalizedQuery query],
                 {| search_status := 500;
                    search_body := SearchError "Search failed"
                                     (Some "Failed to search for companies") |},
                 searchCache)
            end in
          match searchCache !! cacheKey query with
          | Some cached =>
              if still_valid CACHE_DURATION_MS now cached
              then ([], {| search_status := 200; search_body := Results (data cached) |},
                    searchCache)
              else fetch
          | None => fetch
          end
    end.
End Handler.

End SearchApi.

(* ================================================================== *)
(** * app/page.tsx: the chart configurations of [handleFormSubmit], and
      the colours of the pie chart *)
(* ================================================================== *)

Module Home.
Import JS Types ChartHelpers.

(** [CHART_COLORS.bars] *)
Definition CHART_COLORS_bars : list string :=
  [ "#1a2744"; "#2563eb"; "#3d4f5f"; "#6b7c8a"; "#9ca8b3"; "#b8860b" ].

(** The [backgroundColor] of the data set of [createMarketShareConfig]. *)
Definition backgroundColor (data : MarketShareData) (themeColor : string) : list string :=
  let colors := themeColor :: drop 1 CHART_COLORS_bars in
  take (length (share_labels data)) colors.

(** [companyDataResult.profile?.companyName || data.companyInput] *)
Definition displayName (data : FormData) (companyDataResult : CompanyData) : string :=
  match profile companyDataResult with
  | Some p => str_or (companyName p) (companyInput data)
  | None => companyInput data
  end.

Definition priceConfig (data : FormData) (companyDataResult : CompanyData)
  : option ChartConfiguration :=
  if en_pricePerformance (Types.charts data)
     && (0 <? length (historicalPrices companyDataResult))%nat
  then
    let priceData := processPriceData (historicalPrices companyDataResult) defaultMaxPoints in
    Some (createPricePerformanceConfig priceData (displayName data companyDataResult)
                                       (themeColor data))
  else None.

Definition revenueConfig (data : FormData) (companyDataResult : CompanyData)
  : option ChartConfiguration :=
  if en_revenueGrowth (Types.charts data)
     && (0 <? length (incomeStatements companyDataResult))%nat
  then
    let revenueData := processRevenueData (incomeStatements companyDataResult) in
    Some (createRevenueGrowthConfig revenueData (themeColor data))
  else None.

(** The map filled by the [forEach]: [peer.marketCap * 0.15] for each
    peer, a later peer with the same symbol replacing an earlier one. *)
Definition peerRevenues (peersData : list PeerData) : gmap string number :=
  fold_left
    (fun m peer => <[ peer_symbol peer := num_mul (ToNumber (marketCap peer)) (Num (3 # 20)) ]> m)
    peersData ∅.

Definition marketShareConfig (data : FormData) (companyDataResult : CompanyData)
  : option ChartConfiguration :=
  if en_marketShare (Types.charts data)
     && (0 <? length (peersData companyDataResult))%nat
  then
    match head (incomeStatements companyDataResult) with
    | Some latestIncome =>
        let marketShareData :=
          calculateMarketShare (revenue latestIncome)
                               (displayName data companyDataResult)
                               (peersData companyDataResult)
                               (peerRevenues (peersData companyDataResult)) in
        if (1 <? length (values marketShareData))%nat
        then Some (createMarketShareConfig marketShareData (themeColor data))
        else None
    | None => None
    end
  else None.

End Home.

Module DescriptionNotions.
Import JS Notions.

(** A piece of text without white space. *)
Definition space_free (w : string) : Prop :=
  string_forall (fun c => negb (is_space c)) w = true.

End DescriptionNotions.

Module HomeSamples.
Import JS Types.

(** What the aggregation endpoint delivers for a company with one peer. *)
Definition one_peer_result : CompanyData :=
  {| profile := Some ApiSamples.apple;
     incomeStatements := Samples.three_years;
     ratiosTTM := None;
     historicalPrices := PriceSamples.three_days;
     peers := [ "MSFT" ];
     peersData := [ {| peer_symbol := "MSFT"; peer_companyName := "Microsoft";
                       marketCap := JNum (num 3000000000000) |} ] |}.

End HomeSamples.

Module YearNotions.
Import JS Types Notions PptxTemplates.

(** The fiscal year of a statement as a number, when it has one. *)
Definition year_value (s : FMPIncomeStatement) : Q := finite_part (fiscalYear s).

(** [a] is not older than [b]. *)
Definition not_older (a b : FMPIncomeStatement) : Prop := (year_value b <= year_value a)%Q.

(** [a] is not newer than [b]. *)
Definition not_newer (a b : FMPIncomeStatement) : Prop := (year_value a <= year_value b)%Q.

End YearNotions.

(* ================================================================== *)
(** * lib/pptxTemplates.ts: the table of the peer-comparison slide *)
(* ================================================================== *)

Module PeersCompsTable.
Import JS Types FmpClient FmpClientCache PptxTemplates.

(** [v ? formatRatio(v, 1) : 'N/A'] *)
Definition ratio_cell (v : jsnum) : string :=
  safeText (if_truthy v (fun n => formatRatio (JNum n) 1) "N/A").

(** The [rows] of [addPeersComps]: the header, the subject company when
    there is a profile, and the first five peers. *)
Definition peersCompsRows (profile : option FMPCompanyProfile)
    (ratios : option FMPRatiosTTM) (peers : list PeerRow) : list (list string) :=
  let headers := [ "Company"; "Market Cap"; "P/E (TTM)"; "EV/EBITDA" ] in
  let subject :=
    match profile with
    | Some p =>
        [ [ safeText (str_or (companyName p) "" ++ " *");
            safeText (formatLargeNumber (mktCap p));
            ratio_cell (rnum ratios peRatioTTM);
            ratio_cell (rnum ratios enterpriseValueMultipleTTM) ] ]
    | None => []
    end in
  (headers :: subject
   ++ map (fun peer =>
             [ safeText (row_companyName peer);
               safeText (formatLargeNumber (row_marketCap peer));
               ratio_cell (row_peRatio peer);
               ratio_cell (row_evToEbitda peer) ])
          (take 5 peers))%list.

End PeersCompsTable.

(* ================================================================== *)
(** * components/ChartRenderer.tsx: the export of the rendered charts *)
(* ================================================================== *)

Module ChartRenderer.
Import JS Types ChartHelpers.

(** What [exportCharts] finds behind a chart reference: no chart
    ([ref.current] is [null]), a chart without canvas, or a canvas, with
    what its [toDataURL] does. *)
Inductive ChartRef (E : Type) : Type :=
| NotMounted
| NoCanvas
| Canvas (toDataURL : E + string).
Arguments NotMounted {E}.
Arguments NoCanvas {E}.
Arguments Canvas {E} toDataURL.

Section ExportCharts.
Context {E : Type}
        (enabledCharts : ChartToggles)
        (priceChartRef revenueChartRef marketShareChartRef : ChartRef E).

(** One of the three blocks of the [try]. *)
Definition export_chart (enabled : bool) (ref : ChartRef E) (type : ChartType)
    (title : string) (results : list ChartExportResult)
  : E + list ChartExportResult :=
  if enabled then
    match ref with
    | Canvas (inr dataURL) =>
        inr (results ++ [ {| type := type; dataURL := dataURL; title := title |} ])%list
    | Canvas (inl e) => inl e
    | NoCanvas | NotMounted => inr results
    end
  else inr results.

(** One run of [exportCharts]: the array handed to [onChartsReady], which
    is empty when a [toDataURL] throws. *)
Definition exportCharts : list ChartExportResult :=
  match
    match export_chart (en_pricePerformance enabledCharts) priceChartRef
                       pricePerformance "Stock Price Performance" [] with
    | inl e => inl e
    | inr results =>
        match export_chart (en_revenueGrowth enabledCharts) revenueChartRef
                           revenueGrowth "Revenue & Growth" results with
        | inl e => inl e
        | inr results =>
            export_chart (en_marketShare enabledCharts) marketShareChartRef
                         marketShare "Market Share" results
        end
    end
  with
  | inr results => results
  | inl _ => []
  end.
End ExportCharts.

End ChartRenderer.

Module ChartSlideNotions.
Import JS Types ChartHelpers PptxTemplates ChartRenderer DeckNotions.

(** The first image of a chart type among the images. *)
Definition first_of_type (charts : list ChartExportResult) (t : ChartType)
  : option ChartExportResult :=
  head (List.filter (fun c => ChartType_eqb (type c) t) charts).

(** The images that get a slide: for revenue, price and market share, in
    this order, the first image of the type, if there is one. *)
Definition chart_images (charts : list ChartExportResult) : list ChartExportResult :=
  omap (first_of_type charts) chart_order.

(** The slide of an image: its title, the image, the footer. *)
Definition image_slide (this : PitchDeckBuilder) (chart : ChartExportResult) : Slide :=
  {| kind := ChartSlide (type chart);
     elements := [ Text (title chart); Image (dataURL chart); footer this ];
     notes := [] |}.

(** The chart method called on each image in turn; the first throw ends it. *)
Fixpoint add_chart_images (m : SlideMethods) (images : list ChartExportResult)
    (pptx : Deck) : Thrown + Deck :=
  match images with
  | [] => inr pptx
  | chart :: rest => bind (addChartSlide m chart pptx) (add_chart_images m rest)
  end.

(** The canvas behind the reference delivers an image. *)
Definition has_image {E : Type} (ref : ChartRef E) : bool :=
  match ref with
  | Canvas (inr _) => true
  | _ => false
  end.

(** The canvas behind the reference throws. *)
Definition throws {E : Type} (ref : ChartRef E) : bool :=
  match ref with
  | Canvas (inl _) => true
  | _ => false
  end.

(** The reference of a chart type. *)
Definition ref_of {E : Type} (priceChartRef revenueChartRef marketShareChartRef : ChartRef E)
    (t : ChartType) : ChartRef E :=
  match t with
  | pricePerformance => priceChartRef
  | revenueGrowth => revenueChartRef
  | marketShare => marketShareChartRef
  end.

(** The export is given up: the canvas of an enabled chart throws. *)
Definition export_aborted {E : Type} (en : ChartToggles)
    (priceChartRef revenueChartRef marketShareChartRef : ChartRef E) : bool :=
  existsb (fun t => enabled en t
                    && throws (ref_of priceChartRef revenueChartRef marketShareChartRef t))
          [ pricePerformance; revenueGrowth; marketShare ].

(** The chart is enabled and rasterized. *)
Definition exported {E : Type} (en : ChartToggles)
    (priceChartRef revenueChartRef marketShareChartRef : ChartRef E) (t : ChartType) : bool :=
  negb (export_aborted en priceChartRef revenueChartRef marketShareChartRef)
  && enabled en t
  && has_image (ref_of priceChartRef revenueChartRef marketShareChartRef t).

End ChartSlideNotions.

Module ToggleSamples.
Import JS Types ChartHelpers PptxTemplates.

Definition all_disabled : ChartToggles :=
  {| en_marketShare := false; en_revenueGrowth := false; en_pricePerformance := false |}.

(** The user has switched every chart off, yet three images are handed to
    the builder. *)
Definition disabled_builder : PitchDeckBuilder :=
  {| companyData := DeckSamples.full_data;
     formData :=
       {| companyInput := "AAPL"; rating := Buy; timeHorizon := H12;
          targetPrice := JNum (num 220);
          Types.charts := all_disabled;
          themeColor := "2563eb"; authorName := "Analyst";
          investmentThesis := ""; valuation := ""; risksAndMitigants := "" |};
     PptxTemplates.charts := DeckSamples.all_charts;
     generatedDate := "November 1, 2026" |}.

(** Two images of one type. *)
Definition repeated_charts : list ChartExportResult :=
  [ DeckSamples.image marketShare "Market Share" "data:image/png;base64,M1";
    DeckSamples.image pricePerformance "Stock Price Performance" "data:image/png;base64,P";
    DeckSamples.image marketShare "Market Share (old)" "data:image/png;base64,M2" ].

End ToggleSamples.

Module TextNotions.
Import JS Types Notions.

(** A text of ASCII characters only. On such a text the bytes of the model
    are the UTF-16 units of the runtime, and [trim], [toLowerCase],
    [length] and [substring] of the model are those of the runtime. *)
Definition ascii_text (s : string) : Prop :=
  string_forall (fun c => (nat_of_ascii c <? 128)%nat) s = true.

(** The first [n] characters of a text. *)
Fixpoint first_chars (n : nat) (s : string) : string :=
  match n, s with
  | S n', String c rest => String c (first_chars n' rest)
  | _, _ => EmptyString
  end.

(** A name of more than 15 characters is cut to its first 15 and given an
    ellipsis; a shorter one is kept. *)
Definition cut_label (name : string) : string :=
  if (15 <? String.length name)%nat then first_chars 15 name ++ "..." else name.

End TextNotions.

Module UpsideSamples.
Import JS Types PptxTemplates.

(** A price of 80 and a target of 103: an upside of exactly 28.75 percent. *)
Definition tie_builder : PitchDeckBuilder :=
  {| companyData :=
       {| profile :=
            Some {| symbol := "AAPL"; companyName := "Apple Inc.";
                    price := JNum (num 80); beta := JNum (Num (6 # 5));
                    volAvg := JNum (num 50000000); mktCap := JNum (num 3000000000000);
                    range := "64.08-99.62"; sector := "Technology";
                    industry := "Consumer Electronics"; city := "Cupertino";
                    state := "CA"; country := "US"; ceo := "Tim Cook";
                    fullTimeEmployees := "164000"; ipoDate := "1980-12-12" |};
          incomeStatements := []; ratiosTTM := None; historicalPrices := [];
          peers := []; peersData := [] |};
     formData :=
       {| companyInput := "AAPL"; rating := Buy; timeHorizon := H12;
          targetPrice := JNum (num 103);
          Types.charts := {| en_marketShare := true; en_revenueGrowth := true;
                             en_pricePerformance := true |};
          themeColor := "2563eb"; authorName := "Analyst";
          investmentThesis := ""; valuation := ""; risksAndMitigants := "" |};
     PptxTemplates.charts := []; generatedDate := "November 1, 2026" |}.

End UpsideSamples.

(* ================================================================== *)
(** * Properties *)
(* ================================================================== *)

Import JS Types Notions.

(** ** Facts about the JavaScript fragment *)

Lemma Qlt_bool_iff (a b : Q) : Qlt_bool a b = true <-> (a < b)%Q.
Proof.
  unfold Qlt_bool. rewrite negb_true_iff, <- not_true_iff_false, Qle_bool_iff.
  split; [apply Qnot_le_lt | apply Qlt_not_le].
Qed.

Lemma Qlt_bool_false_iff (a b : Q) : Qlt_bool a b = false <-> (b <= a)%Q.
Proof.
  rewrite <- not_true_iff_false, Qlt_bool_iff.
  split; [apply Qnot_lt_le | apply Qle_not_lt].
Qed.

Lemma Qeq_bool_false_iff (a b : Q) : Qeq_bool a b = false <-> ~ (a == b)%Q.
Proof. rewrite <- not_true_iff_false, Qeq_bool_iff. reflexivity. Qed.

Lemma positive_nonzero (m : Q) : (0 < m)%Q -> Qeq_bool m 0 = false.
Proof. intros Hm. apply Qeq_bool_false_iff. intros H. lra. Qed.

(** Two reduced fractions with the same value are the same term. *)
Lemma Num_Qred_eq (x y : Q) : (x == y)%Q -> Num (Qred x) = Num (Qred y).
Proof. intros H. f_equal. apply Qred_complete, H. Qed.

Lemma num_sub_Num (a b : Q) : num_sub (Num a) (Num b) = Num (Qred (a - b)).
Proof.
  unfold num_sub, num_neg, num_add. apply Num_Qred_eq.
  rewrite Qred_correct. reflexivity.
Qed.

Lemma comes_after_difference {A : Type} (key : A -> number) (x y : A) (a b : Q) :
  key x = Num a -> key y = Num b ->
  comes_after (fun u v => num_sub (key u) (key v)) x y = Qlt_bool b a.
Proof.
  intros Hx Hy. unfold comes_after, num_gt. rewrite Hx, Hy, num_sub_Num. simpl.
  apply eq_iff_eq_true. rewrite !Qlt_bool_iff, Qred_correct. split; intros; lra.
Qed.

(** ** Facts about [Array_sort] *)

Section SortFacts.
Context {A : Type} (compare : A -> A -> number).

Lemma insert_sorted_Permutation (x : A) (l : list A) :
  Permutation (insert_sorted compare x l) (x :: l).
Proof.
  induction l as [|y l IH]; simpl; [reflexivity|].
  destruct (comes_after compare x y); [|reflexivity].
  rewrite IH. apply perm_swap.
Qed.

Lemma Array_sort_Permutation (l : list A) : Permutation (Array_sort compare l) l.
Proof.
  induction l as [|x l IH]; simpl; [reflexivity|].
  rewrite insert_sorted_Permutation. constructor. exact IH.
Qed.

Lemma Array_sort_length (l : list A) : length (Array_sort compare l) = length l.
Proof. apply Permutation_length, Array_sort_Permutation. Qed.

Lemma Array_sort_nonempty (l : list A) : l <> [] -> Array_sort compare l <> [].
Proof.
  intros Hl Hs. apply Hl. apply length_zero_iff_nil.
  rewrite <- Array_sort_length, Hs. reflexivity.
Qed.

(** When the comparator is the difference of a finite key, the result is
    ascending in the key. *)
Variable key : A -> Q.

Lemma insert_sorted_StronglySorted (x : A) (l : list A) :
  Forall (keyed compare key x) l ->
  StronglySorted (key_le key) l ->
  StronglySorted (key_le key) (insert_sorted compare x l).
Proof.
  intros Hk Hs. induction Hs as [|y l Hs IH Hy]; simpl.
  - repeat constructor.
  - inversion Hk as [|? ? Hxy Hk']; subst.
    unfold keyed in Hxy. rewrite Hxy.
    destruct (Qlt_bool (key y) (key x)) eqn:E.
    + apply Qlt_bool_iff in E. constructor; [apply IH, Hk'|].
      eapply Permutation_Forall;
        [symmetry; apply insert_sorted_Permutation|].
      constructor; [apply Qlt_le_weak, E | exact Hy].
    + apply Qlt_bool_false_iff in E.
      constructor; [constructor; assumption|].
      constructor; [exact E|].
      eapply Forall_impl; [exact Hy|].
      intros z Hz. unfold key_le in *. eapply Qle_trans; eassumption.
Qed.

Lemma Array_sort_StronglySorted (l : list A) :
  (forall x y, x ∈ l -> y ∈ l -> keyed compare key x y) ->
  StronglySorted (key_le key) (Array_sort compare l).
Proof.
  induction l as [|x l IH]; intros H; simpl; [constructor|].
  apply insert_sorted_StronglySorted.
  - apply Forall_forall. intros y Hy.
    rewrite Array_sort_Permutation in Hy.
    apply H; [left | right; exact Hy].
  - apply IH. intros a b Ha Hb. apply H; right; assumption.
Qed.
End SortFacts.

(** ** Characters of formatted numbers *)

Lemma string_forall_app (p : ascii -> bool) (a b : string) :
  string_forall p (a ++ b) = string_forall p a && string_forall p b.
Proof.
  induction a as [|c a IH]; simpl; [reflexivity|].
  rewrite IH. apply andb_assoc.
Qed.

Lemma string_forall_impl (p q : ascii -> bool) (s : string) :
  (forall c, p c = true -> q c = true) ->
  string_forall p s = true -> string_forall q s = true.
Proof.
  intros Hpq. induction s as [|c s IH]; simpl; [reflexivity|].
  rewrite !andb_true_iff. intros [Hc Hs]. split; auto.
Qed.

Lemma string_of_uint_digits (d : Decimal.uint) :
  string_forall is_digit (NilEmpty.string_of_uint d) = true.
Proof. induction d; simpl; try rewrite IHd; reflexivity. Qed.

Lemma digits_is_digit (n : N) : string_forall is_digit (digits n) = true.
Proof.
  unfold digits, NilZero.string_of_uint.
  destruct (N.to_uint n) eqn:E; try reflexivity;
    rewrite <- E; apply string_of_uint_digits.
Qed.

Lemma pad_zeros_is_digit (k : nat) (s : string) :
  string_forall is_digit s = true -> string_forall is_digit (pad_zeros k s) = true.
Proof. intros H. induction k; simpl; [exact H | exact IHk]. Qed.

Lemma strip_zeros_forall (p : ascii -> bool) (s : string) :
  string_forall p s = true -> string_forall p (strip_zeros s) = true.
Proof.
  induction s as [|c s IH]; simpl; [reflexivity|].
  rewrite andb_true_iff. intros [Hc Hs]. specialize (IH Hs).
  destruct (strip_zeros s) as [|c' r].
  - destruct (Ascii.eqb c "0"); simpl; [reflexivity | rewrite Hc; reflexivity].
  - change (string_forall p (String c (String c' r)) = true).
    simpl in *. rewrite Hc. exact IH.
Qed.

Lemma group3_forall (p : ascii -> bool) (s : string) :
  p ","%char = true ->
  string_forall p s = true -> string_forall p (group3 s) = true.
Proof.
  intros Hcomma. induction s as [|c s IH]; [reflexivity|].
  intros H. change (p c && string_forall p s = true) in H.
  apply andb_true_iff in H as [Hc Hs]. specialize (IH Hs).
  destruct s as [|c' s']; [simpl; rewrite Hc; reflexivity|].
  change (group3 (String c (String c' s')))
    with (String c (if Nat.eqb (String.length (String c' s') mod 3) 0
                    then String "," (group3 (String c' s'))
                    else group3 (String c' s'))).
  destruct (Nat.eqb (String.length (String c' s') mod 3) 0);
    cbn [string_forall]; rewrite Hc, ?Hcomma, IH; reflexivity.
Qed.

Lemma is_digit_plain (c : ascii) : is_digit c = true -> plain_char c = true.
Proof. unfold plain_char. intros ->. reflexivity. Qed.

Lemma toLocaleString_Q_plain (q : Q) :
  string_forall plain_char (toLocaleString_Q q) = true.
Proof.
  unfold toLocaleString_Q. rewrite !string_forall_app.
  repeat (apply andb_true_iff; split).
  - destruct (Qlt_bool q 0); reflexivity.
  - apply group3_forall; [reflexivity|].
    eapply string_forall_impl; [apply is_digit_plain | apply digits_is_digit].
  - set (f := strip_zeros _).
    assert (Hf : string_forall plain_char f = true).
    { apply strip_zeros_forall.
      eapply string_forall_impl; [apply is_digit_plain|].
      apply pad_zeros_is_digit, digits_is_digit. }
    destruct f; [reflexivity|].
    rewrite string_forall_app. rewrite Hf. reflexivity.
Qed.

Lemma formatLargeNumber_below_million (v : Q) :
  (v < 1000000)%Q ->
  FmpClient.formatLargeNumber (JNum (Num v)) = "$" ++ toLocaleString_Q v.
Proof.
  intros Hv. unfold FmpClient.formatLargeNumber, num_ge, num_le,
    FmpClient.e12, FmpClient.e9, FmpClient.e6.
  assert (H12 : Qle_bool 1000000000000 v = false).
  { apply not_true_iff_false. rewrite Qle_bool_iff. intros H. lra. }
  assert (H9 : Qle_bool 1000000000 v = false).
  { apply not_true_iff_false. rewrite Qle_bool_iff. intros H. lra. }
  assert (H6 : Qle_bool 1000000 v = false).
  { apply not_true_iff_false. rewrite Qle_bool_iff. intros H. lra. }
  rewrite H12, H9, H6. reflexivity.
Qed.

(** C10. For every finite negative value [v], [formatLargeNumber v] is the
    dollar sign followed by the localized rendering of [v]: it consists of
    digits, commas, the decimal point and the signs only, so it does not end
    in [T], [B] or [M]; for -2.5e9 it reads [$-2,500,000,000]. The suffix
    branches are taken at or above 1e6 only. *)
Theorem C10_negative_values_are_not_abbreviated (v : Q) :
  (v < 0)%Q ->
  FmpClient.formatLargeNumber (JNum (Num v)) = "$" ++ toLocaleString_Q v
  /\ string_forall plain_char (FmpClient.formatLargeNumber (JNum (Num v))) = true
  /\ (forall prefix suffix,
        suffix = "T" \/ suffix = "B" \/ suffix = "M" ->
        FmpClient.formatLargeNumber (JNum (Num v)) <> prefix ++ suffix)
  /\ FmpClient.formatLargeNumber (JNum (num (-2500000000))) = "$-2,500,000,000".
Proof.
  intros Hv.
  assert (E : FmpClient.formatLargeNumber (JNum (Num v)) = "$" ++ toLocaleString_Q v).
  { apply formatLargeNumber_below_million. lra. }
  assert (P : string_forall plain_char (FmpClient.formatLargeNumber (JNum (Num v))) = true).
  { rewrite E. simpl. apply toLocaleString_Q_plain. }
  split; [exact E|]. split; [exact P|]. split; [|reflexivity].
  intros prefix suffix Hs Heq. rewrite Heq, string_forall_app in P.
  apply andb_true_iff in P as [_ P].
  destruct Hs as [-> | [-> | ->]]; discriminate P.
Qed.

Lemma C10_witness :
  (-2500000000 < 0)%Q /\
  FmpClient.formatLargeNumber (JNum (Num (-2500000000))) = "$-2,500,000,000".
Proof.
  split; [reflexivity|].
  destruct (C10_negative_values_are_not_abbreviated (-2500000000)) as [E _];
    [reflexivity|].
  rewrite E. reflexivity.
Defined.

(** ** Revenue growth *)

Import GrowthNotions.












(** ** Price normalization *)

Import PriceNotions.

Lemma by_price_date_keyed (x y : FMPHistoricalPrice) :
  price_dated x -> price_dated y ->
  keyed ChartHelpers.by_price_date price_time x y.
Proof.
  intros [a Ha] [b Hb]. unfold keyed, price_time. rewrite Ha, Hb. simpl.
  apply (comes_after_difference (fun p => Date_getTime (price_date p))); assumption.
Qed.

(** With a positive [maxPoints] the stride is a finite number, at least 1. *)
Lemma sampling_step_finite (n : nat) (m : Q) :
  (0 < m)%Q ->
  exists s, ChartHelpers.sampling_step n (Num m) = Num s /\ (1 <= s)%Q.
Proof.
  intros Hm. unfold ChartHelpers.sampling_step, num, num_div.
  assert (Hm0 : Qeq_bool m 0 = false) by (apply positive_nonzero, Hm).
  rewrite Hm0. cbn [Math_floor Math_max num_lt].
  destruct (Qlt_bool 1 _) eqn:E.
  - eexists; split; [reflexivity|]. apply Qlt_le_weak, Qlt_bool_iff, E.
  - exists 1%Q. split; [reflexivity | apply Qle_refl].
Qed.

(** A short series is sampled with stride 1. *)
Lemma sampling_step_one (n : nat) (m : Q) :
  (0 < m)%Q -> (inject_Z (Z.of_nat n) < 2 * m)%Q ->
  ChartHelpers.sampling_step n (Num m) = Num 1.
Proof.
  intros Hm Hn. unfold ChartHelpers.sampling_step, num, num_div.
  assert (Hm0 : Qeq_bool m 0 = false) by (apply positive_nonzero, Hm).
  rewrite Hm0. cbn [Math_floor Math_max num_lt].
  assert (E : Qlt_bool 1 (inject_Z (Qfloor (Qred (inject_Z (Z.of_nat n) / m)))) = false).
  { apply Qlt_bool_false_iff.
    assert (Hlt : (Qfloor (Qred (inject_Z (Z.of_nat n) / m)) < 2)%Z).
    { rewrite (Zlt_Qlt _ 2). eapply Qle_lt_trans; [apply Qfloor_le|].
      rewrite Qred_correct. apply Qlt_shift_div_r; [exact Hm|]. exact Hn. }
    rewrite <- (Zle_Qle _ 1). lia. }
  rewrite E. reflexivity.
Qed.

Lemma rem_is_zero_first (s : Q) : (1 <= s)%Q -> rem_is_zero 0 (Num s) = true.
Proof.
  intros Hs. unfold rem_is_zero.
  assert (Hs0 : Qeq_bool s 0 = false) by (apply positive_nonzero; lra).
  rewrite Hs0. apply Qeq_bool_iff.
  assert (E : (inject_Z (Z.of_nat 0) / Qabs s == 0)%Q).
  { unfold Qdiv. apply Qmult_0_l. }
  rewrite (Qfloor_comp _ _ E), E. reflexivity.
Qed.

Lemma rem_is_zero_one (i : nat) : rem_is_zero i (Num 1) = true.
Proof.
  unfold rem_is_zero. change (Qeq_bool 1 0) with false. cbv iota.
  apply Qeq_bool_iff.
  assert (E : (inject_Z (Z.of_nat i) / Qabs 1 == inject_Z (Z.of_nat i))%Q).
  { change (Qabs 1) with 1%Q. field. }
  rewrite (Qfloor_comp _ _ E), E, Qfloor_Z. reflexivity.
Qed.

Lemma filter_index_all {A : Type} (keep : nat -> bool) (i : nat) (l : list A) :
  (forall j, keep j = true) -> filter_index keep i l = l.
Proof.
  intros H. revert i. induction l as [|x l IH]; intros i; simpl; [reflexivity|].
  rewrite H, IH. reflexivity.
Qed.

Lemma filter_index_sublist {A B : Type} (f : A -> B) (keep : nat -> bool)
    (i : nat) (l : list A) :
  sublist (map f (filter_index keep i l)) (map f l).
Proof.
  revert i. induction l as [|x l IH]; intros i; simpl; [constructor|].
  destruct (keep i); simpl; [apply sublist_skip | apply sublist_cons]; apply IH.
Qed.

Lemma normalized_first (c : Q) :
  ~ (c == 0)%Q ->
  num_mul (num_div (Num c) (or_default (JNum (Num c)) (Num 1))) (Num 100) = Num 100.
Proof.
  intros Hc. unfold or_default, truthy.
  assert (Hc0 : Qeq_bool c 0 = false) by (apply Qeq_bool_false_iff, Hc).
  rewrite Hc0. cbn [negb ToNumber num_div]. rewrite Hc0. cbn [num_mul].
  change (Num 100) with (Num (Qred 100)). apply Num_Qred_eq.
  rewrite Qred_correct. field. exact Hc.
Qed.

(** C7 (amended). For a series with at least one point and a positive
    [maxPoints], [processPriceData] sorts the points ascending by date and
    keeps duplicates (the sorted series is a permutation of the input; a
    series shorter than twice [maxPoints] is retained whole), samples a
    sub-sequence that starts with the earliest point, and the first
    normalized value is exactly 100 whenever the close of that point is a
    finite number other than zero. *)
Theorem C7_price_normalization (points : list FMPHistoricalPrice) (maxPoints : Q) :
  points <> [] -> (0 < maxPoints)%Q ->
  let sorted := Array_sort ChartHelpers.by_price_date points in
  let r := ChartHelpers.processPriceData points (Num maxPoints) in
  Permutation sorted points
  /\ (Forall price_dated points -> StronglySorted (key_le price_time) sorted)
  /\ sublist (ChartHelpers.prices r) (map close sorted)
  /\ ((inject_Z (Z.of_nat (length points)) < 2 * maxPoints)%Q ->
      ChartHelpers.prices r = map close sorted)
  /\ exists first,
       head sorted = Some first
       /\ head (ChartHelpers.prices r) = Some (close first)
       /\ forall c, close first = JNum (Num c) -> ~ (c == 0)%Q ->
                    head (ChartHelpers.normalizedPrices r) = Some (Num 100).
Proof.
  intros Hne Hm sorted r.
  assert (Hperm : Permutation sorted points) by apply Array_sort_Permutation.
  split; [exact Hperm|]. split.
  { intros Hd. apply Array_sort_StronglySorted. intros x y Hx Hy.
    rewrite Forall_forall in Hd. apply by_price_date_keyed; auto. }
  split; [apply filter_index_sublist|]. split.
  { intros Hshort. unfold r, ChartHelpers.processPriceData. fold sorted.
    cbn [ChartHelpers.prices]. unfold sorted at 1.
    rewrite Array_sort_length, (sampling_step_one _ _ Hm Hshort).
    f_equal. apply filter_index_all. apply rem_is_zero_one. }
  destruct (sampling_step_finite (length sorted) maxPoints Hm) as [s [Hs Hs1]].
  assert (Hsne : sorted <> []) by (apply Array_sort_nonempty, Hne).
  unfold r, ChartHelpers.processPriceData. fold sorted. rewrite Hs.
  destruct sorted as [|first rest]; [congruence|].
  exists first. cbn [filter_index]. rewrite (rem_is_zero_first s Hs1).
  split; [reflexivity|]. split; [reflexivity|].
  intros c Hc Hc0. cbn [ChartHelpers.normalizedPrices head map].
  rewrite Hc. cbn [ToNumber]. rewrite (normalized_first c Hc0). reflexivity.
Qed.

Lemma C7_price_normalization_witness :
  PriceSamples.three_days <> []
  /\ (0 < 250)%Q
  /\ head (ChartHelpers.normalizedPrices
             (ChartHelpers.processPriceData PriceSamples.three_days (Num 250)))
     = Some (Num 100).
Proof.
  assert (Hne : PriceSamples.three_days <> []) by discriminate.
  assert (Hm : (0 < 250)%Q) by reflexivity.
  split; [exact Hne|]. split; [exact Hm|].
  destruct (C7_price_normalization PriceSamples.three_days 250 Hne Hm)
    as (_ & _ & _ & _ & first & Hfirst & _ & H100).
  vm_compute in Hfirst. injection Hfirst as <-.
  apply (H100 10%Q); [reflexivity | discriminate].
Defined.

(** C7, as stated, fails: a day delivered twice is kept twice (nothing is
    deduplicated), and a series whose earliest close is zero starts at 0,
    not at 100. *)
Lemma C7_counterexample :
  ChartHelpers.prices
    (ChartHelpers.processPriceData PriceSamples.duplicated_day ChartHelpers.defaultMaxPoints)
  = [ JNum (Num 10); JNum (Num 10) ]
  /\ head (ChartHelpers.normalizedPrices
             (ChartHelpers.processPriceData PriceSamples.zero_start
                                            ChartHelpers.defaultMaxPoints))
     = Some (Num 0)
  /\ Num 0 <> Num 100.
Proof. vm_compute. repeat split; discriminate. Qed.

(** ** Market share *)

Import MarketNotions.

Lemma Qsum_app (a b : list Q) : (Qsum (a ++ b) == Qsum a + Qsum b)%Q.
Proof.
  induction a as [|q a IH]; simpl; [ring|]. rewrite IH. ring.
Qed.

(** Adding finite numbers up, starting from a finite number. *)
Lemma fold_num_add_finite (qs : list Q) (a : Q) :
  qs <> [] ->
  fold_left num_add (map Num qs) (Num a) = Num (Qred (a + Qsum qs)).
Proof.
  revert a. induction qs as [|q qs IH]; intros a Hne; [congruence|].
  destruct qs as [|q' qs].
  - simpl. apply Num_Qred_eq. ring.
  - change (fold_left num_add (map Num (q :: q' :: qs)) (Num a))
      with (fold_left num_add (map Num (q' :: qs)) (Num (Qred (a + q)))).
    rewrite IH by discriminate. apply Num_Qred_eq.
    rewrite Qred_correct. simpl. ring.
Qed.

Lemma sum_numbers_finite (qs : list Q) :
  qs <> [] -> sum_numbers (map Num qs) = Num (Qred (Qsum qs)).
Proof.
  intros Hne. unfold sum_numbers. rewrite fold_num_add_finite by exact Hne.
  apply Num_Qred_eq. ring.
Qed.

Lemma Qsum_scaled (t : Q) (qs : list Q) :
  (Qsum (map (fun q => Qred (Qred (q / t) * 100)) qs) == Qsum qs / t * 100)%Q.
Proof.
  induction qs as [|q qs IH]; simpl.
  - unfold Qdiv. ring.
  - rewrite IH, !Qred_correct. unfold Qdiv. ring.
Qed.

(** The percentages of finite revenues with a non-zero total add up to 100. *)
Lemma percentages_sum (qs : list Q) (t : Q) :
  qs <> [] -> sum_numbers (map Num qs) = Num t -> ~ (t == 0)%Q ->
  map (fun v => num_mul (num_div v (Num t)) (Num 100)) (map Num qs)
  = map Num (map (fun q => Qred (Qred (q / t) * 100)) qs)
  /\ sum_numbers (map (fun v => num_mul (num_div v (Num t)) (Num 100)) (map Num qs))
     = Num 100.
Proof.
  intros Hne Ht Ht0.
  assert (Hb : Qeq_bool t 0 = false) by (apply Qeq_bool_false_iff, Ht0).
  assert (E : map (fun v => num_mul (num_div v (Num t)) (Num 100)) (map Num qs)
              = map Num (map (fun q => Qred (Qred (q / t) * 100)) qs)).
  { rewrite !map_map. apply map_ext. intros q. simpl. rewrite Hb. reflexivity. }
  split; [exact E|]. rewrite E.
  rewrite sum_numbers_finite by (destruct qs; [congruence | discriminate]).
  rewrite sum_numbers_finite in Ht by exact Hne. injection Ht as Ht.
  change (Num 100) with (Num (Qred 100)). apply Num_Qred_eq.
  rewrite Qsum_scaled.
  assert (Hs : (Qsum qs == t)%Q) by (rewrite <- Ht; symmetry; apply Qred_correct).
  rewrite Hs. field. exact Ht0.
Qed.

Import CompanyNotions.

(** The peers that the loop of [calculateMarketShare] pushes are the peers
    with a known revenue. *)
Lemma known_peers_ranked (companyRevenue : jsnum) (companyName : string)
    (peersData : list PeerData) (peerRevenues : gmap string number) :
  entities companyRevenue companyName peersData peerRevenues
  = ranked_entities companyRevenue companyName peersData peerRevenues.
Proof.
  unfold entities, ranked_entities. f_equal. unfold ChartHelpers.known_peers.
  induction peersData as [|peer rest IH]; [reflexivity|].
  cbn [flat_map omap list_omap]. rewrite IH.
  unfold known_revenue, ChartHelpers.Map_get.
  destruct (peerRevenues !! peer_symbol peer) as [[q| | |]|]; try reflexivity.
  unfold js_gt, num_gt. cbn [truthy ToNumber num_lt].
  destruct (Qlt_bool 0 q) eqn:E; [|rewrite andb_false_r; reflexivity].
  apply Qlt_bool_iff in E.
  assert (H0 : Qeq_bool q 0 = false) by (apply positive_nonzero, E).
  rewrite H0. reflexivity.
Qed.

Lemma known_peers_positive (peersData : list PeerData) (peerRevenues : gmap string number) :
  no_infinite_estimate peersData peerRevenues ->
  Forall positive_company (ChartHelpers.known_peers peersData peerRevenues).
Proof.
  intros Hfin. unfold ChartHelpers.known_peers.
  induction peersData as [|peer rest IH]; [constructor|].
  cbn [flat_map]. apply Forall_app. split.
  2:{ apply IH. intros p Hp. apply Hfin. right. exact Hp. }
  unfold ChartHelpers.Map_get.
  destruct (peerRevenues !! peer_symbol peer) as [n|] eqn:E; [|constructor].
  destruct n as [q| | |].
  - destruct (truthy (JNum (Num q)) && js_gt (JNum (Num q)) (Num 0)) eqn:G;
      [|constructor].
    apply andb_true_iff in G as [_ G]. repeat constructor.
    exists q. split; [reflexivity|]. apply Qlt_bool_iff, G.
  - constructor.
  - exfalso. apply (Hfin peer); [left|exact E].
  - constructor.
Qed.

Lemma positive_company_finite (c : ChartHelpers.Company) :
  positive_company c -> finite_revenue c.
Proof. intros [q [Hq _]]. exists q. exact Hq. Qed.

Lemma by_revenue_desc_keyed (x y : ChartHelpers.Company) :
  finite_revenue x -> finite_revenue y ->
  keyed ChartHelpers.by_revenue_desc rank_key x y.
Proof.
  intros [a Ha] [b Hb]. unfold keyed, rank_key, revenue_value. rewrite Ha, Hb. simpl.
  change (comes_after ChartHelpers.by_revenue_desc x y)
    with (comes_after (fun u v => num_sub (ChartHelpers.company_revenue u)
                                          (ChartHelpers.company_revenue v)) y x).
  rewrite (comes_after_difference _ y x b a Hb Ha).
  apply eq_iff_eq_true. rewrite !Qlt_bool_iff. split; intros; lra.
Qed.

Lemma finite_revenues_map (l : list ChartHelpers.Company) :
  Forall finite_revenue l ->
  map ChartHelpers.company_revenue l = map Num (map revenue_value l).
Proof.
  induction 1 as [|c l [q Hq] _ IH]; [reflexivity|].
  cbn [map]. rewrite IH. f_equal. unfold revenue_value. rewrite Hq. reflexivity.
Qed.

Lemma StronglySorted_take {A : Type} (R : A -> A -> Prop) (n : nat) (l : list A) :
  StronglySorted R l -> StronglySorted R (take n l).
Proof.
  intros H. rewrite <- (take_drop n l) in H.
  apply StronglySorted_app_1_l in H. exact H.
Qed.

Lemma StronglySorted_map {A B : Type} (R : A -> A -> Prop) (R' : B -> B -> Prop)
    (f : A -> B) (l : list A) :
  (forall x y, x ∈ l -> y ∈ l -> R x y -> R' (f x) (f y)) ->
  StronglySorted R l -> StronglySorted R' (map f l).
Proof.
  intros Hf Hs. induction Hs as [|x l Hs IH Hx]; simpl; [constructor|].
  constructor.
  - apply IH. intros a b Ha Hb. apply Hf; right; assumption.
  - apply Forall_forall. intros b Hb.
    apply list_elem_of_In, in_map_iff in Hb as [y [<- Hy]].
    apply list_elem_of_In in Hy. rewrite Forall_forall in Hx.
    apply Hf; [left | right; exact Hy | apply Hx, Hy].
Qed.

Lemma StronglySorted_weaken {A : Type} (R R' : A -> A -> Prop) (l : list A) :
  (forall x y, x ∈ l -> y ∈ l -> R x y -> R' x y) ->
  StronglySorted R l -> StronglySorted R' l.
Proof.
  intros Hf Hs. rewrite <- (map_id l). apply (StronglySorted_map R R' id l Hf Hs).
Qed.

(** The sum of non-negative revenues led by a positive one is positive. *)
Lemma Qsum_nonneg (qs : list Q) : Forall (fun q => 0 <= q)%Q qs -> (0 <= Qsum qs)%Q.
Proof.
  induction 1 as [|q qs Hq _ IH]; simpl; [apply Qle_refl|]. lra.
Qed.

Lemma fold_left_of_map {A B C : Type} (g : C -> B -> C) (f : A -> B) (l : list A) (a : C) :
  fold_left g (map f l) a = fold_left (fun acc x => g acc (f x)) l a.
Proof. revert a. induction l as [|x l IH]; intros a; simpl; [reflexivity | apply IH]. Qed.

Lemma entities_finite (companyRevenue : jsnum) (c : Q) (companyName : string)
    (peersData : list PeerData) (peerRevenues : gmap string number) :
  ToNumber companyRevenue = Num c ->
  no_infinite_estimate peersData peerRevenues ->
  Forall finite_revenue (entities companyRevenue companyName peersData peerRevenues).
Proof.
  intros Hc Hfin. constructor; [exists c; exact Hc|].
  eapply Forall_impl; [apply known_peers_positive, Hfin|].
  apply positive_company_finite.
Qed.

(** The first of a ranked list has the largest revenue. *)
Lemma ranked_head_largest (h e : ChartHelpers.Company) (tl : list ChartHelpers.Company) :
  StronglySorted (key_le rank_key) (h :: tl) -> e ∈ h :: tl ->
  (revenue_value e <= revenue_value h)%Q.
Proof.
  intros Hs He. apply StronglySorted_inv in Hs as [_ Hh].
  apply elem_of_cons in He as [-> | He]; [apply Qle_refl|].
  rewrite Forall_forall in Hh. specialize (Hh e He).
  unfold key_le, rank_key in Hh. lra.
Qed.

(** C9 (amended). For every input, [calculateMarketShare] retains the
    first six of a ranking of these entities: the subject with whatever
    revenue it comes with, and every peer whose symbol has a revenue above
    zero in the map, under its company name with that revenue; a peer
    without an entry, or with a zero, negative or [NaN] entry, is left out.
    When the subject's revenue is a finite number and no listed peer has an
    infinite one, the ranking is by revenue, largest first, the total of the
    retained revenues is a finite number, and whenever that total is not
    zero each percentage is the revenue divided by the total, times 100, and
    the percentages add up to 100 (in exact arithmetic). The total is above
    zero, in particular, when the subject's revenue is not negative and the
    subject or a peer with a known revenue has a positive one. *)
Theorem C9_market_share (companyRevenue : jsnum) (companyName : string)
    (peersData : list PeerData) (peerRevenues : gmap string number) :
  let r := ChartHelpers.calculateMarketShare companyRevenue companyName
             peersData peerRevenues in
  exists ranked,
    Permutation ranked
      (ranked_entities companyRevenue companyName peersData peerRevenues)
    /\ ChartHelpers.values r = map ChartHelpers.company_revenue (take 6 ranked)
    /\ length (ChartHelpers.values r) <= 6
    /\ forall c,
         ToNumber companyRevenue = Num c ->
         no_infinite_estimate peersData peerRevenues ->
         StronglySorted ranks_before ranked
         /\ StronglySorted num_desc (ChartHelpers.values r)
         /\ exists t,
              sum_numbers (ChartHelpers.values r) = Num t
              /\ (~ (t == 0)%Q ->
                  ChartHelpers.percentages r
                  = map (fun v => num_mul (num_div v (Num t)) (Num 100))
                        (ChartHelpers.values r)
                  /\ sum_numbers (ChartHelpers.percentages r) = Num 100)
              /\ ((0 <= c)%Q ->
                  (0 < c)%Q
                  \/ (exists peer, peer ∈ peersData
                                   /\ known_revenue peerRevenues peer <> None) ->
                  (0 < t)%Q).
Proof.
  intros r.
  set (es := entities companyRevenue companyName peersData peerRevenues).
  set (ranked := Array_sort ChartHelpers.by_revenue_desc es).
  exists ranked.
  assert (Hperm : Permutation ranked es) by apply Array_sort_Permutation.
  set (top := take 6 ranked).
  assert (Hvals : ChartHelpers.values r = map ChartHelpers.company_revenue top)
    by reflexivity.
  split; [rewrite <- known_peers_ranked; exact Hperm|]. split; [exact Hvals|].
  split. { rewrite Hvals, length_map. unfold top. rewrite length_take. lia. }
  intros c Hc Hfin.
  assert (Hes : Forall finite_revenue es) by (apply (entities_finite _ c); assumption).
  assert (Hrk : Forall finite_revenue ranked).
  { eapply Permutation_Forall; [symmetry; exact Hperm | exact Hes]. }
  assert (Hsorted : StronglySorted (key_le rank_key) ranked).
  { apply Array_sort_StronglySorted. intros x y Hx Hy.
    rewrite Forall_forall in Hes. apply by_revenue_desc_keyed; auto. }
  assert (Htop : Forall finite_revenue top) by (apply Forall_take, Hrk).
  assert (Hdesc : forall x y, finite_revenue x -> finite_revenue y ->
                    key_le rank_key x y -> ranks_before x y).
  { intros x y [a Ha] [b Hb] Hxy.
    unfold key_le, rank_key, revenue_value in Hxy. rewrite Ha, Hb in Hxy.
    unfold ranks_before. rewrite Ha, Hb. simpl in *. apply Qle_bool_iff. lra. }
  assert (Hpct : forall t, sum_numbers (ChartHelpers.values r) = Num t ->
            ChartHelpers.percentages r
            = map (fun v => num_mul (num_div v (Num t)) (Num 100)) (ChartHelpers.values r)).
  { intros t Ht. rewrite Hvals, map_map.
    rewrite Hvals in Ht. unfold sum_numbers in Ht. rewrite fold_left_of_map in Ht.
    change (ChartHelpers.percentages r)
      with (map (fun x => num_mul
                   (num_div (ChartHelpers.company_revenue x)
                      (fold_left (fun acc x => num_add acc (ChartHelpers.company_revenue x))
                                 top (Num 0)))
                   (Num 100)) top).
    rewrite Ht. reflexivity. }
  assert (Hne : top <> []).
  { unfold top. assert (Hr : ranked <> []) by (apply Array_sort_nonempty; discriminate).
    destruct ranked; [congruence | discriminate]. }
  assert (Hsum : forall t, sum_numbers (ChartHelpers.values r) = Num t -> ~ (t == 0)%Q ->
            sum_numbers (ChartHelpers.percentages r) = Num 100).
  { intros t Ht Ht0. rewrite (Hpct t Ht). rewrite Hvals in Ht |- *.
    rewrite (finite_revenues_map top Htop) in Ht |- *.
    apply (percentages_sum (map revenue_value top) t); try assumption.
    destruct top; [congruence | discriminate]. }
  split.
  { apply (StronglySorted_weaken (key_le rank_key)); [|exact Hsorted].
    intros x y Hx Hy. rewrite Forall_forall in Hrk. apply Hdesc; auto. }
  split.
  { rewrite Hvals. apply (StronglySorted_map (key_le rank_key)).
    - intros x y Hx Hy Hxy. rewrite Forall_forall in Htop.
      apply (Hdesc x y); auto.
    - apply StronglySorted_take, Hsorted. }
  exists (Qred (Qsum (map revenue_value top))).
  assert (Ht : sum_numbers (ChartHelpers.values r)
               = Num (Qred (Qsum (map revenue_value top)))).
  { rewrite Hvals, (finite_revenues_map top Htop).
    apply sum_numbers_finite. destruct top; [congruence | discriminate]. }
  split; [exact Ht|]. split.
  { intros Ht0. split; [apply Hpct, Ht | apply (Hsum _ Ht Ht0)]. }
  intros Hc0 Hpos. rewrite Qred_correct.
  (* some entity has positive revenue, hence so has the first of the ranking *)
  assert (Hkp : Forall positive_company (ChartHelpers.known_peers peersData peerRevenues))
    by (apply known_peers_positive, Hfin).
  assert (Hex : exists e, e ∈ es /\ (0 < revenue_value e)%Q).
  { destruct Hpos as [Hc0' | (peer & Hin & Hknown)].
    - eexists. split; [left|]. unfold revenue_value. cbn. rewrite Hc. exact Hc0'.
    - assert (Hnn : ChartHelpers.known_peers peersData peerRevenues <> []).
      { pose proof (known_peers_ranked companyRevenue companyName peersData peerRevenues)
          as Hk. unfold entities, ranked_entities in Hk. injection Hk as Hk.
        rewrite Hk. intros Hnil.
        assert (Hsome : exists e, e ∈ omap (fun peer =>
                           match known_revenue peerRevenues peer with
                           | Some v => Some {| ChartHelpers.name := peer_companyName peer;
                                               ChartHelpers.company_revenue := v |}
                           | None => None
                           end) peersData).
        { destruct (known_revenue peerRevenues peer) as [v|] eqn:Ev; [|congruence].
          eexists. apply list_elem_of_omap. exists peer. split; [exact Hin|].
          rewrite Ev. reflexivity. }
        destruct Hsome as [e He]. rewrite Hnil in He. inversion He. }
      destruct (ChartHelpers.known_peers peersData peerRevenues) as [|p ps] eqn:E;
        [congruence|].
      exists p. split; [unfold es, entities; rewrite E; right; left|].
      apply Forall_inv in Hkp. destruct Hkp as [q [Hq Hq0]].
      unfold revenue_value. rewrite Hq. exact Hq0. }
  assert (Hnonneg : Forall (fun e => 0 <= revenue_value e)%Q es).
  { constructor; [unfold revenue_value; cbn; rewrite Hc; exact Hc0|].
    eapply Forall_impl; [exact Hkp|].
    intros e [q [Hq Hq0]]. unfold revenue_value. rewrite Hq. simpl. lra. }
  destruct Hex as [e [He He0]].
  assert (Hnn' : Forall (fun e => 0 <= revenue_value e)%Q ranked).
  { eapply Permutation_Forall; [symmetry; exact Hperm | exact Hnonneg]. }
  rewrite <- Hperm in He.
  unfold top. destruct ranked as [|h tl]; [inversion He|].
  pose proof (ranked_head_largest h e tl Hsorted He) as Hh.
  change (take 6 (h :: tl)) with (h :: take 5 tl). cbn [map Qsum].
  assert (Htl : (0 <= Qsum (map revenue_value (take 5 tl)))%Q).
  { apply Qsum_nonneg. apply Forall_forall. intros q Hq.
    apply list_elem_of_In, in_map_iff in Hq as [x [<- Hx]].
    apply list_elem_of_In in Hx. apply Forall_inv_tail in Hnn'.
    rewrite Forall_forall in Hnn'. apply Hnn'.
    eapply elem_of_sublist; [exact Hx | apply sublist_take]. }
  lra.
Qed.

Lemma patchy_estimates_not_infinite :
  no_infinite_estimate MarketSamples.three_peers MarketSamples.patchy_estimates.
Proof.
  intros peer Hin H.
  repeat (apply elem_of_cons in Hin as [->|Hin]; [vm_compute in H; discriminate|]).
  inversion Hin.
Qed.

Lemma C9_market_share_witness :
  (0 <= 30)%Q
  /\ ChartHelpers.values
       (ChartHelpers.calculateMarketShare (JNum (Num 30)) "Subject"
          MarketSamples.three_peers MarketSamples.patchy_estimates)
     = [ Num 50; Num 30 ]
  /\ sum_numbers
       (ChartHelpers.percentages
          (ChartHelpers.calculateMarketShare (JNum (Num 30)) "Subject"
             MarketSamples.three_peers MarketSamples.patchy_estimates))
     = Num 100.
Proof.
  assert (H0 : (0 <= 30)%Q) by discriminate.
  split; [exact H0|]. split; [reflexivity|].
  destruct (C9_market_share (JNum (Num 30)) "Subject" MarketSamples.three_peers
              MarketSamples.patchy_estimates) as (ranked & _ & _ & _ & H).
  destruct (H 30%Q eq_refl patchy_estimates_not_infinite)
    as (_ & _ & t & _ & Hpct & Hpos).
  apply Hpct. intros Ht.
  assert (Hlt : (0 < t)%Q) by (apply Hpos; [exact H0 | left; reflexivity]).
  lra.
Defined.

(** C9, as stated, fails: with a subject revenue of -5 and one peer of
    estimated revenue 5 an entity has positive revenue, yet the total is
    zero and the percentages are the two infinities, whose sum is [NaN];
    and with a subject whose revenue is missing ([undefined]) the total and
    every percentage are [NaN], although the peer has a positive revenue. *)
Lemma C9_counterexample :
  let r := ChartHelpers.calculateMarketShare (JNum (num (-5))) "Subject"
             MarketSamples.one_peer MarketSamples.one_estimate in
  let r' := ChartHelpers.calculateMarketShare JUndefined "Subject"
              MarketSamples.one_peer MarketSamples.one_estimate in
  ChartHelpers.values r = [ Num 5; Num (-5) ]
  /\ ChartHelpers.percentages r = [ PosInf; NegInf ]
  /\ sum_numbers (ChartHelpers.percentages r) = NaN
  /\ sum_numbers (ChartHelpers.percentages r) <> Num 100
  /\ ChartHelpers.percentages r' = [ NaN; NaN ]
  /\ sum_numbers (ChartHelpers.percentages r') <> Num 100.
Proof. vm_compute. repeat split; discriminate. Qed.

(** ** The data-source fallback *)

Section Fallback.
Context {E : Type}
        (FMP_API_KEY : option string)
        (fetchAllCompanyData : string -> APIError + CompanyData)
        (fetchYahooCompanyData : string -> E + CompanyData).

Abbreviation handler := (CompanyDataApi.handler FMP_API_KEY fetchAllCompanyData fetchYahooCompanyData).
Abbreviation yahoo_attempted :=
  (CompanyDataApi.yahoo_attempted FMP_API_KEY fetchAllCompanyData fetchYahooCompanyData).
Abbreviation tryYahoo := (CompanyDataApi.tryYahoo fetchYahooCompanyData).

Lemma tryYahoo_attempts (upperSymbol : string) (calls : list CompanyDataApi.Call) :
  existsb (fun c => match c with
                    | CompanyDataApi.CallYahoo => true
                    | CompanyDataApi.CallFMP => false
                    end)
          (fst (tryYahoo upperSymbol calls)) = true.
Proof.
  unfold CompanyDataApi.tryYahoo.
  assert (H : existsb (fun c => match c with
                                | CompanyDataApi.CallYahoo => true
                                | CompanyDataApi.CallFMP => false
                                end) (calls ++ [CompanyDataApi.CallYahoo]) = true).
  { rewrite existsb_app. simpl. apply orb_true_r. }
  destruct (fetchYahooCompanyData upperSymbol) as [e|d]; [exact H|].
  destruct (CompanyDataApi.has_profile d); exact H.
Qed.

Lemma tryYahoo_accepts (upperSymbol : string) (calls : list CompanyDataApi.Call)
    (d : CompanyData) :
  fetchYahooCompanyData upperSymbol = inr d ->
  CompanyDataApi.has_profile d = true ->
  snd (tryYahoo upperSymbol calls)
  = {| CompanyDataApi.status := 200; CompanyDataApi.body := CompanyDataApi.Data d |}.
Proof.
  intros Hy Hp. unfold CompanyDataApi.tryYahoo. rewrite Hy, Hp. reflexivity.
Qed.

(** C4 (amended). For a GET request with a symbol: the secondary provider
    is attempted when no API key is configured, and when the primary
    aggregation fails with a rate-limit, network, timeout or not-found
    error; it is not attempted when the primary aggregation delivers a
    profile, nor when it fails with an authentication error. A secondary
    result with a profile is returned with status 200, whatever else it
    carries. *)
Theorem C4_fallback (req : CompanyDataApi.Request) (symbol : string) :
  CompanyDataApi.method req = "GET" ->
  CompanyDataApi.query_symbol req = Some symbol ->
  symbol <> "" ->
  let upperSymbol := toUpperCase symbol in
  (CompanyDataApi.apiKey_set FMP_API_KEY = false -> yahoo_attempted req = true)
  /\ (CompanyDataApi.apiKey_set FMP_API_KEY = true ->
      forall e, fetchAllCompanyData upperSymbol = inl e ->
        code e = "RATE_LIMIT" \/ code e = "NETWORK_ERROR" \/ code e = "TIMEOUT"
        \/ code e = "NOT_FOUND" ->
        yahoo_attempted req = true)
  /\ (CompanyDataApi.apiKey_set FMP_API_KEY = true ->
      forall e, fetchAllCompanyData upperSymbol = inl e ->
        code e = "AUTH_ERROR" ->
        yahoo_attempted req = false
        /\ CompanyDataApi.status (snd (handler req)) = 401%Z)
  /\ (CompanyDataApi.apiKey_set FMP_API_KEY = true ->
      forall d, fetchAllCompanyData upperSymbol = inr d ->
        CompanyDataApi.has_profile d = true ->
        yahoo_attempted req = false
        /\ snd (handler req)
           = {| CompanyDataApi.status := 200;
                CompanyDataApi.body := CompanyDataApi.Data d |})
  /\ (yahoo_attempted req = true ->
      forall d, fetchYahooCompanyData upperSymbol = inr d ->
        CompanyDataApi.has_profile d = true ->
        snd (handler req)
        = {| CompanyDataApi.status := 200;
             CompanyDataApi.body := CompanyDataApi.Data d |}).
Proof.
  intros Hm Hq Hs upperSymbol.
  assert (Hsym : str_truthy symbol = true).
  { unfold str_truthy. apply negb_true_iff. apply String.eqb_neq. exact Hs. }
  unfold CompanyDataApi.yahoo_attempted, CompanyDataApi.handler.
  rewrite Hm, Hq, Hsym. cbn [String.eqb Ascii.eqb Bool.eqb negb].
  fold upperSymbol.
  split; [intros ->; apply tryYahoo_attempts|].
  split.
  { intros -> e -> Hc.
    destruct Hc as [-> | [-> | [-> | ->]]]; cbn; apply tryYahoo_attempts. }
  split; [intros -> e -> ->; cbn; split; reflexivity|].
  split; [intros -> d -> ->; cbn; split; reflexivity|].
  intros Hatt d Hy Hp.
  destruct (CompanyDataApi.apiKey_set FMP_API_KEY).
  - destruct (fetchAllCompanyData upperSymbol) as [e|d'].
    + destruct (_ && _); [discriminate Hatt|].
      apply tryYahoo_accepts; assumption.
    + destruct (CompanyDataApi.has_profile d'); [discriminate Hatt|].
      apply tryYahoo_accepts; assumption.
  - apply tryYahoo_accepts; assumption.
Qed.
End Fallback.

(** A rate-limited primary source and a secondary source that knows the
    company. *)
Lemma C4_fallback_witness :
  let fmp := ApiSamples.primary (FmpClient.ErrorResponse 429 "Limit Reach") in
  CompanyDataApi.method (ApiSamples.get "aapl") = "GET"
  /\ CompanyDataApi.query_symbol (ApiSamples.get "aapl") = Some "aapl"
  /\ "aapl" <> ""
  /\ CompanyDataApi.yahoo_attempted (Some "key") fmp ApiSamples.yahoo_up
       (ApiSamples.get "aapl") = true
  /\ snd (CompanyDataApi.handler (Some "key") fmp ApiSamples.yahoo_up (ApiSamples.get "aapl"))
     = {| CompanyDataApi.status := 200;
          CompanyDataApi.body := CompanyDataApi.Data ApiSamples.profile_only |}.
Proof.
  intros fmp.
  assert (Hm : CompanyDataApi.method (ApiSamples.get "aapl") = "GET") by reflexivity.
  assert (Hq : CompanyDataApi.query_symbol (ApiSamples.get "aapl") = Some "aapl")
    by reflexivity.
  assert (Hs : "aapl" <> "") by discriminate.
  destruct (C4_fallback (Some "key") fmp ApiSamples.yahoo_up
              (ApiSamples.get "aapl") "aapl" Hm Hq Hs) as (_ & Hlimit & _ & _ & Haccept).
  assert (Hatt : CompanyDataApi.yahoo_attempted (Some "key") fmp ApiSamples.yahoo_up
                   (ApiSamples.get "aapl") = true).
  { eapply Hlimit; [reflexivity | reflexivity | left; reflexivity]. }
  repeat (split; [assumption|]).
  apply (Haccept Hatt ApiSamples.profile_only); reflexivity.
Defined.

(** C4, as stated, fails: when the primary source answers the profile
    request with an empty list, the aggregation fails with [NOT_FOUND] (the
    symbol is simply unknown) and the secondary provider is attempted all
    the same. *)
Lemma C4_counterexample :
  let fmp := ApiSamples.primary (FmpClient.Response []) in
  (exists e, fmp "ZZZZ" = inl e /\ code e = "NOT_FOUND")
  /\ fst (CompanyDataApi.handler (Some "key") fmp ApiSamples.yahoo_down (ApiSamples.get "zzzz"))
     = [ CompanyDataApi.CallFMP; CompanyDataApi.CallYahoo ]
  /\ CompanyDataApi.yahoo_attempted (Some "key") fmp ApiSamples.yahoo_down
       (ApiSamples.get "zzzz") = true.
Proof.
  intros fmp. split; [eexists; split; reflexivity|]. split; reflexivity.
Qed.

(** ** The deck builder *)

Import ChartHelpers PptxTemplates DeckNotions.

Local Open Scope list_scope.

Lemma Array_find_Some {A : Type} (p : A -> bool) (l : list A) (x : A) :
  Array_find p l = Some x -> p x = true /\ existsb p l = true.
Proof.
  induction l as [|y l IH]; simpl; [discriminate|].
  destruct (p y) eqn:E.
  - intros [= <-]. split; [exact E | reflexivity].
  - intros H. destruct (IH H) as [Hx He]. split; [exact Hx | exact He].
Qed.

Lemma Array_find_None {A : Type} (p : A -> bool) (l : list A) :
  Array_find p l = None -> existsb p l = false.
Proof.
  induction l as [|y l IH]; simpl; [reflexivity|].
  destruct (p y); [discriminate | exact IH].
Qed.

Lemma ChartType_eqb_eq (a b : ChartType) : ChartType_eqb a b = true -> a = b.
Proof. destruct a, b; simpl; congruence. Qed.

Lemma produced_Permutation (charts charts' : list ChartExportResult) (t : ChartType) :
  Permutation charts charts' -> produced charts t = produced charts' t.
Proof.
  intros Hp. unfold produced. apply eq_iff_eq_true. rewrite !existsb_exists.
  split; intros [c [Hin Hc]]; exists c; split; try exact Hc.
  - eapply Permutation_in; [exact Hp | exact Hin].
  - eapply Permutation_in; [symmetry; exact Hp | exact Hin].
Qed.

(** [generateAllCharts] delivers exactly the enabled charts that have
    something to draw. *)
Lemma generateAllCharts_produced {E : Type}
    (render : ChartConfiguration -> nat -> nat -> E + string)
    (priceData : option PriceChartData) (revenueData : option RevenueChartData)
    (marketShareData : option MarketShareData) (companyName themeColor : string)
    (en : ChartToggles) (results : list ChartExportResult) :
  generateAllCharts render priceData revenueData marketShareData
                    companyName themeColor en = inr results ->
  forall t, produced results t
            = enabled en t && drawable priceData revenueData marketShareData t.
Proof.
  unfold generateAllCharts, push_chart, price_ready, revenue_ready, marketShare_ready.
  intros H t.
  destruct en as [ems erg epp]; cbn [en_marketShare en_revenueGrowth en_pricePerformance] in H.
  unfold enabled, drawable.
  cbn [en_marketShare en_revenueGrowth en_pricePerformance].
  destruct priceData as [pd|], revenueData as [rd|], marketShareData as [md|];
    destruct ems, erg, epp; cbn [andb] in H |- *;
    repeat match type of H with
           | context [(?a <? ?b)%nat] => destruct (a <? b)%nat
           | context [render ?c ?w ?h] => destruct (render c w h)
           end;
    cbn in H; try discriminate H;
    injection H as <-; destruct t; reflexivity.
Qed.

(** The number of market-share entities: the subject and the peers with a
    known revenue, six at most. *)
Lemma calculateMarketShare_entities (companyRevenue : jsnum) (companyName : string)
    (peersData : list PeerData) (peerRevenues : gmap string number) :
  length (values (calculateMarketShare companyRevenue companyName peersData peerRevenues))
  = Nat.min 6 (1 + length (known_peers peersData peerRevenues)).
Proof.
  unfold calculateMarketShare. cbn [values].
  rewrite length_map, length_take, Array_sort_length. reflexivity.
Qed.

Lemma known_peers_nonempty (peersData : list PeerData) (peerRevenues : gmap string number) :
  known_peers peersData peerRevenues <> []
  <-> existsb (has_known_revenue peerRevenues) peersData = true.
Proof.
  unfold known_peers. induction peersData as [|peer rest IH]; cbn [flat_map existsb].
  - split; [congruence | discriminate].
  - unfold has_known_revenue at 1.
    destruct (truthy _ && js_gt _ _).
    + split; [reflexivity | discriminate].
    + exact IH.
Qed.

Import ChartRenderer ChartSlideNotions.

Lemma Array_find_first {A : Type} (p : A -> bool) (l : list A) :
  Array_find p l = head (List.filter p l).
Proof.
  induction l as [|x l IH]; [reflexivity|]. cbn [Array_find List.filter].
  destruct (p x); [reflexivity | exact IH].
Qed.

(** The first image of a type, when there is one, has that type. *)
Lemma first_of_type_produced (charts : list ChartExportResult) (t : ChartType) :
  match first_of_type charts t with
  | Some c => type c = t /\ produced charts t = true
  | None => produced charts t = false
  end.
Proof.
  unfold first_of_type. rewrite <- Array_find_first.
  destruct (Array_find _ charts) as [c|] eqn:E.
  - apply Array_find_Some in E as [Hc He]. split; [apply ChartType_eqb_eq, Hc | exact He].
  - apply Array_find_None, E.
Qed.

Lemma chart_images_types (charts : list ChartExportResult) :
  map type (chart_images charts) = List.filter (produced charts) chart_order.
Proof.
  unfold chart_images, chart_order. cbn [omap list_omap List.filter].
  pose proof (first_of_type_produced charts revenueGrowth) as H1.
  pose proof (first_of_type_produced charts pricePerformance) as H2.
  pose proof (first_of_type_produced charts marketShare) as H3.
  destruct (first_of_type charts revenueGrowth) as [c1|];
    destruct (first_of_type charts pricePerformance) as [c2|];
    destruct (first_of_type charts marketShare) as [c3|];
    cbn [map];
    repeat match goal with
           | H : type _ = _ /\ _ |- _ =>
               let Ht := fresh in let Hp := fresh in
               destruct H as [Ht Hp]; rewrite Ht, Hp
           | H : produced _ _ = false |- _ => rewrite H; clear H
           end; reflexivity.
Qed.

(** [exportCharts] hands over one image for each chart that is enabled and
    rasterized, and nothing when a canvas of an enabled chart throws. *)
Lemma exportCharts_produced {E : Type} (en : ChartToggles)
    (priceChartRef revenueChartRef marketShareChartRef : ChartRef E) (t : ChartType) :
  produced (exportCharts en priceChartRef revenueChartRef marketShareChartRef) t
  = exported en priceChartRef revenueChartRef marketShareChartRef t.
Proof.
  unfold exportCharts, export_chart, exported, export_aborted, enabled, ref_of.
  destruct en as [ems erg epp].
  cbn [en_marketShare en_revenueGrowth en_pricePerformance].
  destruct priceChartRef as [| |[e1|u1]], revenueChartRef as [| |[e2|u2]],
    marketShareChartRef as [| |[e3|u3]];
    destruct ems, erg, epp, t; reflexivity.
Qed.

Lemma has_known_revenue_known (peerRevenues : gmap string number) (peer : PeerData) :
  has_known_revenue peerRevenues peer = true <-> known_revenue peerRevenues peer <> None.
Proof.
  unfold has_known_revenue, known_revenue, Map_get, js_gt, num_gt.
  destruct (peerRevenues !! peer_symbol peer) as [[q| | |]|]; cbn [truthy ToNumber num_lt].
  - destruct (Qlt_bool 0 q) eqn:E.
    + apply Qlt_bool_iff in E. rewrite (positive_nonzero q E).
      split; [discriminate|reflexivity].
    + rewrite andb_false_r. split; [discriminate | congruence].
  - split; [discriminate | congruence].
  - split; [discriminate | reflexivity].
  - split; [discriminate | congruence].
  - split; [discriminate | congruence].
Qed.

(** C5 (amended). Whatever the slide methods do, [build] calls the chart
    method on the first image of each chart type among the images it was
    given, in the order revenue, price, market share, and with the methods
    of the class this is one slide per such image, holding its title, the
    image and the footer, after the thirteen fixed slides. The chart types
    with a slide are therefore the types with an image, whatever the order
    of the images; [build] does not look at the toggles of the form. In the
    application the images come from [exportCharts], called with the toggles
    of the form: it delivers an image exactly for the charts that are
    enabled and rasterized (none when a canvas throws), so that there the
    chart slides are the charts both enabled and rasterized; the same holds
    for images that [generateAllCharts] made with the toggles of the form.
    A market-share chart is drawn only for at least two entities, which
    [calculateMarketShare] yields exactly when a peer has a known revenue. *)
Theorem C5_chart_slides {E E' : Type} (this : PitchDeckBuilder)
    (m : SlideMethods) (pptx : Deck)
    (charts charts' : list ChartExportResult)
    (priceChartRef revenueChartRef marketShareChartRef : ChartRef E)
    (render : ChartConfiguration -> nat -> nat -> E' + string)
    (priceData : option PriceChartData) (revenueData : option RevenueChartData)
    (marketShareData : option MarketShareData) (companyName themeColor : string)
    (companyRevenue : jsnum) (peersData : list PeerData)
    (peerRevenues : gmap string number) :
  let toggles := Types.charts (formData this) in
  add_chart_slides m charts pptx
  = wrap "Failed on chart slide: " (add_chart_images m (chart_images charts) pptx)
  /\ assemble (methods this) charts
     = inr (fixed_slides this ++ map (image_slide this) (chart_images charts))
  /\ map type (chart_images charts) = List.filter (produced charts) chart_order
  /\ (Permutation charts charts' ->
      map type (chart_images charts) = map type (chart_images charts'))
  /\ (let images := exportCharts toggles priceChartRef revenueChartRef marketShareChartRef in
      (forall t, produced images t
                 = exported toggles priceChartRef revenueChartRef marketShareChartRef t)
      /\ map type (chart_images images)
         = List.filter (exported toggles priceChartRef revenueChartRef marketShareChartRef)
                       chart_order)
  /\ (generateAllCharts render priceData revenueData marketShareData
                        companyName themeColor toggles = inr charts ->
      map type (chart_images charts)
      = List.filter (fun t => enabled toggles t
                              && drawable priceData revenueData marketShareData t)
                    chart_order)
  /\ (drawable priceData revenueData marketShareData marketShare = true ->
      exists d, marketShareData = Some d /\ 2 <= length (values d))
  /\ (2 <= length (values (calculateMarketShare companyRevenue companyName
                             peersData peerRevenues))
      <-> exists peer, peer ∈ peersData /\ known_revenue peerRevenues peer <> None).
Proof.
  intros toggles.
  assert (Hcalls : forall (m0 : SlideMethods) (deck : Deck),
            add_chart_slides m0 charts deck
            = wrap "Failed on chart slide: " (add_chart_images m0 (chart_images charts) deck)).
  { intros m0 deck. unfold add_chart_slides, add_chart_of_type, chart_images, chart_order.
    rewrite !Array_find_first. fold (first_of_type charts revenueGrowth).
    fold (first_of_type charts pricePerformance). fold (first_of_type charts marketShare).
    cbn [omap list_omap].
    destruct (first_of_type charts revenueGrowth) as [c1|];
      destruct (first_of_type charts pricePerformance) as [c2|];
      destruct (first_of_type charts marketShare) as [c3|];
      cbn [add_chart_images bind];
      repeat match goal with
             | |- context [addChartSlide m0 ?c ?d] =>
                 destruct (addChartSlide m0 c d); cbn [bind]
             end; reflexivity. }
  split; [apply Hcalls|]. split.
  { unfold assemble.
    change (run_slides (slides (methods this)) []) with
      (inr (B := Deck) (A := BuildError) (fixed_slides this)).
    cbn [bind]. rewrite Hcalls.
    assert (Hadd : forall images deck,
              add_chart_images (methods this) images deck
              = inr (deck ++ map (image_slide this) images)).
    { induction images as [|c images IH]; intros deck.
      - cbn. rewrite app_nil_r. reflexivity.
      - cbn [add_chart_images methods addChartSlide addSlide bind map].
        change (addSlide (chartSlide this c) deck) with
          (inr (A := Thrown) (deck ++ [chartSlide this c])).
        cbn [bind]. rewrite IH, <- app_assoc. reflexivity. }
    rewrite Hadd. reflexivity. }
  split; [apply chart_images_types|]. split.
  { intros Hp. rewrite !chart_images_types. apply filter_ext. intros t.
    apply produced_Permutation, Hp. }
  split.
  { cbv zeta. split; [intros t; apply exportCharts_produced|].
    rewrite chart_images_types. apply filter_ext. intros t. apply exportCharts_produced. }
  split.
  { intros Hg. rewrite chart_images_types. apply filter_ext. intros t.
    apply (generateAllCharts_produced render _ _ _ _ _ _ _ Hg). }
  split.
  { unfold drawable. destruct marketShareData as [d|]; [|discriminate].
    intros H. exists d. split; [reflexivity|]. apply Nat.ltb_lt in H. lia. }
  rewrite calculateMarketShare_entities.
  pose proof (known_peers_nonempty peersData peerRevenues) as Hk.
  rewrite existsb_exists in Hk.
  assert (Hiff : known_peers peersData peerRevenues <> []
                 <-> exists peer, peer ∈ peersData /\ known_revenue peerRevenues peer <> None).
  { rewrite Hk. split.
    - intros (peer & Hin & H). exists peer.
      split; [apply list_elem_of_In, Hin | apply has_known_revenue_known, H].
    - intros (peer & Hin & H). exists peer.
      split; [apply list_elem_of_In, Hin | apply has_known_revenue_known, H]. }
  rewrite <- Hiff.
  destruct (known_peers peersData peerRevenues) as [|p ps]; simpl.
  - split; [lia | congruence].
  - split; [discriminate | lia].
Qed.

Lemma C5_chart_slides_witness :
  Permutation ChartSamples.generated (rev ChartSamples.generated)
  /\ generateAllCharts DeckSamples.render_ok
       (Some ChartSamples.priceData) (Some ChartSamples.revenueData)
       (Some ChartSamples.marketShareData) "Apple Inc." "2563eb"
       (Types.charts (formData DeckSamples.full_builder)) = inr ChartSamples.generated
  /\ drawable (Some ChartSamples.priceData) (Some ChartSamples.revenueData)
              (Some ChartSamples.marketShareData) marketShare = true
  /\ map type (chart_images ChartSamples.generated)
     = [ revenueGrowth; pricePerformance; marketShare ]
  /\ map type (chart_images (rev ChartSamples.generated))
     = [ revenueGrowth; pricePerformance; marketShare ].
Proof.
  assert (Hp : Permutation ChartSamples.generated (rev ChartSamples.generated))
    by apply Permutation_rev.
  assert (Hg : generateAllCharts DeckSamples.render_ok
                 (Some ChartSamples.priceData) (Some ChartSamples.revenueData)
                 (Some ChartSamples.marketShareData) "Apple Inc." "2563eb"
                 (Types.charts (formData DeckSamples.full_builder))
               = inr ChartSamples.generated)
    by (vm_compute; reflexivity).
  assert (Hd : drawable (Some ChartSamples.priceData) (Some ChartSamples.revenueData)
                        (Some ChartSamples.marketShareData) marketShare = true)
    by (vm_compute; reflexivity).
  split; [exact Hp|]. split; [exact Hg|]. split; [exact Hd|].
  destruct (C5_chart_slides (E := unit) DeckSamples.full_builder
              (methods DeckSamples.full_builder) []
              ChartSamples.generated (rev ChartSamples.generated)
              NotMounted NotMounted NotMounted
              DeckSamples.render_ok
              (Some ChartSamples.priceData) (Some ChartSamples.revenueData)
              (Some ChartSamples.marketShareData) "Apple Inc." "2563eb"
              (JNum (num 30)) MarketSamples.two_peers MarketSamples.two_estimates)
    as (_ & _ & _ & Hperm & _ & Hgen & _ & _).
  assert (Ht : map type (chart_images ChartSamples.generated)
               = [ revenueGrowth; pricePerformance; marketShare ]).
  { rewrite (Hgen Hg). vm_compute. reflexivity. }
  split; [exact Ht|]. rewrite <- (Hperm Hp). exact Ht.
Defined.

(** C5, as stated, fails: with every chart switched off in the form and
    three images handed to the builder, no chart is both enabled and
    produced, yet the deck has the three chart slides. And of two images of
    one type only the first gets a slide. *)
Lemma C5_counterexample :
  List.filter (fun t => enabled (Types.charts (formData ToggleSamples.disabled_builder)) t
                        && produced DeckSamples.all_charts t) chart_order
  = []
  /\ (exists deck,
        assemble (methods ToggleSamples.disabled_builder) DeckSamples.all_charts = inr deck
        /\ length deck = 16%nat
        /\ drop 13 deck
           = [ image_slide ToggleSamples.disabled_builder
                 (DeckSamples.image revenueGrowth "Revenue & Growth"
                                    "data:image/png;base64,R");
               image_slide ToggleSamples.disabled_builder
                 (DeckSamples.image pricePerformance "Stock Price Performance"
                                    "data:image/png;base64,P");
               image_slide ToggleSamples.disabled_builder
                 (DeckSamples.image marketShare "Market Share"
                                    "data:image/png;base64,M") ])
  /\ chart_images ToggleSamples.repeated_charts
     = [ DeckSamples.image pricePerformance "Stock Price Performance"
                           "data:image/png;base64,P";
         DeckSamples.image marketShare "Market Share" "data:image/png;base64,M1" ].
Proof.
  split; [reflexivity|]. split; [|reflexivity].
  eexists. split; [reflexivity|]. split; reflexivity.
Qed.

(** C1, on the code. With all three images the deck has sixteen slides,
    and the three chart slides come after the appendix: the deck is not in
    the announced order, where they follow the financial summary. *)
Theorem C1_chart_slides_are_appended_last (this : PitchDeckBuilder)
    (priceURL revenueURL shareURL : string) :
  let charts :=
    [ DeckSamples.image pricePerformance "Stock Price Performance" priceURL;
      DeckSamples.image revenueGrowth "Revenue & Growth" revenueURL;
      DeckSamples.image marketShare "Market Share" shareURL ] in
  exists deck,
    assemble (methods this) charts = inr deck
    /\ length deck = 16%nat
    /\ map kind deck
       = [ Cover; TOC; InvestmentSummary; CompanyOverview; IndustryOverview;
           KeyMetrics; FinancialSummary; PeersComps; GrowthDrivers;
           InvestmentThesis; Valuation; RisksAndMitigants; Appendix;
           ChartSlide revenueGrowth; ChartSlide pricePerformance;
           ChartSlide marketShare ]
    /\ map kind deck <> announced_order.
Proof.
  intros charts. eexists. split; [reflexivity|].
  split; [reflexivity|]. split; [reflexivity|]. discriminate.
Qed.

(** Without charts the thirteen fixed slides are in the announced order. *)
Lemma fixed_slides_in_order (this : PitchDeckBuilder) :
  assemble (methods this) [] = inr (fixed_slides this)
  /\ map kind (fixed_slides this)
     = [ Cover; TOC; InvestmentSummary; CompanyOverview; IndustryOverview;
         KeyMetrics; FinancialSummary; PeersComps; GrowthDrivers;
         InvestmentThesis; Valuation; RisksAndMitigants; Appendix ].
Proof. split; reflexivity. Qed.

(** ** Failures *)

Lemma string_app_assoc (a b c : string) : (a +:+ b) +:+ c = a +:+ (b +:+ c).
Proof.
  induction a as [|x a IH]; [reflexivity|].
  change (String x ((a +:+ b) +:+ c) = String x (a +:+ (b +:+ c))).
  f_equal. exact IH.
Qed.

Lemma run_slides_failure (pre post : list (string * SlideStep)) (name : string)
    (fn : SlideStep) (start pptx : Deck) (error : Thrown) :
  run_slides pre start = inr pptx ->
  fn pptx = inl error ->
  run_slides (pre ++ (name, fn) :: post) start
  = inl (Error (slide_prefix name +:+ message_of error)).
Proof.
  revert start. induction pre as [|[n f] pre IH]; intros start Hpre Hfn.
  - simpl in Hpre. injection Hpre as ->. simpl. rewrite Hfn. reflexivity.
  - simpl in Hpre |- *. destruct (f start) as [e|next]; [discriminate Hpre|].
    simpl in Hpre |- *. apply IH; assumption.
Qed.

(** C6 (amended). A throw in one of the thirteen fixed slide methods makes
    [build] fail with an error that quotes the name of that slide; a throw
    while the chart slides are added makes it fail with the one message
    [Failed on chart slide], which does not say which chart; a failure of
    the serialization makes it fail with a third message, which differs
    from both. [build] returns a file only if every step has succeeded:
    there is no partial deck. *)
Theorem C6_failures_are_fatal {Blob : Type} (m : SlideMethods)
    (write : Deck -> Thrown + Blob) (charts : list ChartExportResult) :
  (forall pre name fn post pptx error,
      slides m = pre ++ (name, fn) :: post ->
      run_slides pre [] = inr pptx ->
      fn pptx = inl error ->
      build m write charts
      = inl (Error ("Failed on slide " +:+ dquote +:+ name +:+ dquote +:+ ": "
                    +:+ message_of error)))
  /\ (forall pptx e,
        run_slides (slides m) [] = inr pptx ->
        add_chart_slides m charts pptx = inl e ->
        build m write charts = inl e
        /\ exists error, e = Error ("Failed on chart slide: " +:+ message_of error))
  /\ (forall deck error,
        assemble m charts = inr deck ->
        write deck = inl error ->
        build m write charts
        = inl (Error ("Failed generating PowerPoint file: " +:+ message_of error)))
  /\ (forall blob,
        build m write charts = inr blob ->
        exists pptx deck,
          run_slides (slides m) [] = inr pptx
          /\ add_chart_slides m charts pptx = inr deck
          /\ write deck = inr blob)
  /\ (forall name msg msg',
        "Failed generating PowerPoint file: " +:+ msg <> slide_prefix name +:+ msg'
        /\ "Failed generating PowerPoint file: " +:+ msg
           <> "Failed on chart slide: " +:+ msg').
Proof.
  split.
  { intros pre name fn post pptx error Hs Hpre Hfn.
    unfold build, assemble. rewrite Hs.
    rewrite (run_slides_failure pre post name fn [] pptx error Hpre Hfn).
    unfold slide_prefix. cbn [bind]. rewrite !string_app_assoc. reflexivity. }
  split.
  { intros pptx e Hrun Hch. unfold build, assemble. rewrite Hrun. cbn [bind].
    rewrite Hch. split; [reflexivity|].
    unfold add_chart_slides, wrap in Hch.
    destruct (bind _ _) as [error|d]; [|discriminate Hch].
    exists error. congruence. }
  split.
  { intros deck error Ha Hw. unfold build. rewrite Ha. cbn [bind].
    rewrite Hw. reflexivity. }
  split.
  { intros blob Hb. unfold build, assemble in Hb.
    destruct (run_slides (slides m) []) as [e|pptx] eqn:Hrun; [discriminate Hb|].
    cbn [bind] in Hb.
    destruct (add_chart_slides m charts pptx) as [e|deck] eqn:Hch; [discriminate Hb|].
    cbn [bind] in Hb. exists pptx, deck. split; [reflexivity|]. split; [exact Hch|].
    destruct (write deck) as [error|b]; [discriminate Hb|].
    simpl in Hb. congruence. }
  intros name msg msg'. unfold slide_prefix. split; cbn; intros H; discriminate H.
Qed.

Lemma C6_failures_are_fatal_witness :
  let m := DeckSamples.valuation_method_failing DeckSamples.full_builder in
  let pre := take 10 (slides m) in
  let post := drop 11 (slides m) in
  slides m = pre ++ ("Valuation"%string, addValuation m) :: post
  /\ run_slides pre [] = inr (take 10 (fixed_slides DeckSamples.full_builder))
  /\ addValuation m (take 10 (fixed_slides DeckSamples.full_builder))
     = inl (ThrownError "toFixed is not a function")
  /\ build m DeckSamples.write_ok DeckSamples.all_charts
     = inl (Error ("Failed on slide " +:+ dquote +:+ "Valuation" +:+ dquote
                   +:+ ": toFixed is not a function")).
Proof.
  intros m pre post.
  assert (Hs : slides m = pre ++ ("Valuation"%string, addValuation m) :: post)
    by reflexivity.
  assert (Hpre : run_slides pre [] = inr (take 10 (fixed_slides DeckSamples.full_builder)))
    by reflexivity.
  assert (Hfn : addValuation m (take 10 (fixed_slides DeckSamples.full_builder))
                = inl (ThrownError "toFixed is not a function")) by reflexivity.
  split; [exact Hs|]. split; [exact Hpre|]. split; [exact Hfn|].
  destruct (C6_failures_are_fatal m DeckSamples.write_ok DeckSamples.all_charts)
    as (Hslide & _).
  exact (Hslide pre "Valuation"%string (addValuation m) post _ _ Hs Hpre Hfn).
Defined.

(** C6, as stated, fails for the chart slides: whether the revenue chart
    slide or the price chart slide throws, [build] fails with the very
    same error, which names neither. *)
Lemma C6_counterexample :
  let failed_on t :=
    build (DeckSamples.chart_method_failing_on DeckSamples.full_builder t)
          DeckSamples.write_ok DeckSamples.all_charts in
  failed_on revenueGrowth = inl (Error "Failed on chart slide: image data is not valid")
  /\ failed_on pricePerformance = inl (Error "Failed on chart slide: image data is not valid")
  /\ includes "Revenue" "Failed on chart slide: image data is not valid" = false
  /\ includes "revenueGrowth" "Failed on chart slide: image data is not valid" = false
  /\ includes "Price" "Failed on chart slide: image data is not valid" = false
  /\ includes "pricePerformance" "Failed on chart slide: image data is not valid" = false.
Proof. intros failed_on. repeat split; vm_compute; reflexivity. Qed.

(** ** Missing values *)

(** A value that is absent, [null], zero or [NaN] is rendered by the
    tables of the key-metrics and financial-summary slides as a zero. *)
Lemma falsy_cells (v : jsnum) :
  truthy v = false ->
  FmpClient.formatLargeNumber (JNum (or_default v (Num 0))) = "$0"%string
  /\ FmpClient.formatPercentage (JNum (times100 (or_default v (Num 0)))) 1 = "0.0%"%string
  /\ millions v = "0"%string.
Proof.
  intros H. unfold millions, or_default. rewrite H. repeat split; reflexivity.
Qed.

(** The investment summary shows [N/A] for the EBITDA margin when the
    latest statement has no EBITDA. *)
Lemma ebitdaMargin_missing (this : PitchDeckBuilder) (latest : FMPIncomeStatement) :
  latestIncome this = Some latest ->
  truthy (ebitda latest) = false ->
  ebitdaMargin this = "N/A"%string.
Proof.
  intros Hl He. unfold ebitdaMargin. rewrite Hl, He, andb_false_r. reflexivity.
Qed.

(** C2, on the code. For a statement whose EBITDA, gross profit, net
    income, margins and diluted EPS are missing, the key-metrics table shows
    [$0], [0.0%] and [$0.00] and the financial-summary table shows [0] in
    their cells, not [N/A]; the investment summary does show [N/A] for the
    EBITDA margin of the same statement. *)
Theorem C2_missing_values_render_as_zero :
  let this := DeckSamples.sparse_builder in
  incomeStatements (companyData this) = [ DeckSamples.sparse_statement ]
  /\ ebitda DeckSamples.sparse_statement = JUndefined
  /\ keyMetricsRows this
     = [ [ "Metric"; "FY2023" ]; [ "Revenue"; "$383.29B" ]; [ "Gross Profit"; "$0" ];
         [ "EBITDA"; "$0" ]; [ "Net Income"; "$0" ]; [ "Gross Margin"; "0.0%" ];
         [ "Net Margin"; "0.0%" ]; [ "EPS (Diluted)"; "$0.00" ] ]%string
  /\ financialSummaryRows this
     = [ [ "($ millions)"; "FY2023" ]; [ "Revenue"; "383290" ]; [ "Gross Profit"; "0" ];
         [ "EBITDA"; "0" ]; [ "Operating Income"; "114301" ]; [ "Net Income"; "0" ] ]%string
  /\ In (Table (keyMetricsRows this)) (elements (keyMetricsSlide this))
  /\ In (Table (financialSummaryRows this)) (elements (financialSummarySlide this))
  /\ In ("EBITDA Margin", "N/A")%string (operatingData this).
Proof.
  intros this. split; [reflexivity|]. split; [reflexivity|].
  split; [vm_compute; reflexivity|]. split; [vm_compute; reflexivity|].
  split; [vm_compute; tauto|]. split; [vm_compute; tauto|].
  vm_compute. tauto.
Qed.

(** ** The user-editable slides *)

(** The three slides carry the annotation in their notes, whatever the
    inputs. *)
Lemma user_slides_are_tagged (this : PitchDeckBuilder) :
  action_required (investmentThesisSlide this) = true
  /\ action_required (valuationSlide this) = true
  /\ action_required (risksAndMitigantsSlide this) = true.
Proof. repeat split; reflexivity. Qed.

(** The thesis slide shows the placeholder for an empty thesis and the
    first line of a thesis that is not empty. *)
Lemma thesis_text (this : PitchDeckBuilder) (c : ascii) (thesis val risks : string) :
  thesisText (with_texts this "" val risks)
  = ("We recommend " +:+ toUpperCase (Rating_text (rating (formData this))) +:+ " on "
     +:+ str_or (pstr (profile (companyData this)) companyName) "the company"
     +:+ " based on [YOUR THESIS HERE]")
  /\ thesisText (with_texts this (String c thesis) val risks)
     = first_line (String c thesis)
  /\ In (Text (thesisText this)) (elements (investmentThesisSlide this)).
Proof.
  split; [reflexivity|]. split; [reflexivity|].
  unfold investmentThesisSlide. cbn [elements]. apply in_app_iff. left.
  do 6 right. left. reflexivity.
Qed.

(** C8, on the code. The valuation slide and the risks slide do not depend
    on the free-text inputs at all: whatever the user has written, they
    show the placeholder template, and no text of the slide includes the
    user's valuation or risk text. *)
Theorem C8_valuation_and_risks_ignore_the_user_text (this : PitchDeckBuilder)
    (thesis1 valuation1 risks1 thesis2 valuation2 risks2 : string) :
  valuationSlide (with_texts this thesis1 valuation1 risks1)
  = valuationSlide (with_texts this thesis2 valuation2 risks2)
  /\ risksAndMitigantsSlide (with_texts this thesis1 valuation1 risks1)
     = risksAndMitigantsSlide (with_texts this thesis2 valuation2 risks2)
  /\ valuation (formData DeckSamples.user_text_builder) = DeckSamples.user_valuation
  /\ risksAndMitigants (formData DeckSamples.user_text_builder) = DeckSamples.user_risks
  /\ mentions (valuationSlide DeckSamples.user_text_builder) DeckSamples.user_valuation
     = false
  /\ mentions (risksAndMitigantsSlide DeckSamples.user_text_builder) DeckSamples.user_risks
     = false
  /\ mentions (valuationSlide DeckSamples.user_text_builder) "Revenue Growth: [X]% CAGR"
     = true
  /\ mentions (investmentThesisSlide DeckSamples.user_text_builder)
              (investmentThesis (formData DeckSamples.user_text_builder))
     = true.
Proof.
  split; [reflexivity|]. split; [reflexivity|].
  split; [reflexivity|]. split; [reflexivity|].
  repeat split; vm_compute; reflexivity.
Qed.

(* ================================================================== *)
(** * Further properties of the code *)
(* ================================================================== *)

(* ------------------------------------------------------------------ *)
(** ** The guarded fetches and the cache of the FMP client *)
(* ------------------------------------------------------------------ *)

Import FmpClient FmpClientCache.

Lemma includes_here (t s : string) : String.prefix t s = true -> includes t s = true.
Proof. intros H. destruct s; simpl in *; rewrite H; reflexivity. Qed.

Lemma includes_cons (t : string) (c : ascii) (s : string) :
  includes t s = true -> includes t (String c s) = true.
Proof.
  intros H. change (includes t (String c s))
    with (if String.prefix t (String c s) then true else includes t s).
  rewrite H. destruct (String.prefix t (String c s)); reflexivity.
Qed.

Lemma includes_app_r (t a s : string) :
  includes t s = true -> includes t (a +:+ s) = true.
Proof. intros H. induction a as [|c a IH]; [exact H|]. apply includes_cons, IH. Qed.

(** X1. Behind [safeFetch], a request never fails as forbidden: a 403 of the
    provider gives the default value, and an error that passes through is one
    of the five other kinds, with a message that does not mention 403. *)
Theorem safeFetch_never_forbidden {T : Type} (empty defaultValue : T)
    (allowEmpty : bool) (r : AxiosResult T) (e : APIError) :
  safeFetch (fmpRequest empty allowEmpty r) defaultValue = inl e ->
  (forall msg, r <> ErrorResponse 403 msg)
  /\ code e ∈ [ "AUTH_ERROR"; "RATE_LIMIT"; "API_ERROR"; "TIMEOUT"; "NETWORK_ERROR" ]
  /\ includes "403" (message e) = false.
Proof.
  unfold safeFetch, fmpRequest.
  destruct r as [d|status msg| |]; try discriminate.
  - destruct (status =? 401)%Z eqn:E1.
    { simpl. intros [= <-]. split; [|split; [set_solver|reflexivity]].
      intros m [= -> _]. discriminate. }
    destruct (status =? 403)%Z eqn:E3.
    { destruct allowEmpty; discriminate. }
    destruct (status =? 429)%Z eqn:E9.
    { simpl. intros [= <-]. split; [|split; [set_solver|reflexivity]].
      intros m [= -> _]. discriminate. }
    cbn [createAPIError code message].
    change (String.eqb "API_ERROR" "FORBIDDEN") with false. cbn [orb].
    destruct (includes "403" ("API error: " +:+ msg)) eqn:Hi; [discriminate|].
    intros [= <-]. split; [|split; [set_solver|exact Hi]].
    intros m [= -> _]. discriminate.
  - simpl. intros [= <-]. split; [discriminate|split; [set_solver|reflexivity]].
  - simpl. intros [= <-]. split; [discriminate|split; [set_solver|reflexivity]].
Qed.

Lemma safeFetch_never_forbidden_witness :
  code (createAPIError "API rate limit exceeded. Please try again later." "RATE_LIMIT")
    ∈ [ "AUTH_ERROR"; "RATE_LIMIT"; "API_ERROR"; "TIMEOUT"; "NETWORK_ERROR" ].
Proof.
  apply (safeFetch_never_forbidden (T := list FMPIncomeStatement) [] [] false
           (ErrorResponse 429 "too many requests")).
  reflexivity.
Defined.

(** X2. [safeFetch] decides on the text of the message as well: an error
    answer of the provider with any status other than 401, 403 and 429 whose
    message contains "403" is replaced by the default value, like a 403. *)
Theorem safeFetch_swallows_messages_with_403 {T : Type} (empty defaultValue : T)
    (allowEmpty : bool) (status : Z) (msg : string) :
  status <> 401%Z -> status <> 429%Z ->
  includes "403" msg = true ->
  safeFetch (fmpRequest empty allowEmpty (ErrorResponse status msg)) defaultValue
  = inr (if (status =? 403)%Z && allowEmpty then empty else defaultValue).
Proof.
  intros H1 H9 Hi. unfold safeFetch, fmpRequest.
  destruct (Z.eqb_spec status 401) as [|_]; [contradiction|].
  destruct (Z.eqb_spec status 429) as [|_]; [contradiction|].
  destruct (status =? 403)%Z.
  - destruct allowEmpty; reflexivity.
  - cbn [createAPIError code message andb].
    rewrite (includes_app_r "403" "API error: " msg Hi).
    rewrite orb_true_r. reflexivity.
Qed.

Lemma safeFetch_swallows_messages_with_403_witness :
  safeFetch (fmpRequest (T := list FMPIncomeStatement) [] false
               (ErrorResponse 500 "upstream answered 403")) []
  = inr [].
Proof.
  apply (safeFetch_swallows_messages_with_403 (T := list FMPIncomeStatement) [] [] false
           500 "upstream answered 403"); [lia | lia | reflexivity].
Defined.

Lemma still_valid_fresh {T : Type} (d : Q) (now : Z) (entry : CacheEntry T) :
  (inject_Z (now - timestamp entry) < d)%Q -> still_valid (Num d) now entry = true.
Proof. intros H. unfold still_valid, num_lt, num. apply Qlt_bool_iff, H. Qed.

Lemma still_valid_stale {T : Type} (d : Q) (now : Z) (entry : CacheEntry T) :
  (d <= inject_Z (now - timestamp entry))%Q -> still_valid (Num d) now entry = false.
Proof. intros H. unfold still_valid, num_lt, num. apply Qlt_bool_false_iff, H. Qed.

(** X3. Round trip of the cache: an answer fetched on a miss is stored, and
    any later lookup of the same key made less than the cache duration after
    the store returns that answer without calling its fetch function (even a
    failing one) and leaves the cache as it is. *)
Theorem getCachedOrFetch_round_trip {E T : Type} (duration : Q)
    (now0 stored_at now stored_at' : Z) (cacheKey : string)
    (fetchFn fetchFn' : unit -> E + T) (cache : Cache T) (v : T) :
  cache !! cacheKey = None ->
  fetchFn tt = inr v ->
  (inject_Z (now - stored_at) < duration)%Q ->
  let first := getCachedOrFetch (Num duration) now0 stored_at cacheKey fetchFn cache in
  fst first = inr v
  /\ getCachedOrFetch (Num duration) now stored_at' cacheKey fetchFn' (snd first)
     = (inr v, snd first).
Proof.
  intros Hmiss Hf Hfresh first.
  assert (Hfirst : first
                   = (inr v, <[ cacheKey := {| data := v; timestamp := stored_at |} ]> cache)).
  { subst first. unfold getCachedOrFetch. rewrite Hmiss, Hf. reflexivity. }
  rewrite Hfirst. cbn [fst snd]. split; [reflexivity|].
  unfold getCachedOrFetch, Cache. rewrite lookup_insert_eq.
  rewrite still_valid_fresh by exact Hfresh. reflexivity.
Qed.

Lemma getCachedOrFetch_round_trip_witness :
  getCachedOrFetch (E := APIError) (Num 3600000) 1000 0 "income:AAPL:5"
    (fun _ => inl (createAPIError "Network error. Please check your connection."
                                  "NETWORK_ERROR"))
    (snd (getCachedOrFetch (E := APIError) (Num 3600000) 0 5 "income:AAPL:5"
            (fun _ => inr [ Samples.statement "2023-09-30" "2023" (JNum (num 100)) ]) ∅))
  = (inr [ Samples.statement "2023-09-30" "2023" (JNum (num 100)) ],
     snd (getCachedOrFetch (E := APIError) (Num 3600000) 0 5 "income:AAPL:5"
            (fun _ => inr [ Samples.statement "2023-09-30" "2023" (JNum (num 100)) ]) ∅)).
Proof.
  apply (getCachedOrFetch_round_trip (E := APIError) 3600000 0 5 1000 0 "income:AAPL:5"
           (fun _ => inr [ Samples.statement "2023-09-30" "2023" (JNum (num 100)) ])
           (fun _ => inl (createAPIError "Network error. Please check your connection."
                                         "NETWORK_ERROR"))
           ∅ [ Samples.statement "2023-09-30" "2023" (JNum (num 100)) ]);
    [reflexivity | reflexivity | reflexivity].
Defined.

(** X4. An entry as old as the cache duration or older is never served: the
    fetch function is called; its answer replaces the entry with the new
    time stamp, and when it fails the failure is returned and the old entry
    stays in the cache. Entries under other keys are untouched either way. *)
Theorem getCachedOrFetch_stale {E T : Type} (duration : Q) (now stored_at : Z)
    (cacheKey : string) (fetchFn : unit -> E + T) (cache : Cache T)
    (old : CacheEntry T) :
  cache !! cacheKey = Some old ->
  (duration <= inject_Z (now - timestamp old))%Q ->
  let result := getCachedOrFetch (Num duration) now stored_at cacheKey fetchFn cache in
  fst result = fetchFn tt
  /\ snd result !! cacheKey
     = match fetchFn tt with
       | inr v => Some {| data := v; timestamp := stored_at |}
       | inl _ => Some old
       end
  /\ forall other, other <> cacheKey -> snd result !! other = cache !! other.
Proof.
  intros Hold Hstale result. subst result. unfold getCachedOrFetch.
  rewrite Hold, still_valid_stale by exact Hstale.
  destruct (fetchFn tt) as [e|v]; cbn [fst snd].
  - split; [reflexivity|]. split; [exact Hold|]. reflexivity.
  - unfold Cache in *. split; [reflexivity|]. split; [apply lookup_insert_eq|].
    intros other Hne. apply lookup_insert_ne. congruence.
Qed.

Lemma getCachedOrFetch_stale_witness :
  fst (getCachedOrFetch (E := APIError) (T := nat) (Num 3600000) 3600000 3600001 "peers:AAPL"
         (fun _ => inr 2%nat) {[ "peers:AAPL" := {| data := 1%nat; timestamp := 0 |} ]})
  = inr 2%nat.
Proof.
  apply (getCachedOrFetch_stale (E := APIError) (T := nat) 3600000 3600000 3600001
           "peers:AAPL" (fun _ => inr 2%nat)
           {[ "peers:AAPL" := {| data := 1%nat; timestamp := 0 |} ]}
           {| data := 1%nat; timestamp := 0 |});
    [reflexivity | vm_compute; discriminate].
Defined.

(** X5. A [CACHE_DURATION_MINUTES] that does not start with a number
    disables the cache: the duration is [NaN], no entry is ever fresh, and
    every call fetches (and stores) anew. *)
Theorem unparsable_duration_disables_the_cache {E T : Type} (minutes : string)
    (now stored_at : Z) (cacheKey : string) (fetchFn : unit -> E + T) (cache : Cache T) :
  minutes <> "" ->
  parseInt10 minutes = NaN ->
  getCachedOrFetch (CACHE_DURATION_MS (Some minutes)) now stored_at cacheKey fetchFn cache
  = match fetchFn tt with
    | inl e => (inl e, cache)
    | inr v => (inr v, <[ cacheKey := {| data := v; timestamp := stored_at |} ]> cache)
    end.
Proof.
  intros Hne Hnan. unfold CACHE_DURATION_MS, str_or.
  destruct (String.eqb_spec minutes "") as [|_]; [contradiction|].
  rewrite Hnan. cbn [num_mul]. unfold getCachedOrFetch.
  destruct (cache !! cacheKey) as [entry|]; reflexivity.
Qed.

Lemma unparsable_duration_disables_the_cache_witness :
  getCachedOrFetch (E := APIError) (T := nat) (CACHE_DURATION_MS (Some "one hour")) 10 11
    "peers:AAPL" (fun _ => inr 2%nat) {[ "peers:AAPL" := {| data := 1%nat; timestamp := 9 |} ]}
  = (inr 2%nat,
     <[ "peers:AAPL" := {| data := 2%nat; timestamp := 11 |} ]>
       {[ "peers:AAPL" := {| data := 1%nat; timestamp := 9 |} ]}).
Proof.
  apply (unparsable_duration_disables_the_cache (E := APIError) (T := nat) "one hour" 10 11
           "peers:AAPL" (fun _ => inr 2%nat)
           {[ "peers:AAPL" := {| data := 1%nat; timestamp := 9 |} ]});
    [discriminate | reflexivity].
Defined.

Lemma toUpperCase_idempotent (s : string) : toUpperCase (toUpperCase s) = toUpperCase s.
Proof.
  induction s as [|c s IH]; [reflexivity|]. cbn [toUpperCase]. rewrite IH. f_equal.
  destruct c as [[] [] [] [] [] [] [] []]; reflexivity.
Qed.

(** X6. The income statements are cached per upper-cased symbol and limit:
    once a request for a symbol has been answered, a request for the same
    symbol in any other letter case and with the same limit, made within the
    cache duration, is answered from the cache and sends nothing to the
    provider. *)
Theorem getIncomeStatements_shares_entries_across_case (duration : Q)
    (now0 stored_at now stored_at' : Z)
    (get get' : string -> nat -> AxiosResult (list FMPIncomeStatement))
    (symbol symbol' : string) (limit : nat)
    (cache : Cache (list FMPIncomeStatement)) (statements : list FMPIncomeStatement) :
  toUpperCase symbol' = toUpperCase symbol ->
  cache !! incomeKey symbol limit = None ->
  get (toUpperCase symbol) limit = Response statements ->
  (inject_Z (now - stored_at) < duration)%Q ->
  let first := getIncomeStatements (Num duration) now0 stored_at get symbol limit cache in
  fst first = inr statements
  /\ getIncomeStatements (Num duration) now stored_at' get' symbol' limit (snd first)
     = (inr statements, snd first).
Proof.
  intros Hcase Hmiss Hget Hfresh first.
  assert (Hfirst : first
                   = (inr statements,
                      <[ incomeKey symbol limit
                         := {| data := statements; timestamp := stored_at |} ]> cache)).
  { subst first. unfold getIncomeStatements, getCachedOrFetch.
    rewrite Hmiss, Hget. reflexivity. }
  rewrite Hfirst. cbn [fst snd]. split; [reflexivity|].
  assert (Hkey : incomeKey symbol' limit = incomeKey symbol limit).
  { unfold incomeKey. rewrite Hcase. reflexivity. }
  unfold getIncomeStatements, getCachedOrFetch, Cache. rewrite Hkey, lookup_insert_eq.
  rewrite still_valid_fresh by exact Hfresh. reflexivity.
Qed.

Lemma getIncomeStatements_shares_entries_across_case_witness :
  fst (getIncomeStatements (Num 3600000) 0 5
         (fun _ _ => Response Samples.three_years) "aapl" 5 ∅)
  = inr Samples.three_years.
Proof.
  apply (getIncomeStatements_shares_entries_across_case 3600000 0 5 1000 0
           (fun _ _ => Response Samples.three_years) (fun _ _ => NoResponse)
           "aapl" "AAPL" 5 ∅ Samples.three_years);
    [reflexivity | reflexivity | reflexivity | reflexivity].
Defined.

Lemma omap_sublist {A B : Type} (f : A -> option B) (g : B -> A) (l : list A) :
  (forall a b, f a = Some b -> g b = a) ->
  map g (omap f l) `sublist_of` l.
Proof.
  intros Hg. induction l as [|a l IH]; [constructor|].
  cbn [omap list_omap]. destruct (f a) as [b|] eqn:E.
  - cbn [map]. rewrite (Hg a b E). apply sublist_skip, IH.
  - apply sublist_cons, IH.
Qed.

Lemma peerRow_symbol (gp : string -> APIError + option FMPCompanyProfile)
    (gr : string -> APIError + option FMPRatiosTTM) (symbol : string) (row : PeerRow) :
  peerRow gp gr symbol = Some row -> row_symbol row = symbol.
Proof.
  unfold peerRow. destruct (gp symbol) as [|[p|]]; try discriminate.
  destruct (gr symbol); try discriminate. intros [= <-]. reflexivity.
Qed.

(** X7. [getPeerData] looks at the first five peer symbols only and never
    fails: it returns at most five rows, in the order of the symbols, one
    for exactly those of the first five symbols whose profile and ratio
    requests both succeed with a profile present; a row never carries a
    revenue growth, and its ratios are either missing ([null]) or truthy
    (never 0 or [NaN]). *)
Theorem getPeerData_rows (getCompanyProfile : string -> APIError + option FMPCompanyProfile)
    (getRatiosTTM : string -> APIError + option FMPRatiosTTM)
    (peerSymbols : list string) :
  let rows := getPeerData getCompanyProfile getRatiosTTM peerSymbols in
  (length rows <= 5)%nat
  /\ map row_symbol rows `sublist_of` take 5 peerSymbols
  /\ (forall s, s ∈ map row_symbol rows <->
                s ∈ take 5 peerSymbols
                /\ (exists p, getCompanyProfile s = inr (Some p))
                /\ (exists r, getRatiosTTM s = inr r))
  /\ Forall (fun row => row_revenueGrowth row = JNull
                        /\ (row_peRatio row = JNull \/ truthy (row_peRatio row) = true)
                        /\ (row_evToEbitda row = JNull \/ truthy (row_evToEbitda row) = true)) rows.
Proof.
  intros rows.
  assert (Hsub : map row_symbol rows `sublist_of` take 5 peerSymbols).
  { apply omap_sublist. intros a b. apply peerRow_symbol. }
  split.
  { pose proof (sublist_length _ _ Hsub) as Hl. rewrite length_map, length_take in Hl. lia. }
  split; [exact Hsub|]. split.
  - intros s. subst rows. unfold getPeerData. rewrite list_elem_of_In, in_map_iff. split.
    + intros (row & <- & Hin). apply list_elem_of_In, list_elem_of_omap in Hin as (s & Hs & Hrow).
      rewrite (peerRow_symbol _ _ _ _ Hrow). split; [exact Hs|].
      unfold peerRow in Hrow.
      destruct (getCompanyProfile s) as [|[p|]]; try discriminate.
      destruct (getRatiosTTM s) as [|r]; try discriminate. eauto.
    + intros (Hs & (p & Hp) & (r & Hr)).
      destruct (peerRow getCompanyProfile getRatiosTTM s) as [row|] eqn:Hrow.
      * exists row. split; [eapply peerRow_symbol, Hrow|].
        apply list_elem_of_In, list_elem_of_omap. eauto.
      * unfold peerRow in Hrow. rewrite Hp, Hr in Hrow. discriminate.
  - apply Forall_forall. intros row Hin. subst rows. unfold getPeerData in Hin.
    apply list_elem_of_omap in Hin as (s & _ & Hrow). unfold peerRow in Hrow.
    destruct (getCompanyProfile s) as [|[p|]]; try discriminate.
    destruct (getRatiosTTM s) as [|r]; try discriminate.
    injection Hrow as <-. cbn [row_revenueGrowth row_peRatio row_evToEbitda]. unfold or_null.
    split; [reflexivity|]. split.
    + destruct (truthy _) eqn:Et; [right; exact Et | left; reflexivity].
    + destruct (truthy _) eqn:Et; [right; exact Et | left; reflexivity].
Qed.

(* ------------------------------------------------------------------ *)
(** ** The formatters *)
(* ------------------------------------------------------------------ *)

Lemma Qfloor_unique (z : Z) (x : Q) :
  (inject_Z z <= x)%Q -> (x < inject_Z (z + 1))%Q -> Qfloor x = z.
Proof.
  intros Hlo Hhi. pose proof (Qfloor_le x) as Hf. pose proof (Qlt_floor x) as Hc.
  assert (H1 : (inject_Z (Qfloor x) < inject_Z (z + 1))%Q) by lra.
  assert (H2 : (inject_Z z < inject_Z (Qfloor x + 1))%Q) by lra.
  rewrite <- Zlt_Qlt in H1, H2. lia.
Qed.

Lemma Qle_bool_false_iff (a b : Q) : Qle_bool a b = false <-> (b < a)%Q.
Proof.
  split.
  - intros H. apply Qnot_le_lt. intros Hle. apply Qle_bool_iff in Hle. congruence.
  - intros H. destruct (Qle_bool a b) eqn:E; [|reflexivity].
    apply Qle_bool_iff in E. lra.
Qed.

Lemma toFixed_Q_compat (d : nat) (x y : Q) : (x == y)%Q -> toFixed_Q d x = toFixed_Q d y.
Proof.
  intros E. unfold toFixed_Q.
  assert (Hn : Qfloor (Qabs x * inject_Z (10 ^ Z.of_nat d) + (1 # 2))
               = Qfloor (Qabs y * inject_Z (10 ^ Z.of_nat d) + (1 # 2))).
  { apply Qfloor_comp. rewrite E. reflexivity. }
  assert (Hs : Qlt_bool x 0 = Qlt_bool y 0).
  { destruct (Qlt_bool y 0) eqn:Ey.
    - apply Qlt_bool_iff. apply Qlt_bool_iff in Ey. lra.
    - apply Qlt_bool_false_iff. apply Qlt_bool_false_iff in Ey. lra. }
  rewrite Hn, Hs. reflexivity.
Qed.

Lemma toFixed_2_just_below_1000 (x : Q) :
  (999995 # 1000 <= x)%Q -> (x < 1000)%Q -> toFixed_Q 2 x = "1000.00".
Proof.
  intros Hlo Hhi. unfold toFixed_Q.
  assert (Hn : Qfloor (Qabs x * inject_Z (10 ^ Z.of_nat 2) + (1 # 2)) = 100000%Z).
  { apply Qfloor_unique; rewrite Qabs_pos by lra;
      change (inject_Z (10 ^ Z.of_nat 2)) with 100%Q.
    - change (inject_Z 100000) with 100000%Q. lra.
    - change (inject_Z (100000 + 1)) with 100001%Q. lra. }
  rewrite Hn.
  assert (Hs : Qlt_bool x 0 = false) by (apply Qlt_bool_false_iff; lra).
  rewrite Hs. vm_compute. reflexivity.
Qed.

(** X8. The unit of [formatLargeNumber] is chosen before the value is
    rounded: a value above 999.995 million and below one billion is rendered
    "$1000.00M", and one above 999.995 billion and below one trillion
    "$1000.00B"; the next unit is not used. *)
Theorem formatLargeNumber_rounds_within_the_unit (x : Q) :
  (999995 # 1000 < x)%Q -> (x < 1000)%Q ->
  formatLargeNumber (JNum (Num (x * 1000000))) = "$1000.00M"
  /\ formatLargeNumber (JNum (Num (x * 1000000000))) = "$1000.00B".
Proof.
  intros Hlo Hhi. unfold formatLargeNumber, e12, e9, e6, num_ge, num_le, num_div.
  assert (A1 : Qle_bool 1000000000000 (x * 1000000) = false).
  { apply Qle_bool_false_iff. lra. }
  assert (A2 : Qle_bool 1000000000 (x * 1000000) = false).
  { apply Qle_bool_false_iff. lra. }
  assert (A3 : Qle_bool 1000000 (x * 1000000) = true) by (apply Qle_bool_iff; lra).
  assert (B1 : Qle_bool 1000000000000 (x * 1000000000) = false).
  { apply Qle_bool_false_iff. lra. }
  assert (B2 : Qle_bool 1000000000 (x * 1000000000) = true) by (apply Qle_bool_iff; lra).
  rewrite A1, A2, A3, B1, B2.
  change (Qeq_bool 1000000 0) with false. change (Qeq_bool 1000000000 0) with false.
  cbv iota. unfold toFixed.
  rewrite (toFixed_Q_compat 2 (Qred (x * 1000000 / 1000000)) x)
    by (rewrite Qred_correct; field).
  rewrite (toFixed_Q_compat 2 (Qred (x * 1000000000 / 1000000000)) x)
    by (rewrite Qred_correct; field).
  rewrite toFixed_2_just_below_1000 by (try apply Qlt_le_weak; assumption).
  split; reflexivity.
Qed.

Lemma formatLargeNumber_rounds_within_the_unit_witness :
  formatLargeNumber (JNum (Num ((999999999 # 1000000) * 1000000))) = "$1000.00M".
Proof.
  apply (formatLargeNumber_rounds_within_the_unit (999999999 # 1000000));
    vm_compute; reflexivity.
Defined.

Lemma digits_head (n : N) : exists c r, digits n = String c r /\ is_digit c = true.
Proof.
  pose proof (digits_is_digit n) as Hd. unfold digits in *.
  destruct (N.to_uint n); cbn in *;
    match goal with
    | |- exists c r, String ?a ?b = String c r /\ _ =>
        exists a, b; split; [reflexivity|vm_compute; reflexivity]
    end.
Qed.

Lemma toFixed_Q_head (d : nat) (q : Q) :
  exists c r, toFixed_Q d q = String c r /\ c <> "N"%char.
Proof.
  unfold toFixed_Q. destruct (Qlt_bool q 0).
  - eexists _, _. split; [reflexivity|discriminate].
  - destruct (digits_head (Z.to_N (Qfloor (Qabs q * inject_Z (10 ^ Z.of_nat d) + (1 # 2))
                                   / 10 ^ Z.of_nat d))) as (c & r & -> & Hc).
    eexists _, _. split; [reflexivity|]. intros ->. discriminate.
Qed.

Lemma toFixed_suffix_not_NA (d : nat) (n : number) (suffix : string) :
  n <> NaN -> toFixed d n +:+ suffix <> "N/A".
Proof.
  intros Hn. destruct n as [q| | |]; [|contradiction|discriminate|discriminate].
  cbn [toFixed]. destruct (toFixed_Q_head d q) as (c & r & -> & Hc).
  intros [= -> _]. contradiction.
Qed.

(** X9. The three formatters answer "N/A" exactly for a missing value:
    [null], [undefined] or [NaN]. Every other number, the infinities
    included, is rendered as a number. *)
Theorem formatters_answer_NA_exactly_for_missing_values (value : jsnum) (decimals : nat) :
  let missing := value = JUndefined \/ value = JNull \/ value = JNum NaN in
  (formatLargeNumber value = "N/A" <-> missing)
  /\ (formatPercentage value decimals = "N/A" <-> missing)
  /\ (formatRatio value decimals = "N/A" <-> missing).
Proof.
  intros missing. subst missing.
  assert (Hno : forall q : number, q <> NaN ->
                  ~ (JNum q = JUndefined \/ JNum q = JNull \/ JNum q = JNum NaN)).
  { intros q Hq [H|[H|H]]; try discriminate. injection H as ->. contradiction. }
  assert (Hiff : forall (q : number) (s : string),
                   q <> NaN -> s <> "N/A" ->
                   (s = "N/A" <-> JNum q = JUndefined \/ JNum q = JNull \/ JNum q = JNum NaN)).
  { intros q s Hq Hs. split; [contradiction|]. intros H. exfalso. exact (Hno q Hq H). }
  destruct value as [| |[q| | |]];
    try (repeat split; intros _; solve [reflexivity | eauto]).
  - split; [|split]; apply Hiff; try discriminate.
    + unfold formatLargeNumber.
      destruct (num_ge _ _); [discriminate|].
      destruct (num_ge _ _); [discriminate|].
      destruct (num_ge _ _); discriminate.
    + apply toFixed_suffix_not_NA. discriminate.
    + apply toFixed_suffix_not_NA. discriminate.
  - split; [|split]; apply Hiff; try discriminate; vm_compute; discriminate.
  - split; [|split]; apply Hiff; try discriminate; vm_compute; discriminate.
Qed.

(* ------------------------------------------------------------------ *)
(** ** [condenseDescription] *)
(* ------------------------------------------------------------------ *)

Import DescriptionNotions.

Lemma split_spaces_nonempty (s : string) : split_spaces s <> [].
Proof.
  induction s as [|c s IH]; [discriminate|]. cbn [split_spaces].
  destruct (is_space c).
  - destruct (starts_with_space s); [exact IH|discriminate].
  - destruct (split_spaces s); discriminate.
Qed.

Lemma split_spaces_word (w s : string) :
  space_free w ->
  split_spaces (w +:+ s)
  = match split_spaces s with
    | h :: tl => (w +:+ h) :: tl
    | [] => [w]
    end.
Proof.
  unfold space_free. induction w as [|c w IH]; intros Hw.
  - change ("" +:+ s) with s. destruct (split_spaces s) eqn:E; [|reflexivity].
    exfalso. exact (split_spaces_nonempty s E).
  - cbn [string_forall] in Hw. apply andb_prop in Hw as [Hc Hw].
    apply negb_true_iff in Hc.
    change (String c w +:+ s) with (String c (w +:+ s)).
    cbn [split_spaces]. rewrite Hc, (IH Hw).
    destruct (split_spaces s); reflexivity.
Qed.

Lemma string_app_empty (s : string) : s +:+ "" = s.
Proof.
  induction s as [|c s IH]; [reflexivity|].
  change (String c (s +:+ "") = String c s). f_equal. exact IH.
Qed.

Lemma split_spaces_space_free (s : string) : Forall space_free (split_spaces s).
Proof.
  induction s as [|c s IH]; [repeat constructor|]. cbn [split_spaces].
  destruct (is_space c) eqn:Hc.
  - destruct (starts_with_space s); [exact IH|]. constructor; [reflexivity|exact IH].
  - destruct (split_spaces s) as [|w ws]; [repeat constructor; unfold space_free; cbn;
                                           rewrite Hc; reflexivity|].
    inversion IH as [|? ? Hw Hws]; subst. constructor; [|exact Hws].
    unfold space_free in *. cbn [string_forall]. rewrite Hc, Hw. reflexivity.
Qed.

(** Only the first and the last piece of a split can be empty. *)
Lemma split_spaces_inner (s : string) (j : nat) (w : string) :
  split_spaces s !! j = Some w ->
  (S j < length (split_spaces s))%nat ->
  (0 < j)%nat \/ starts_with_space s = false ->
  w <> "".
Proof.
  revert j w. induction s as [|c s IH]; intros j w Hj Hlen Hpos.
  - cbn in Hlen. lia.
  - cbn [split_spaces] in Hj, Hlen. cbn [starts_with_space] in Hpos.
    destruct (is_space c) eqn:Hc.
    + destruct (starts_with_space s) eqn:Hs.
      * apply (IH j w Hj Hlen). left. destruct Hpos as [?|?]; [assumption|discriminate].
      * destruct j as [|j]; [destruct Hpos as [?|?]; [lia|discriminate]|].
        cbn in Hj, Hlen. apply (IH j w Hj); [lia|]. right. reflexivity.
    + destruct (split_spaces s) as [|w0 ws] eqn:E.
      { cbn in Hlen. lia. }
      destruct j as [|j].
      * cbn in Hj. injection Hj as <-. discriminate.
      * cbn in Hj, Hlen. apply (IH (S j) w); [exact Hj|cbn; lia|left; lia].
Qed.

Lemma join_spaces_cons (w w' : string) (rest : list string) :
  join_spaces (w :: w' :: rest) = w +:+ " " +:+ join_spaces (w' :: rest).
Proof. reflexivity. Qed.

Lemma join_spaces_starts (w : string) (rest : list string) (t : string) :
  space_free w -> w <> "" ->
  starts_with_space (join_spaces (w :: rest) +:+ t) = false.
Proof.
  intros Hw Hne. destruct w as [|c w]; [contradiction|].
  unfold space_free in Hw. cbn [string_forall] in Hw.
  apply andb_prop in Hw as [Hc _]. apply negb_true_iff in Hc.
  destruct rest; cbn; exact Hc.
Qed.

Lemma split_join_length (ws : list string) (t : string) :
  ws <> [] -> Forall space_free ws -> Forall (fun w => w <> "") (tail ws) ->
  space_free t ->
  length (split_spaces (join_spaces ws +:+ t)) = length ws.
Proof.
  intros Hne Hsf Hin Ht. induction ws as [|w ws IH]; [contradiction|].
  inversion Hsf as [|? ? Hw Hws]; subst.
  destruct ws as [|w' rest].
  - cbn [join_spaces]. rewrite split_spaces_word by exact Hw.
    replace t with (t +:+ "") by apply string_app_empty.
    rewrite split_spaces_word by exact Ht. reflexivity.
  - rewrite join_spaces_cons, !string_app_assoc.
    rewrite split_spaces_word by exact Hw.
    cbn [tail] in Hin. inversion Hin as [|? ? Hw' Hrest]; subst.
    inversion Hws as [|? ? Hsw' _]; subst.
    change (" " +:+ (join_spaces (w' :: rest) +:+ t))
      with (String " " (join_spaces (w' :: rest) +:+ t)).
    cbn [split_spaces]. change (is_space " ") with true. cbv iota.
    rewrite join_spaces_starts by assumption.
    cbn [length]. f_equal. apply IH; [discriminate|exact Hws|].
    destruct rest; [constructor|exact Hrest].
Qed.

Lemma take_split_spaces_inner (s : string) (n : nat) :
  (n < length (split_spaces s))%nat ->
  Forall (fun w => w <> "") (tail (take n (split_spaces s))).
Proof.
  intros Hn. apply Forall_forall. intros w Hw.
  apply list_elem_of_lookup in Hw as [i Hi].
  rewrite lookup_tail in Hi. apply lookup_take_Some in Hi as [Hi Hlt].
  apply (split_spaces_inner s (S i) w Hi); [lia|left; lia].
Qed.

(** X10. [condenseDescription] is idempotent, and its result has at most
    [maxWords] words (one word, the ellipsis, when [maxWords] is 0): the
    ellipsis is attached to the last word that is kept and does not count as
    a word of its own. *)
Theorem condenseDescription_idempotent (description : string) (maxWords : nat) :
  (length (split_spaces (condenseDescription description maxWords)) <= Nat.max 1 maxWords)%nat
  /\ condenseDescription (condenseDescription description maxWords) maxWords
     = condenseDescription description maxWords.
Proof.
  assert (Hshort : forall d, (length (split_spaces d) <= maxWords)%nat ->
                             condenseDescription d maxWords = d).
  { intros d Hd. unfold condenseDescription.
    destruct (Nat.leb_spec (length (split_spaces d)) maxWords); [reflexivity|lia]. }
  destruct (Nat.leb_spec (length (split_spaces description)) maxWords) as [Hle|Hgt].
  - rewrite !Hshort by (rewrite ?Hshort; exact Hle). split; [lia|reflexivity].
  - assert (Hlong : condenseDescription description maxWords
                    = join_spaces (take maxWords (split_spaces description)) +:+ "...").
    { unfold condenseDescription.
      destruct (Nat.leb_spec (length (split_spaces description)) maxWords); [lia|reflexivity]. }
    rewrite Hlong. destruct maxWords as [|n].
    + split; reflexivity.
    + assert (Hlen : length (split_spaces
                               (join_spaces (take (S n) (split_spaces description)) +:+ "..."))
                     = S n).
      { rewrite split_join_length.
        - rewrite length_take. lia.
        - destruct (split_spaces description); [cbn in Hgt; lia|discriminate].
        - apply Forall_take, split_spaces_space_free.
        - apply take_split_spaces_inner, Hgt.
        - reflexivity. }
      split; [rewrite Hlen; lia|]. apply Hshort. rewrite Hlen. lia.
Qed.

(* ------------------------------------------------------------------ *)
(** ** The aggregation endpoints *)
(* ------------------------------------------------------------------ *)

Lemma tryYahoo_outcome {E : Type} (fetchYahooCompanyData : string -> E + CompanyData)
    (upperSymbol : string) (calls : list CompanyDataApi.Call) :
  let result := CompanyDataApi.tryYahoo fetchYahooCompanyData upperSymbol calls in
  fst result = calls ++ [CompanyDataApi.CallYahoo]
  /\ (CompanyDataApi.status (snd result) = 200%Z
      /\ (exists d, CompanyDataApi.body (snd result) = CompanyDataApi.Data d
                    /\ CompanyDataApi.has_profile d = true)
      \/ In (CompanyDataApi.status (snd result)) [404%Z; 500%Z]
         /\ (exists error msg,
               CompanyDataApi.body (snd result) = CompanyDataApi.ErrorBody error msg)).
Proof.
  unfold CompanyDataApi.tryYahoo.
  destruct (fetchYahooCompanyData upperSymbol) as [e|d].
  - split; [reflexivity|]. right. split; [cbn; tauto|]. cbn. eauto.
  - destruct (CompanyDataApi.has_profile d) eqn:Hp.
    + split; [reflexivity|]. left. split; [reflexivity|]. cbn. eauto.
    + split; [reflexivity|]. right. split; [cbn; tauto|]. cbn. eauto.
Qed.

(** X11. Whatever the request and the providers do, the aggregation
    endpoint with the Yahoo fallback calls each provider at most once and
    never the primary after the secondary; a malformed request (status 400
    or 405) reaches no provider; the status is one of 200, 400, 401, 404,
    405 and 500 (a rate limit of the primary is never passed on as 429); and
    company data is sent exactly with status 200, and only with a profile in
    it. *)
Theorem handler_outcomes {E : Type} (FMP_API_KEY : option string)
    (fetchAllCompanyData : string -> APIError + CompanyData)
    (fetchYahooCompanyData : string -> E + CompanyData)
    (req : CompanyDataApi.Request) :
  let result := CompanyDataApi.handler FMP_API_KEY fetchAllCompanyData
                  fetchYahooCompanyData req in
  let calls := fst result in
  let res := snd result in
  In calls [ []; [CompanyDataApi.CallFMP]; [CompanyDataApi.CallYahoo];
             [CompanyDataApi.CallFMP; CompanyDataApi.CallYahoo] ]
  /\ In (CompanyDataApi.status res) [ 200%Z; 400%Z; 401%Z; 404%Z; 405%Z; 500%Z ]
  /\ (In (CompanyDataApi.status res) [ 400%Z; 405%Z ] -> calls = [])
  /\ (CompanyDataApi.status res = 200%Z <->
      exists d, CompanyDataApi.body res = CompanyDataApi.Data d)
  /\ (forall d, CompanyDataApi.body res = CompanyDataApi.Data d ->
                CompanyDataApi.has_profile d = true).
Proof.
  intros result calls res. subst calls res result.
  assert (Hy : forall calls0,
             In calls0 [ []; [CompanyDataApi.CallFMP] ] ->
             let result := CompanyDataApi.tryYahoo fetchYahooCompanyData
                             (toUpperCase (default "" (CompanyDataApi.query_symbol req)))
                             calls0 in
             In (fst result) [ []; [CompanyDataApi.CallFMP]; [CompanyDataApi.CallYahoo];
                              [CompanyDataApi.CallFMP; CompanyDataApi.CallYahoo] ]
             /\ In (CompanyDataApi.status (snd result))
                   [ 200%Z; 400%Z; 401%Z; 404%Z; 405%Z; 500%Z ]
             /\ (In (CompanyDataApi.status (snd result)) [ 400%Z; 405%Z ] -> fst result = [])
             /\ (CompanyDataApi.status (snd result) = 200%Z <->
                 exists d, CompanyDataApi.body (snd result) = CompanyDataApi.Data d)
             /\ (forall d, CompanyDataApi.body (snd result) = CompanyDataApi.Data d ->
                           CompanyDataApi.has_profile d = true)).
  { intros calls0 Hc result.
    destruct (tryYahoo_outcome fetchYahooCompanyData
                (toUpperCase (default "" (CompanyDataApi.query_symbol req))) calls0)
      as [Hcalls Hres].
    fold result in Hcalls, Hres. rewrite Hcalls.
    split; [destruct Hc as [<-|[<-|[]]]; cbn; tauto|].
    destruct Hres as [[Hs (d & Hb & Hp)]|[Hs (error & msg & Hb)]].
    - rewrite Hs, Hb. split; [cbn; tauto|].
      split; [intros [H|[H|[]]]; discriminate|].
      split; [split; eauto|]. intros d' [= <-]. exact Hp.
    - rewrite Hb. split; [destruct Hs as [<-|[<-|[]]]; cbn; tauto|].
      split; [intros [H|[H|[]]]; destruct Hs as [H'|[H'|[]]]; congruence|].
      split; [split; [intros H0; rewrite H0 in Hs; destruct Hs as [H'|[H'|[]]];
                      discriminate
                     | intros [d [=]] ]|].
      intros d [=]. }
  unfold CompanyDataApi.handler.
  destruct (negb (String.eqb (CompanyDataApi.method req) "GET")).
  { cbn. split; [tauto|]. split; [tauto|]. split; [reflexivity|].
    split; [split; [discriminate|intros [d [=]]]|]. intros d [=]. }
  destruct (CompanyDataApi.query_symbol req) as [symbol|] eqn:Hq.
  2:{ cbn. split; [tauto|]. split; [tauto|]. split; [reflexivity|].
      split; [split; [discriminate|intros [d [=]]]|]. intros d [=]. }
  destruct (negb (str_truthy symbol)).
  { cbn. split; [tauto|]. split; [tauto|]. split; [reflexivity|].
    split; [split; [discriminate|intros [d [=]]]|]. intros d [=]. }
  cbn [default] in Hy.
  destruct (CompanyDataApi.apiKey_set FMP_API_KEY); [|apply Hy; cbn; tauto].
  destruct (fetchAllCompanyData (toUpperCase symbol)) as [apiError|d].
  - destruct (_ && _); [|apply Hy; cbn; tauto].
    cbn. split; [tauto|]. split; [tauto|].
    split; [intros [H|[H|[]]]; discriminate|].
    split; [split; [discriminate|intros [d [=]]]|]. intros d [=].
  - destruct (CompanyDataApi.has_profile d) eqn:Hp; [|apply Hy; cbn; tauto].
    cbn. split; [tauto|]. split; [tauto|].
    split; [intros [H|[H|[]]]; discriminate|].
    split; [split; eauto|]. intros d' [= <-]. exact Hp.
Qed.

(** X12. The endpoint without fallback, over [fetchAllCompanyData]: when
    the aggregation returns the profile it has fetched, the endpoint never
    answers 404. A symbol that the provider does not know (an empty profile
    answer) makes [fetchAllCompanyData] throw NOT_FOUND, which the endpoint
    reports as status 500, "Failed to fetch company data", with the message
    "Company not found: " and the upper-cased symbol. *)
Theorem unknown_symbol_is_reported_as_500 (FMP_API_KEY : option string)
    (profileResult : string -> FmpClient.AxiosResult (list FMPCompanyProfile))
    (rest : string -> FMPCompanyProfile -> APIError + CompanyData)
    (req : CompanyDataApi.Request) :
  (forall s p d, rest s p = inr d -> profile d = Some p) ->
  let fetch := fun s => FmpClient.fetchAllCompanyData s (profileResult s) (rest s) in
  let res := snd (FmpCompanyDataApi.handler FMP_API_KEY fetch req) in
  CompanyDataApi.status res <> 404%Z
  /\ (forall symbol,
        CompanyDataApi.method req = "GET" ->
        CompanyDataApi.query_symbol req = Some symbol -> symbol <> "" ->
        CompanyDataApi.apiKey_set FMP_API_KEY = true ->
        profileResult (toUpperCase symbol) = FmpClient.Response [] ->
        res = {| CompanyDataApi.status := 500;
                 CompanyDataApi.body :=
                   CompanyDataApi.ErrorBody "Failed to fetch company data"
                     ("Company not found: " +:+ toUpperCase symbol) |}).
Proof.
  intros Hrest fetch res. subst res. split.
  - unfold FmpCompanyDataApi.handler.
    destruct (negb (String.eqb (CompanyDataApi.method req) "GET")); [discriminate|].
    destruct (CompanyDataApi.query_symbol req) as [symbol|]; [|discriminate].
    destruct (negb (str_truthy symbol)); [discriminate|].
    destruct (negb (CompanyDataApi.apiKey_set FMP_API_KEY)); [discriminate|].
    destruct (fetch (toUpperCase symbol)) as [apiError|d] eqn:Hf.
    + destruct (String.eqb (code apiError) "AUTH_ERROR"); [discriminate|].
      destruct (String.eqb (code apiError) "RATE_LIMIT"); discriminate.
    + assert (Hp : CompanyDataApi.has_profile d = true).
      { subst fetch. cbv beta in Hf. unfold FmpClient.fetchAllCompanyData in Hf.
        destruct (FmpClient.getCompanyProfile _) as [|[p|]]; try discriminate.
        unfold CompanyDataApi.has_profile. rewrite (Hrest _ _ _ Hf). reflexivity. }
      rewrite Hp. discriminate.
  - intros symbol Hm Hq Hne Hkey Hprofile. unfold FmpCompanyDataApi.handler.
    rewrite Hm, Hq, Hkey. cbn [String.eqb Ascii.eqb negb].
    change (String.eqb "GET" "GET") with true. cbn [negb].
    assert (Ht : str_truthy symbol = true).
    { unfold str_truthy. destruct (String.eqb_spec symbol ""); [contradiction|reflexivity]. }
    rewrite Ht. cbn [negb]. subst fetch. cbv beta.
    unfold FmpClient.fetchAllCompanyData. rewrite Hprofile. reflexivity.
Qed.

Lemma unknown_symbol_is_reported_as_500_witness :
  CompanyDataApi.status
    (snd (FmpCompanyDataApi.handler (Some "key")
            (fun s => FmpClient.fetchAllCompanyData s (FmpClient.Response [])
                        (fun p => inr {| profile := Some p; incomeStatements := [];
                                         ratiosTTM := None; historicalPrices := [];
                                         peers := []; peersData := [] |}))
            (ApiSamples.get "zzzz")))
  <> 404%Z.
Proof.
  apply (unknown_symbol_is_reported_as_500 (Some "key")
           (fun _ => FmpClient.Response [])
           (fun _ p => inr {| profile := Some p; incomeStatements := [];
                              ratiosTTM := None; historicalPrices := [];
                              peers := []; peersData := [] |})
           (ApiSamples.get "zzzz")).
  intros s p d [= <-]. reflexivity.
Defined.

(* ------------------------------------------------------------------ *)
(** ** The search endpoint *)
(* ------------------------------------------------------------------ *)

Lemma filter_sublist {A : Type} (p : A -> bool) (l : list A) : List.filter p l `sublist_of` l.
Proof.
  induction l as [|x l IH]; [constructor|]. cbn [List.filter].
  destruct (p x); [apply sublist_skip|apply sublist_cons]; exact IH.
Qed.

Lemma str_truthy_nonempty (s : string) : str_truthy s = true <-> s <> "".
Proof.
  unfold str_truthy. destruct (String.eqb_spec s "") as [->|Hne]; cbn [negb].
  - split; [discriminate|congruence].
  - split; [intros _; exact Hne|reflexivity].
Qed.

Import TextNotions.

Lemma ascii_text_skip_spaces (s : string) : ascii_text s -> ascii_text (skip_spaces s).
Proof.
  unfold ascii_text. induction s as [|c s IH]; intros H; [exact H|].
  cbn [skip_spaces]. destruct (is_space c); [|exact H].
  cbn [string_forall] in H. apply andb_prop in H as [_ H]. apply IH, H.
Qed.

Lemma ascii_text_trimEnd (s : string) : ascii_text s -> ascii_text (SearchApi.trimEnd s).
Proof.
  unfold ascii_text. induction s as [|c s IH]; intros H; [exact H|].
  cbn [string_forall] in H. apply andb_prop in H as [Hc H]. specialize (IH H).
  cbn [SearchApi.trimEnd]. destruct (SearchApi.trimEnd s) as [|c' s'].
  - destruct (is_space c); [reflexivity|]. cbn [string_forall]. rewrite Hc. reflexivity.
  - cbn [string_forall] in IH |- *. rewrite Hc, IH. reflexivity.
Qed.

Lemma ascii_text_toLowerCase (s : string) :
  ascii_text s -> ascii_text (SearchApi.toLowerCase s).
Proof.
  unfold ascii_text. induction s as [|c s IH]; intros H; [exact H|].
  cbn [string_forall] in H. apply andb_prop in H as [Hc H].
  cbn [SearchApi.toLowerCase string_forall]. rewrite (IH H), andb_true_r.
  clear IH H. destruct c as [[] [] [] [] [] [] [] []]; try reflexivity; discriminate Hc.
Qed.

(** X13. For queries in ASCII: a search that is not answered from the cache
    sends the trimmed, lower-cased query (again ASCII) upstream, once, and
    answers 200 with the upstream results that have a non-empty exchange
    short name without "OTC" in it and a non-empty currency, in the upstream
    order; these are stored, and any later query with the same normal form
    made less than 30 minutes after the store gets the same answer without
    an upstream request. *)
Theorem search_round_trip {E : Type} (FMP_API_KEY : option string)
    (get get' : string -> E + list SearchApi.FMPSearchResult)
    (now0 stored_at now stored_at' : Z) (q q' : string)
    (searchCache : Cache (list SearchApi.FMPSearchResult))
    (upstream : list SearchApi.FMPSearchResult) :
  ascii_text q -> ascii_text q' ->
  q <> "" -> q' <> "" ->
  CompanyDataApi.apiKey_set FMP_API_KEY = true ->
  searchCache !! SearchApi.cacheKey q = None ->
  get (SearchApi.normalizedQuery q) = inr upstream ->
  SearchApi.normalizedQuery q' = SearchApi.normalizedQuery q ->
  (now - stored_at < 30 * 60 * 1000)%Z ->
  let first := SearchApi.handler FMP_API_KEY get now0 stored_at
                 {| SearchApi.search_method := "GET"; SearchApi.query := Some q |}
                 searchCache in
  ascii_text (SearchApi.normalizedQuery q)
  /\ exists found,
    first = ([SearchApi.normalizedQuery q],
             {| SearchApi.search_status := 200;
                SearchApi.search_body := SearchApi.Results found |},
             <[ SearchApi.cacheKey q := {| data := found; timestamp := stored_at |} ]>
               searchCache)
    /\ found `sublist_of` upstream
    /\ (forall r, r ∈ found <->
                  r ∈ upstream
                  /\ (exists x, SearchApi.exchangeShortName r = Some x
                                /\ x <> "" /\ includes "OTC" x = false)
                  /\ (exists c, SearchApi.currency r = Some c /\ c <> ""))
    /\ SearchApi.handler FMP_API_KEY get' now stored_at'
         {| SearchApi.search_method := "GET"; SearchApi.query := Some q' |} (snd first)
       = ([], {| SearchApi.search_status := 200;
                 SearchApi.search_body := SearchApi.Results found |}, snd first).
Proof.
  intros Hascii Hascii' Hq Hq' Hkey Hmiss Hget Hnorm Hfresh first.
  split.
  { unfold SearchApi.normalizedQuery, SearchApi.trim.
    apply ascii_text_toLowerCase, ascii_text_trimEnd, ascii_text_skip_spaces, Hascii. }
  exists (List.filter SearchApi.actively_traded upstream).
  assert (Hfirst : first
                   = ([SearchApi.normalizedQuery q],
                      {| SearchApi.search_status := 200;
                         SearchApi.search_body :=
                           SearchApi.Results (List.filter SearchApi.actively_traded upstream) |},
                      <[ SearchApi.cacheKey q
                         := {| data := List.filter SearchApi.actively_traded upstream;
                               timestamp := stored_at |} ]> searchCache)).
  { subst first. unfold SearchApi.handler. cbn [SearchApi.search_method SearchApi.query].
    change (String.eqb "GET" "GET") with true. cbn [negb].
    rewrite (proj2 (str_truthy_nonempty q) Hq), Hkey. cbn [negb].
    rewrite Hmiss, Hget. reflexivity. }
  split; [exact Hfirst|]. split; [apply filter_sublist|]. split.
  - intros r. rewrite list_elem_of_In, filter_In, <- list_elem_of_In.
    unfold SearchApi.actively_traded. split.
    + intros [Hin Hr]. split; [exact Hin|].
      destruct (SearchApi.exchangeShortName r) as [x|]; [|discriminate].
      destruct (SearchApi.currency r) as [c|]; [|rewrite andb_false_r in Hr; discriminate].
      apply andb_prop in Hr as [Hx Hc]. apply andb_prop in Hx as [Hx Hotc].
      apply str_truthy_nonempty in Hx, Hc. apply negb_true_iff in Hotc. eauto 10.
    + intros (Hin & (x & -> & Hx & Hotc) & (c & -> & Hc)). split; [exact Hin|].
      rewrite (proj2 (str_truthy_nonempty x) Hx), (proj2 (str_truthy_nonempty c) Hc), Hotc.
      reflexivity.
  - rewrite Hfirst. cbn [snd]. unfold SearchApi.handler.
    cbn [SearchApi.search_method SearchApi.query].
    change (String.eqb "GET" "GET") with true. cbn [negb].
    rewrite (proj2 (str_truthy_nonempty q') Hq'), Hkey. cbn [negb].
    assert (Hk : SearchApi.cacheKey q' = SearchApi.cacheKey q).
    { unfold SearchApi.cacheKey. rewrite Hnorm. reflexivity. }
    unfold Cache. rewrite Hk, lookup_insert_eq.
    unfold SearchApi.CACHE_DURATION_MS, num.
    rewrite still_valid_fresh; [reflexivity|].
    cbn [timestamp]. rewrite <- Zlt_Qlt. lia.
Qed.

Lemma search_round_trip_witness :
  exists found,
    SearchApi.handler (E := unit) (Some "key")
      (fun _ => inr [ {| SearchApi.result_symbol := "AAPL";
                         SearchApi.result_name := "Apple Inc.";
                         SearchApi.currency := Some "USD";
                         SearchApi.stockExchange := Some "NASDAQ Global Select";
                         SearchApi.exchangeShortName := Some "NASDAQ" |};
                      {| SearchApi.result_symbol := "APLE";
                         SearchApi.result_name := "Apple Rush Company";
                         SearchApi.currency := Some "USD";
                         SearchApi.stockExchange := Some "Other OTC";
                         SearchApi.exchangeShortName := Some "OTC" |} ])
      0 5 {| SearchApi.search_method := "GET"; SearchApi.query := Some " Apple " |} ∅
    = ([ "apple" ],
       {| SearchApi.search_status := 200; SearchApi.search_body := SearchApi.Results found |},
       <[ "search:apple" := {| data := found; timestamp := 5 |} ]> ∅).
Proof.
  destruct (search_round_trip (E := unit) (Some "key")
              (fun _ => inr [ {| SearchApi.result_symbol := "AAPL";
                                 SearchApi.result_name := "Apple Inc.";
                                 SearchApi.currency := Some "USD";
                                 SearchApi.stockExchange := Some "NASDAQ Global Select";
                                 SearchApi.exchangeShortName := Some "NASDAQ" |};
                              {| SearchApi.result_symbol := "APLE";
                                 SearchApi.result_name := "Apple Rush Company";
                                 SearchApi.currency := Some "USD";
                                 SearchApi.stockExchange := Some "Other OTC";
                                 SearchApi.exchangeShortName := Some "OTC" |} ])
              (fun _ => inl tt) 0 5 1000 1000 " Apple " "APPLE" ∅ _
              eq_refl eq_refl
              ltac:(discriminate) ltac:(discriminate) eq_refl eq_refl eq_refl eq_refl
              ltac:(lia))
    as (_ & found & Hfirst & _).
  exists found. exact Hfirst.
Defined.

(** X14. A query made of white space only is not rejected as missing: it is
    truthy, so with a key configured and nothing cached it goes upstream as
    the empty query, and the answer is never the 400 of a missing query. *)
Theorem blank_query_goes_upstream {E : Type} (FMP_API_KEY : option string)
    (get : string -> E + list SearchApi.FMPSearchResult) (now stored_at : Z) (q : string)
    (searchCache : Cache (list SearchApi.FMPSearchResult)) :
  q <> "" -> SearchApi.trim q = "" ->
  CompanyDataApi.apiKey_set FMP_API_KEY = true ->
  searchCache !! "search:" = None ->
  let result := SearchApi.handler FMP_API_KEY get now stored_at
                  {| SearchApi.search_method := "GET"; SearchApi.query := Some q |}
                  searchCache in
  fst (fst result) = [ "" ]
  /\ In (SearchApi.search_status (snd (fst result))) [ 200%Z; 500%Z ].
Proof.
  intros Hq Htrim Hkey Hmiss result. subst result.
  assert (Hn : SearchApi.normalizedQuery q = "").
  { unfold SearchApi.normalizedQuery. rewrite Htrim. reflexivity. }
  unfold SearchApi.handler. cbn [SearchApi.search_method SearchApi.query].
  change (String.eqb "GET" "GET") with true. cbn [negb].
  rewrite (proj2 (str_truthy_nonempty q) Hq), Hkey. cbn [negb].
  unfold SearchApi.cacheKey. rewrite Hn.
  change ("search:" +:+ "") with "search:". rewrite Hmiss.
  destruct (get "") as [e|data]; cbn; tauto.
Qed.

Lemma blank_query_goes_upstream_witness :
  fst (fst (SearchApi.handler (E := unit) (Some "key") (fun _ => inr []) 0 0
              {| SearchApi.search_method := "GET"; SearchApi.query := Some "   " |} ∅))
  = [ "" ].
Proof.
  apply (blank_query_goes_upstream (E := unit) (Some "key") (fun _ => inr []) 0 0 "   " ∅);
    [discriminate | reflexivity | reflexivity | reflexivity].
Defined.

(* ------------------------------------------------------------------ *)
(** ** The chart series *)
(* ------------------------------------------------------------------ *)

(** The stride of the sampling is a whole number. *)
Lemma sampling_step_integer (n : nat) (m : Q) :
  (0 < m)%Q ->
  sampling_step n (Num m)
  = Num (inject_Z (Z.max 1 (Qfloor (inject_Z (Z.of_nat n) / m)))).
Proof.
  intros Hm. unfold sampling_step, num, num_div.
  assert (Hm0 : Qeq_bool m 0 = false) by (apply positive_nonzero, Hm).
  rewrite Hm0. cbn [Math_floor Math_max num_lt].
  assert (Hf : Qfloor (Qred (inject_Z (Z.of_nat n) / m))
               = Qfloor (inject_Z (Z.of_nat n) / m)).
  { apply Qfloor_comp, Qred_correct. }
  rewrite Hf. set (f := Qfloor (inject_Z (Z.of_nat n) / m)).
  destruct (Qlt_bool 1 (inject_Z f)) eqn:E.
  - apply Qlt_bool_iff in E. change 1%Q with (inject_Z 1) in E.
    rewrite <- Zlt_Qlt in E. rewrite Z.max_r by lia. reflexivity.
  - apply Qlt_bool_false_iff in E. change 1%Q with (inject_Z 1) in E.
    rewrite <- Zle_Qle in E. rewrite Z.max_l by lia. reflexivity.
Qed.

Lemma rem_is_zero_mod (i : nat) (k : Z) :
  (1 <= k)%Z -> rem_is_zero i (Num (inject_Z k)) = (Z.of_nat i mod k =? 0)%Z.
Proof.
  intros Hk. unfold rem_is_zero.
  assert (Hk0 : Qeq_bool (inject_Z k) 0 = false).
  { apply positive_nonzero. change 0%Q with (inject_Z 0). rewrite <- Zlt_Qlt. lia. }
  rewrite Hk0.
  destruct k as [|p|p]; try lia.
  assert (E : (inject_Z (Z.of_nat i) / Qabs (inject_Z (Z.pos p)) == Z.of_nat i # p)%Q).
  { unfold Qabs, inject_Z, Z.abs. rewrite (Qmake_Qdiv (Z.of_nat i) p). reflexivity. }
  rewrite (Qfloor_comp _ _ E).
  change (Qfloor (Z.of_nat i # p)) with (Z.of_nat i / Z.pos p)%Z.
  pose proof (Z.div_mod (Z.of_nat i) (Z.pos p) ltac:(lia)) as Hdm.
  destruct (Z.eqb_spec (Z.of_nat i mod Z.pos p) 0) as [H0|H0].
  - apply Qeq_bool_iff. rewrite E. unfold Qeq, inject_Z. cbn [Qnum Qden]. lia.
  - apply Qeq_bool_false_iff. rewrite E. unfold Qeq, inject_Z. cbn [Qnum Qden]. lia.
Qed.

(** How many indices from [j] on, among [len] consecutive ones, are
    multiples of [k]. *)
Lemma filter_index_multiples {A : Type} (k : Z) (l : list A) (j : nat) :
  (1 <= k)%Z ->
  Z.of_nat (length (filter_index (fun i => (Z.of_nat i mod k =? 0)%Z) j l))
  = ((Z.of_nat j + Z.of_nat (length l) + k - 1) / k - (Z.of_nat j + k - 1) / k)%Z.
Proof.
  intros Hk. revert j. induction l as [|x l IH]; intros j.
  - cbn [filter_index length]. rewrite Z.add_0_r. lia.
  - cbn [filter_index].
    assert (Hstep : ((Z.of_nat (S j) + k - 1) / k
                     = (Z.of_nat j + k - 1) / k
                       + (if (Z.of_nat j mod k =? 0)%Z then 1 else 0))%Z).
    { pose proof (Z.div_mod (Z.of_nat j) k ltac:(lia)) as Hdm.
      pose proof (Z.mod_pos_bound (Z.of_nat j) k ltac:(lia)) as Hb.
      set (q := (Z.of_nat j / k)%Z) in *. set (r := (Z.of_nat j mod k)%Z) in *.
      destruct (Z.eqb_spec r 0) as [H0|H0].
      - replace (Z.of_nat (S j) + k - 1)%Z with ((q + 1) * k + 0)%Z by lia.
        replace (Z.of_nat j + k - 1)%Z with (q * k + (k - 1))%Z by lia.
        rewrite !Z.div_add_l by lia. rewrite Z.div_0_l by lia.
        rewrite (Z.div_small (k - 1) k) by lia. lia.
      - replace (Z.of_nat (S j) + k - 1)%Z with ((q + 1) * k + r)%Z by lia.
        replace (Z.of_nat j + k - 1)%Z with ((q + 1) * k + (r - 1))%Z by lia.
        rewrite !Z.div_add_l by lia.
        rewrite (Z.div_small r k), (Z.div_small (r - 1) k) by lia. lia. }
    destruct (Z.of_nat j mod k =? 0)%Z; cbn [length];
      [rewrite Nat2Z.inj_succ|]; rewrite IH, Hstep;
      replace (Z.of_nat (S j) + Z.of_nat (length l))%Z
        with (Z.of_nat j + Z.of_nat (S (length l)))%Z by lia; lia.
Qed.

Lemma filter_index_ext {A : Type} (keep keep' : nat -> bool) (i : nat) (l : list A) :
  (forall j, keep j = keep' j) -> filter_index keep i l = filter_index keep' i l.
Proof.
  intros H. revert i. induction l as [|x l IH]; intros i; cbn [filter_index];
    [reflexivity|]. rewrite H, IH. reflexivity.
Qed.

(** The number of sampled points: one in every [k], rounded up. *)
Lemma sampled_count {A : Type} (n : nat) (m : Q) (l : list A) :
  (0 < m)%Q ->
  let k := Z.max 1 (Qfloor (inject_Z (Z.of_nat n) / m)) in
  Z.of_nat (length (filter_index (fun index => rem_is_zero index (sampling_step n (Num m)))
                                 0 l))
  = ((Z.of_nat (length l) + k - 1) / k)%Z.
Proof.
  intros Hm k. rewrite sampling_step_integer by exact Hm. fold k.
  rewrite (filter_index_ext _ (fun i => (Z.of_nat i mod k =? 0)%Z))
    by (intros j; apply rem_is_zero_mod; subst k; lia).
  rewrite filter_index_multiples by (subst k; lia).
  change (Z.of_nat 0) with 0%Z. rewrite !Z.add_0_l.
  rewrite (Z.div_small (k - 1) k) by (subst k; lia). lia.
Qed.

(** The points kept by a stride [k] from position [j0] on. *)
Lemma filter_index_lookup_multiples {A : Type} (k : nat) (l : list A) (j0 j : nat) :
  (1 <= k)%nat ->
  filter_index (fun i => (Z.of_nat i mod Z.of_nat k =? 0)%Z) j0 l !! j
  = l !! ((k - j0 mod k) mod k + j * k)%nat.
Proof.
  intros Hk. revert j0 j. induction l as [|x l IH]; intros j0 j.
  - cbn [filter_index]. rewrite !lookup_nil. reflexivity.
  - cbn [filter_index].
    pose proof (Nat.mod_upper_bound j0 k ltac:(lia)) as Hb.
    assert (Hz : (Z.of_nat j0 mod Z.of_nat k)%Z = Z.of_nat (j0 mod k)).
    { rewrite Nat2Z.inj_mod. reflexivity. }
    rewrite Hz.
    assert (Hnext : ((k - S j0 mod k) mod k
                     = if Nat.eqb (j0 mod k) 0 then (k - 1) mod k
                       else (k - j0 mod k) - 1)%nat).
    { replace (S j0) with (j0 + 1)%nat by lia.
      rewrite <- Nat.Div0.add_mod_idemp_l.
      destruct (Nat.eqb_spec (j0 mod k) 0) as [E|E].
      - rewrite E. cbn [Nat.add]. destruct (Nat.eq_dec k 1) as [->|Hk1]; [reflexivity|].
        rewrite (Nat.mod_small 1 k) by lia. reflexivity.
      - destruct (Nat.eq_dec (j0 mod k + 1) k) as [E1|E1].
        + rewrite E1, Nat.Div0.mod_same, Nat.sub_0_r, Nat.Div0.mod_same. lia.
        + rewrite (Nat.mod_small (j0 mod k + 1) k) by lia.
          rewrite Nat.mod_small by lia. lia. }
    destruct (Nat.eqb_spec (j0 mod k) 0) as [E|E].
    + rewrite E. change (Z.of_nat 0 =? 0)%Z with true. cbv iota.
      rewrite Nat.sub_0_r, Nat.Div0.mod_same. cbn [Nat.add].
      destruct j as [|j]; [reflexivity|].
      cbn [lookup list_lookup Nat.mul]. rewrite IH, Hnext.
      destruct (Nat.eq_dec k 1) as [->|Hk1].
      * cbn. reflexivity.
      * rewrite (Nat.mod_small (k - 1) k) by lia.
        replace (k + j * k)%nat with (S (k - 1 + j * k)) by lia. reflexivity.
    + assert (Hf : (Z.of_nat (j0 mod k) =? 0)%Z = false) by (apply Z.eqb_neq; lia).
      rewrite Hf, IH, Hnext.
      rewrite (Nat.mod_small (k - j0 mod k) k) by lia.
      replace (k - j0 mod k + j * k)%nat with (S (k - j0 mod k - 1 + j * k)) by lia.
      reflexivity.
Qed.

(** The sample is every [k]-th point of the list, from the first on. *)
Lemma sampled_lookup {A : Type} (n : nat) (m : Q) (l : list A) (j : nat) :
  (0 < m)%Q ->
  let k := Z.to_nat (Z.max 1 (Qfloor (inject_Z (Z.of_nat n) / m))) in
  filter_index (fun index => rem_is_zero index (sampling_step n (Num m))) 0 l !! j
  = l !! (j * k)%nat.
Proof.
  intros Hm k. rewrite sampling_step_integer by exact Hm.
  set (kz := Z.max 1 (Qfloor (inject_Z (Z.of_nat n) / m))) in *.
  assert (Hkz : (1 <= kz)%Z) by (subst kz; lia).
  rewrite (filter_index_ext _ (fun i => (Z.of_nat i mod Z.of_nat k =? 0)%Z)).
  - rewrite filter_index_lookup_multiples by (subst k; lia).
    rewrite Nat.Div0.mod_0_l, Nat.sub_0_r, Nat.Div0.mod_same. reflexivity.
  - intros i. rewrite rem_is_zero_mod by exact Hkz. subst k.
    rewrite Z2Nat.id by lia. reflexivity.
Qed.

(** X15. [processPriceData] with a [maxPoints] of at least 1 (the quotient
    of the stride taken exactly): the three series are aligned; the points
    kept are those at positions 0, k, 2k, ... of the series sorted by date,
    with k the larger of 1 and the floor of the number of points over
    [maxPoints]; so the first point of the sorted series, the earliest one
    when every date is a YYYY-MM-DD date, is kept; the number of points is
    below twice [maxPoints] (not below [maxPoints] itself); and no point is
    dropped from a series shorter than twice [maxPoints]. *)
Theorem processPriceData_sampling (historicalPrices : list FMPHistoricalPrice) (maxPoints : Q) :
  (1 <= maxPoints)%Q ->
  let data := processPriceData historicalPrices (Num maxPoints) in
  let sorted := Array_sort by_price_date historicalPrices in
  let count := length (prices data) in
  let stride :=
    Z.to_nat (Z.max 1 (Qfloor (inject_Z (Z.of_nat (length historicalPrices)) / maxPoints))) in
  length (price_labels data) = count
  /\ length (normalizedPrices data) = count
  /\ (count <= length historicalPrices)%nat
  /\ (historicalPrices <> [] -> (1 <= count)%nat)
  /\ (inject_Z (Z.of_nat count) < 2 * maxPoints)%Q
  /\ ((inject_Z (Z.of_nat (length historicalPrices)) < 2 * maxPoints)%Q ->
      count = length historicalPrices)
  /\ (1 <= stride)%nat
  /\ (forall j, prices data !! j = close <$> sorted !! (j * stride)%nat)
  /\ (forall j, price_labels data !! j
                = (fun p => Date_monthYear (price_date p)) <$> sorted !! (j * stride)%nat)
  /\ (forall earliest, head sorted = Some earliest ->
        head (prices data) = Some (close earliest)
        /\ (Forall PriceNotions.price_dated historicalPrices ->
            forall p, p ∈ historicalPrices ->
              (PriceNotions.price_time earliest <= PriceNotions.price_time p)%Q)).
Proof.
  intros Hm data sorted count stride. subst count data. unfold processPriceData.
  cbn [price_labels prices normalizedPrices]. rewrite !length_map.
  fold sorted.
  assert (Hn : length sorted = length historicalPrices) by apply Array_sort_length.
  set (n := length sorted) in *.
  set (sampled := filter_index (fun index => rem_is_zero index (sampling_step n (Num maxPoints)))
                               0 sorted).
  pose proof (sampled_count n maxPoints sorted ltac:(lra)) as Hcount.
  fold sampled in Hcount. cbv zeta in Hcount. fold n in Hcount.
  assert (Hlook : forall j, sampled !! j = sorted !! (j * stride)%nat).
  { intros j. subst sampled stride. rewrite <- Hn.
    apply (sampled_lookup n maxPoints sorted j). lra. }
  set (f := Qfloor (inject_Z (Z.of_nat n) / maxPoints)) in *.
  set (k := Z.max 1 f) in *.
  assert (Hk : (1 <= k)%Z) by (subst k; lia).
  pose proof (Z.div_mod (Z.of_nat n + k - 1) k ltac:(lia)) as Hdm.
  pose proof (Z.mod_pos_bound (Z.of_nat n + k - 1) k ltac:(lia)) as Hb.
  split; [reflexivity|]. split; [reflexivity|].
  split; [|split; [|split; [|split; [|split; [|split; [|split]]]]]].
  - rewrite <- Hn. nia.
  - intros Hne. assert (0 < n)%nat.
    { subst n. rewrite Hn. destruct historicalPrices; [contradiction|cbn; lia]. }
    nia.
  - assert (Hfl : (inject_Z (Z.of_nat n) / maxPoints < inject_Z (f + 1))%Q).
    { subst f. apply Qlt_floor. }
    assert (Hnm : (inject_Z (Z.of_nat n) < inject_Z (f + 1) * maxPoints)%Q).
    { assert (E : (inject_Z (Z.of_nat n) == inject_Z (Z.of_nat n) / maxPoints * maxPoints)%Q)
        by (field; lra).
      rewrite E at 1. apply Qmult_lt_compat_r; [lra|exact Hfl]. }
    assert (Hck : (Z.of_nat (length sampled) * k + 1 <= Z.of_nat n + k)%Z) by nia.
    rewrite Zle_Qle in Hck. rewrite !inject_Z_plus, inject_Z_mult in Hck.
    rewrite inject_Z_plus in Hnm.
    assert (Hkq : (1 <= inject_Z k)%Q).
    { change 1%Q with (inject_Z 1). rewrite <- Zle_Qle. exact Hk. }
    assert (Hfk : (inject_Z f <= inject_Z k)%Q) by (rewrite <- Zle_Qle; subst k; lia).
    change (inject_Z 1) with 1%Q in *.
    set (c := inject_Z (Z.of_nat (length sampled))) in *.
    set (K := inject_Z k) in *. set (F := inject_Z f) in *.
    set (N := inject_Z (Z.of_nat n)) in *.
    assert (Hprod : (0 <= (K - 1) * (maxPoints - 1))%Q).
    { apply Qmult_le_0_compat; lra. }
    assert (Hfm : (F * maxPoints <= K * maxPoints)%Q).
    { apply Qmult_le_compat_r; lra. }
    assert (Hlt : (c * K < 2 * maxPoints * K)%Q) by lra.
    apply Qmult_lt_r with (z := K); [lra|exact Hlt].
  - intros Hshort. fold n in Hshort. rewrite <- Hn in Hshort |- *. fold n in Hshort |- *.
    assert (Hf1 : (f < 2)%Z).
    { subst f. rewrite (Zlt_Qlt _ 2). eapply Qle_lt_trans; [apply Qfloor_le|].
      apply Qlt_shift_div_r; [lra|exact Hshort]. }
    assert (k = 1%Z) as Hk1 by (subst k; lia).
    rewrite Hk1 in Hcount. rewrite Z.div_1_r in Hcount. lia.
  - subst stride. lia.
  - intros j. change (map close sampled) with (close <$> sampled).
    rewrite list_lookup_fmap, Hlook. reflexivity.
  - intros j.
    change (map (fun p => Date_monthYear (price_date p)) sampled)
      with ((fun p => Date_monthYear (price_date p)) <$> sampled).
    rewrite list_lookup_fmap, Hlook. reflexivity.
  - intros earliest Hhead. split.
    + pose proof (Hlook 0%nat) as H0. cbn [Nat.mul] in H0.
      destruct sorted as [|first rest]; [discriminate Hhead|].
      cbn [head] in Hhead. injection Hhead as ->.
      cbn [lookup list_lookup] in H0.
      destruct sampled as [|x sampled']; [discriminate H0|].
      cbn [lookup list_lookup] in H0. injection H0 as ->. reflexivity.
    + intros Hd p Hp.
      assert (Hs : StronglySorted (key_le PriceNotions.price_time) sorted).
      { apply Array_sort_StronglySorted. intros x y Hx Hy.
        rewrite Forall_forall in Hd. apply by_price_date_keyed; auto. }
      assert (Hps : p ∈ sorted).
      { unfold sorted. rewrite Array_sort_Permutation. exact Hp. }
      destruct sorted as [|first rest]; [discriminate Hhead|].
      cbn [head] in Hhead. injection Hhead as ->.
      apply StronglySorted_inv in Hs as [_ Hall].
      apply elem_of_cons in Hps as [->|Hin]; [apply Qle_refl|].
      rewrite Forall_forall in Hall. apply (Hall p Hin).
Qed.

Lemma processPriceData_sampling_witness :
  (1 <= 250)%Q
  /\ prices (processPriceData PriceSamples.three_days (Num 250))
     !! 0%nat
     = close <$> Array_sort by_price_date PriceSamples.three_days !! 0%nat.
Proof.
  assert (H : (1 <= 250)%Q) by (vm_compute; discriminate).
  split; [exact H|].
  destruct (processPriceData_sampling PriceSamples.three_days 250 H)
    as (_ & _ & _ & _ & _ & _ & _ & Hlook & _).
  exact (Hlook 0%nat).
Defined.

Lemma growthRates_loop_length (prev : FMPIncomeStatement) (rest : list FMPIncomeStatement) :
  length (growthRates_loop prev rest) = length rest.
Proof.
  revert prev. induction rest as [|curr rest IH]; intros prev; [reflexivity|].
  cbn [growthRates_loop length]. rewrite IH. reflexivity.
Qed.

(** X16. [processRevenueData] returns the years in a permutation of the
    statements, with one revenue per year; the growth series starts with the
    [null] of the first year and has one entry per year as well, except for
    an empty input, where it still holds that one [null] while the labels
    and the revenues are empty. *)
Theorem processRevenueData_series (incomeStatements : list FMPIncomeStatement) :
  let data := processRevenueData incomeStatements in
  Permutation (revenue_labels data) (map calendarYear incomeStatements)
  /\ length (revenues data) = length incomeStatements
  /\ head (growthRates data) = Some None
  /\ length (growthRates data) = Nat.max 1 (length incomeStatements).
Proof.
  intros data. subst data. unfold processRevenueData.
  cbn [revenue_labels revenues growthRates].
  pose proof (Array_sort_Permutation by_calendarYear incomeStatements) as Hperm.
  pose proof (Array_sort_length by_calendarYear incomeStatements) as Hlen.
  split; [apply Permutation_map, Hperm|].
  split; [rewrite length_map; exact Hlen|].
  split; [reflexivity|].
  destruct (Array_sort by_calendarYear incomeStatements) as [|first rest].
  - rewrite <- Hlen. reflexivity.
  - cbn [length]. rewrite growthRates_loop_length, <- Hlen. cbn [length]. lia.
Qed.

(* ------------------------------------------------------------------ *)
(** ** The chart configurations of the page *)
(* ------------------------------------------------------------------ *)

Lemma calculateMarketShare_aligned (companyRevenue : jsnum) (companyName : string)
    (peersData : list PeerData) (peerRevenues : gmap string number) :
  let d := calculateMarketShare companyRevenue companyName peersData peerRevenues in
  length (share_labels d) = length (values d)
  /\ length (percentages d) = length (values d)
  /\ (1 <= length (values d) <= 6)%nat.
Proof.
  intros d. pose proof (calculateMarketShare_entities companyRevenue companyName
                          peersData peerRevenues) as Hv.
  fold d in Hv. subst d. unfold calculateMarketShare in *.
  cbn [share_labels values percentages] in *. rewrite !length_map in *. lia.
Qed.

(** The estimate stored for a symbol comes from a peer with that symbol. *)
Lemma peerRevenues_lookup (peersData : list PeerData) (m : gmap string number)
    (s : string) (v : number) :
  fold_left
    (fun m peer => <[ peer_symbol peer := num_mul (ToNumber (marketCap peer)) (Num (3 # 20)) ]> m)
    peersData m !! s = Some v ->
  m !! s = Some v
  \/ exists peer, peer ∈ peersData /\ peer_symbol peer = s
                  /\ v = num_mul (ToNumber (marketCap peer)) (Num (3 # 20)).
Proof.
  revert m. induction peersData as [|p l IH]; intros m H; [left; exact H|].
  cbn [fold_left] in H. apply IH in H as [H|(peer & Hin & Hs & Hv)].
  - destruct (String.eqb_spec (peer_symbol p) s) as [E|E].
    + rewrite E, lookup_insert_eq in H. injection H as <-.
      right. exists p. split; [left|]. split; [exact E|reflexivity].
    + rewrite lookup_insert_ne in H by exact E. left. exact H.
  - right. exists peer. split; [right; exact Hin|]. split; assumption.
Qed.

(** Without repeated symbols, every peer finds its own estimate. *)
Lemma peerRevenues_own (peersData : list PeerData) (m : gmap string number) (peer : PeerData) :
  NoDup (map peer_symbol peersData) -> peer ∈ peersData ->
  fold_left
    (fun m peer => <[ peer_symbol peer := num_mul (ToNumber (marketCap peer)) (Num (3 # 20)) ]> m)
    peersData m !! peer_symbol peer
  = Some (num_mul (ToNumber (marketCap peer)) (Num (3 # 20))).
Proof.
  revert m. induction peersData as [|p l IH]; intros m Hnd Hin; [inversion Hin|].
  cbn [map] in Hnd. apply NoDup_cons in Hnd as [Hp Hnd]. cbn [fold_left].
  apply elem_of_cons in Hin as [->|Hin]; [|apply IH; assumption].
  destruct (fold_left _ l _ !! peer_symbol p) as [v|] eqn:E.
  - apply peerRevenues_lookup in E as [E|(peer & Hin & Hs & _)].
    + rewrite lookup_insert_eq in E. congruence.
    + exfalso. apply Hp. rewrite <- Hs. apply list_elem_of_In, in_map, list_elem_of_In, Hin.
  - exfalso. clear IH Hnd. revert m E. induction l as [|q l IHl]; intros m E.
    + cbn in E. rewrite lookup_insert_eq in E. discriminate.
    + cbn [fold_left] in E. cbn [map] in Hp. apply not_elem_of_cons in Hp as [Hq Hp].
      destruct (String.eqb_spec (peer_symbol q) (peer_symbol p)) as [Eq|Eq];
        [congruence|].
      rewrite insert_insert_ne in E by congruence. exact (IHl Hp _ E).
Qed.

Lemma estimate_positive (cap : jsnum) :
  let estimate := JNum (num_mul (ToNumber cap) (Num (3 # 20))) in
  truthy estimate && js_gt estimate (Num 0) = js_gt cap (Num 0).
Proof.
  destruct cap as [| |[q| | |]]; try reflexivity.
  cbn [ToNumber]. unfold js_gt, num_gt. cbn [ToNumber num_mul num_lt truthy].
  destruct (Qlt_bool 0 q) eqn:E.
  - apply Qlt_bool_iff in E.
    assert (H1 : Qlt_bool 0 (Qred (q * (3 # 20))) = true).
    { apply Qlt_bool_iff. rewrite Qred_correct. lra. }
    assert (H2 : Qeq_bool (Qred (q * (3 # 20))) 0 = false).
    { apply Qeq_bool_false_iff. rewrite Qred_correct. lra. }
    rewrite H1, ?H2. reflexivity.
  - apply Qlt_bool_false_iff in E.
    assert (H1 : Qlt_bool 0 (Qred (q * (3 # 20))) = false).
    { apply Qlt_bool_false_iff. rewrite Qred_correct. lra. }
    rewrite H1. apply andb_false_r.
Qed.

(** X17. When no two peers share a symbol, the page configures the
    market-share chart exactly when the chart is enabled, at least one income
    statement was delivered, and some peer has a market capitalisation above
    zero (the peer revenues are estimated as 15% of it). *)
Theorem market_share_chart_needs_a_valued_peer (data : FormData)
    (companyDataResult : CompanyData) :
  NoDup (map peer_symbol (peersData companyDataResult)) ->
  Home.marketShareConfig data companyDataResult <> None
  <-> en_marketShare (Types.charts data) = true
      /\ incomeStatements companyDataResult <> []
      /\ exists peer, peer ∈ peersData companyDataResult
                      /\ js_gt (marketCap peer) (Num 0) = true.
Proof.
  intros Hnd. unfold Home.marketShareConfig.
  set (ps := peersData companyDataResult) in *.
  assert (Hknown : forall companyName latest,
             (1 <? length (values (calculateMarketShare (revenue latest) companyName ps
                                     (Home.peerRevenues ps))))%nat = true
             <-> exists peer, peer ∈ ps /\ js_gt (marketCap peer) (Num 0) = true).
  { intros companyName latest. rewrite calculateMarketShare_entities, Nat.ltb_lt.
    pose proof (known_peers_nonempty ps (Home.peerRevenues ps)) as Hk.
    rewrite existsb_exists in Hk.
    assert (Hown : forall peer, peer ∈ ps ->
                     has_known_revenue (Home.peerRevenues ps) peer
                     = js_gt (marketCap peer) (Num 0)).
    { intros peer Hin. unfold has_known_revenue, Map_get, Home.peerRevenues.
      rewrite (peerRevenues_own ps ∅ peer Hnd Hin). apply estimate_positive. }
    split.
    - intros Hlen. destruct (known_peers ps (Home.peerRevenues ps)) eqn:E;
        [cbn in Hlen; lia|].
      destruct (proj1 Hk ltac:(discriminate)) as (peer & Hin & Hrev).
      apply list_elem_of_In in Hin. exists peer. split; [exact Hin|].
      rewrite <- (Hown peer Hin). exact Hrev.
    - intros (peer & Hin & Hcap).
      assert (Hne : known_peers ps (Home.peerRevenues ps) <> []).
      { apply Hk. exists peer. split; [apply list_elem_of_In, Hin|].
        rewrite (Hown peer Hin). exact Hcap. }
      destruct (known_peers ps (Home.peerRevenues ps)); [contradiction|cbn; lia]. }
  destruct (en_marketShare (Types.charts data)); cbn [andb].
  2:{ split; [contradiction|]. intros [? _]. discriminate. }
  destruct (0 <? length ps)%nat eqn:Hps.
  2:{ split; [contradiction|]. intros (_ & _ & peer & Hin & _).
      apply Nat.ltb_ge in Hps. destruct ps; [inversion Hin|cbn in Hps; lia]. }
  destruct (incomeStatements companyDataResult) as [|latest rest]; cbn [head].
  { split; [contradiction|]. intros (_ & H & _). contradiction. }
  specialize (Hknown (Home.displayName data companyDataResult) latest).
  destruct (1 <? length _)%nat.
  - split; [|discriminate]. intros _. split; [reflexivity|].
    split; [discriminate|]. apply Hknown. reflexivity.
  - split; [contradiction|]. intros (_ & _ & Hex). apply Hknown in Hex. discriminate.
Qed.

Lemma market_share_chart_needs_a_valued_peer_witness :
  Home.marketShareConfig (DeckSamples.form "" "" "") HomeSamples.one_peer_result <> None.
Proof.
  apply (market_share_chart_needs_a_valued_peer
           (DeckSamples.form "" "" "") HomeSamples.one_peer_result).
  - cbn. apply NoDup_singleton.
  - split; [reflexivity|]. split; [discriminate|].
    exists {| peer_symbol := "MSFT"; peer_companyName := "Microsoft";
              marketCap := JNum (num 3000000000000) |}.
    split; [left|reflexivity].
Defined.

(** X18. A market-share chart configured by the page has between two and
    six slices, with one label, one percentage and one colour for each; the
    first slice, the largest company, takes the theme colour. *)
Theorem market_share_chart_shape (data : FormData) (companyDataResult : CompanyData)
    (config : ChartConfiguration) :
  Home.marketShareConfig data companyDataResult = Some config ->
  exists d,
    config = PieConfig d (themeColor data)
    /\ (2 <= length (values d) <= 6)%nat
    /\ length (share_labels d) = length (values d)
    /\ length (percentages d) = length (values d)
    /\ length (Home.backgroundColor d (themeColor data)) = length (values d)
    /\ head (Home.backgroundColor d (themeColor data)) = Some (themeColor data).
Proof.
  unfold Home.marketShareConfig.
  destruct (_ && _); [|discriminate].
  destruct (head (incomeStatements companyDataResult)) as [latest|]; [|discriminate].
  set (d := calculateMarketShare _ _ _ _).
  destruct (1 <? length (values d))%nat eqn:Hlen; [|discriminate].
  intros [= <-]. exists d. split; [reflexivity|].
  apply Nat.ltb_lt in Hlen.
  destruct (calculateMarketShare_aligned
              (revenue latest) (Home.displayName data companyDataResult)
              (peersData companyDataResult)
              (Home.peerRevenues (peersData companyDataResult))) as (Hl & Hp & Hv).
  fold d in Hl, Hp, Hv.
  split; [lia|]. split; [exact Hl|]. split; [exact Hp|].
  unfold Home.backgroundColor. rewrite Hl. split.
  - rewrite length_take. cbn [length drop Home.CHART_COLORS_bars]. lia.
  - destruct (length (values d)); [lia|reflexivity].
Qed.

Lemma market_share_chart_shape_witness :
  exists d,
    Home.marketShareConfig (DeckSamples.form "" "" "") HomeSamples.one_peer_result
    = Some (PieConfig d "2563eb")
    /\ (2 <= length (values d) <= 6)%nat.
Proof.
  destruct (market_share_chart_shape
              (DeckSamples.form "" "" "") HomeSamples.one_peer_result _ eq_refl)
    as (d & Hd & Hlen & _).
  exists d. split; [exact (f_equal Some Hd)|exact Hlen].
Defined.

(* ------------------------------------------------------------------ *)
(** ** The slides *)
(* ------------------------------------------------------------------ *)

Lemma safeText_nonempty (value : string) : safeText value <> "".
Proof.
  unfold safeText, str_or. destruct (String.eqb_spec value ""); [discriminate|assumption].
Qed.

Lemma validateTableRows_id (rows : list (list string)) : validateTableRows rows = rows.
Proof.
  unfold validateTableRows. induction rows as [|row rows IH]; [reflexivity|].
  cbn [map]. rewrite IH. f_equal. induction row as [|c row IHr]; [reflexivity|].
  cbn [map]. rewrite IHr. reflexivity.
Qed.

Lemma Forall_map_safeText {A : Type} (f : A -> string) (l : list A) :
  Forall (fun cell => cell <> "") (map (fun x => safeText (f x)) l).
Proof.
  induction l as [|x l IH]; [constructor|]. cbn [map].
  constructor; [apply safeText_nonempty|exact IH].
Qed.

(** X19. The two tables are rectangular and have no blank cell. The
    key-metrics table has the header and seven metric rows, with a column for
    each of at most four statements that carry a year, and a TTM column when
    the ratios are present; the financial-summary table has the header and
    five rows, with a column for every statement that carries a year (no
    limit of four). Statements without a year are left out of both, so that a
    table can consist of the label column alone. *)
Theorem tables_are_rectangular (this : PitchDeckBuilder) :
  let dated := List.filter has_year (incomeStatements (companyData this)) in
  let ttm_column := match ratiosTTM (companyData this) with Some _ => 1 | None => 0 end in
  length (keyMetricsRows this) = 8
  /\ Forall (fun row => length row = 1 + Nat.min 4 (length dated) + ttm_column)
            (keyMetricsRows this)
  /\ Forall (Forall (fun cell => cell <> "")) (keyMetricsRows this)
  /\ length (financialSummaryRows this) = 6
  /\ Forall (fun row => length row = 1 + length dated) (financialSummaryRows this)
  /\ Forall (Forall (fun cell => cell <> "")) (financialSummaryRows this).
Proof.
  intros dated ttm_column. subst ttm_column.
  assert (Hk : length (keyMetrics_sortedIncome this) = Nat.min 4 (length dated)).
  { unfold keyMetrics_sortedIncome. rewrite length_take, Array_sort_length. reflexivity. }
  assert (Hf : length (financialSummary_sortedIncome this) = length dated).
  { unfold financialSummary_sortedIncome. apply Array_sort_length. }
  split; [reflexivity|]. split; [|split; [|split; [reflexivity|split]]].
  - unfold keyMetricsRows. cbv zeta.
    destruct (ratiosTTM (companyData this));
      repeat constructor; cbn [length]; rewrite ?length_app, ?length_map, Hk;
      cbn [length]; lia.
  - unfold keyMetricsRows. cbv zeta.
    assert (Hy : Forall (fun cell => cell <> "")
                        (map yearHeader (keyMetrics_sortedIncome this))).
    { unfold yearHeader. apply (Forall_map_safeText (fun stmt => "FY" +:+ _)). }
    destruct (ratiosTTM (companyData this));
      repeat first [ apply Forall_nil_2 | apply Forall_cons_2 | apply Forall_app_2
                   | apply safeText_nonempty | exact Hy
                   | apply (Forall_map_safeText (fun stmt => getValue _ stmt))
                   | discriminate ].
  - unfold financialSummaryRows. cbv zeta.
    repeat constructor; cbn [length]; rewrite ?length_map, Hf; reflexivity.
  - unfold financialSummaryRows, millions. cbv zeta.
    assert (Hy : Forall (fun cell => cell <> "")
                        (map yearHeader (financialSummary_sortedIncome this))).
    { unfold yearHeader. apply (Forall_map_safeText (fun stmt => "FY" +:+ _)). }
    repeat first [ apply Forall_nil_2 | apply Forall_cons_2
                 | exact Hy
                 | apply (Forall_map_safeText
                            (fun stmt => toFixed 0 (num_div (or_default _ (Num 0)) e6)))
                 | discriminate ].
Qed.

Lemma safeText_id (value : string) : value <> "" -> safeText value = value.
Proof.
  intros H. unfold safeText, str_or. destruct (String.eqb_spec value ""); [contradiction|].
  reflexivity.
Qed.

Lemma signed_percent_nonempty (u : number) : signed_percent u <> "".
Proof.
  unfold signed_percent. destruct (num_ge u (Num 0)); [discriminate|].
  change ("" +:+ (toFixed 1 u +:+ "%")) with (toFixed 1 u +:+ "%").
  destruct (toFixed 1 u); discriminate.
Qed.

(** The rounding to a double of a rational is never [NaN], and a zero has
    one representation. *)
Lemma binary64_not_NaN (q : Q) : binary64 q <> NaN.
Proof.
  unfold binary64. destruct (Qeq_bool q 0); [discriminate|].
  cbv zeta. destruct (Qle_bool _ _); [destruct (Qlt_bool q 0)|]; discriminate.
Qed.

Lemma binary64_zero (q u : Q) : binary64 q = Num u -> (u == 0)%Q -> u = 0%Q.
Proof.
  unfold binary64. destruct (Qeq_bool q 0); [intros [= <-] _; reflexivity|].
  cbv zeta. destruct (Qle_bool _ _); [destruct (Qlt_bool q 0); discriminate|].
  intros [= <-] H. rewrite Qred_correct in H.
  rewrite (Qred_complete _ _ H). reflexivity.
Qed.

Lemma binary64_of_zero (q : Q) : (q == 0)%Q -> binary64 q = Num 0.
Proof.
  intros H. unfold binary64. rewrite (proj2 (Qeq_bool_iff q 0) H). reflexivity.
Qed.

(** A falsy upside of two positive prices is the number zero. *)
Lemma growth_percent_double_falsy (p t : Q) :
  (0 < p)%Q ->
  truthy (JNum (GrowthNotions.growth_percent_double (Num p) (Num t))) = false ->
  GrowthNotions.growth_percent_double (Num p) (Num t) = Num 0.
Proof.
  intros Hp. unfold GrowthNotions.growth_percent_double, double_mul, double_div, double_sub.
  rewrite num_sub_Num. cbn [double].
  pose proof (binary64_not_NaN (Qred (t - p))) as Hs.
  assert (Hp0 : Qeq_bool p 0 = false) by (apply positive_nonzero, Hp).
  assert (Hneg : Qlt_bool p 0 = false).
  { apply Qlt_bool_false_iff. lra. }
  destruct (binary64 (Qred (t - p))) as [d| | |]; [|contradiction| |].
  - cbn [num_div]. rewrite Hp0. cbn [double].
    pose proof (binary64_not_NaN (Qred (d / p))) as Hq.
    destruct (binary64 (Qred (d / p))) as [g| | |]; [|contradiction| |];
      try (cbn; discriminate).
    cbn [num_mul double].
    pose proof (binary64_not_NaN (Qred (g * 100))) as Hm.
    destruct (binary64 (Qred (g * 100))) as [u| | |] eqn:Hu; [|contradiction| |];
      try (cbn; discriminate).
    cbn [truthy]. intros H. apply negb_false_iff, Qeq_bool_iff in H.
    rewrite (binary64_zero _ _ Hu H). reflexivity.
  - cbn [num_div sign inf_of_sign]. rewrite Hneg. cbn. discriminate.
  - cbn [num_div sign inf_of_sign]. rewrite Hneg. cbn. discriminate.
Qed.

Lemma growth_percent_double_equal (p t : Q) :
  (0 < p)%Q -> (t == p)%Q ->
  GrowthNotions.growth_percent_double (Num p) (Num t) = Num 0.
Proof.
  intros Hp E. unfold GrowthNotions.growth_percent_double, double_mul, double_div, double_sub.
  rewrite num_sub_Num. cbn [double].
  rewrite (binary64_of_zero (Qred (t - p))) by (rewrite Qred_correct; lra).
  cbn [num_div]. rewrite (positive_nonzero p Hp). cbn [double].
  rewrite (binary64_of_zero (Qred (0 / p))) by (rewrite Qred_correct; field; lra).
  reflexivity.
Qed.

(** X21. With a positive current price [p] and a positive target price
    [t], the upside is (t - p) / p * 100 computed in double arithmetic, each
    of the three operations rounded; the investment summary shows it as a
    signed percentage with one decimal. The valuation slide shows the same
    text, except when the computed upside is zero, as it is for equal
    prices: then the summary reads "+0.0%" and the valuation slide reads
    "TBD", because it tests the upside for truthiness. *)
Theorem upside_on_the_two_slides (this : PitchDeckBuilder) (p t : Q) :
  currentPrice this = Num p -> targetPrice_ this = Num t ->
  (0 < p)%Q -> (0 < t)%Q ->
  upside this = GrowthNotions.growth_percent_double (Num p) (Num t)
  /\ In ("Upside/(Downside)", signed_percent (upside this)) (pricingData this)
  /\ (upside this <> Num 0 ->
      In ("UPSIDE/DOWNSIDE", signed_percent (upside this)) (priceBoxes this))
  /\ (upside this = Num 0 ->
      In ("Upside/(Downside)", "+0.0%") (pricingData this)
      /\ In ("UPSIDE/DOWNSIDE", "TBD") (priceBoxes this))
  /\ ((t == p)%Q -> upside this = Num 0).
Proof.
  intros Hp Ht Hp0 Ht0.
  assert (Hboth : both_positive this = true).
  { unfold both_positive, num_gt. rewrite Hp, Ht. cbn [num_lt].
    rewrite (proj2 (Qlt_bool_iff 0 p) Hp0), (proj2 (Qlt_bool_iff 0 t) Ht0). reflexivity. }
  assert (Hup : upside this = GrowthNotions.growth_percent_double (Num p) (Num t)).
  { unfold upside. rewrite Hboth, Hp, Ht. reflexivity. }
  assert (Hsum : In ("Upside/(Downside)", signed_percent (upside this)) (pricingData this)).
  { unfold pricingData. rewrite Hboth, (safeText_id _ (signed_percent_nonempty _)).
    cbn [In]. tauto. }
  split; [exact Hup|]. split; [exact Hsum|]. split; [|split].
  - intros Hnz. unfold priceBoxes.
    destruct (truthy (JNum (upside this))) eqn:Htr; [cbn [In]; tauto|].
    exfalso. apply Hnz. rewrite Hup in Htr |- *.
    apply growth_percent_double_falsy; assumption.
  - intros Hz. split.
    + rewrite Hz in Hsum. exact Hsum.
    + unfold priceBoxes. rewrite Hz. cbn [truthy]. cbn [In]. tauto.
  - intros E. rewrite Hup. apply growth_percent_double_equal; assumption.
Qed.

Lemma upside_on_the_two_slides_witness :
  currentPrice UpsideSamples.tie_builder = Num 80
  /\ targetPrice_ UpsideSamples.tie_builder = Num 103
  /\ In ("Upside/(Downside)", "+28.7%") (pricingData UpsideSamples.tie_builder)
  /\ In ("UPSIDE/DOWNSIDE", "+28.7%") (priceBoxes UpsideSamples.tie_builder).
Proof.
  assert (Hp : (0 < 80)%Q) by reflexivity.
  assert (Ht : (0 < 103)%Q) by reflexivity.
  destruct (upside_on_the_two_slides UpsideSamples.tie_builder 80 103
              eq_refl eq_refl Hp Ht) as (_ & Hsum & Hval & _).
  split; [reflexivity|]. split; [reflexivity|]. split.
  - exact Hsum.
  - apply Hval. vm_compute. discriminate.
Defined.

Lemma first_line_app (a b : string) :
  string_forall (fun c => negb (Ascii.eqb c (ascii_of_nat 10))) a = true ->
  first_line (a +:+ nl +:+ b) = a.
Proof.
  induction a as [|c a IH]; intros Ha; [reflexivity|].
  cbn [string_forall] in Ha. apply andb_prop in Ha as [Hc Ha].
  apply negb_true_iff in Hc.
  change (String c a +:+ nl +:+ b) with (String c (a +:+ nl +:+ b)).
  cbn [first_line]. rewrite Hc, (IH Ha). reflexivity.
Qed.

(** X22. Of a thesis of several lines, the investment-thesis slide shows
    the text before the first line break only; a thesis that starts with a
    line break leaves the core thesis blank, since the placeholder is used
    for an empty thesis only. *)
Theorem thesis_is_cut_at_the_first_line_break (this : PitchDeckBuilder) (a b : string) :
  string_forall (fun c => negb (Ascii.eqb c (ascii_of_nat 10))) a = true ->
  investmentThesis (formData this) = a +:+ nl +:+ b ->
  thesisText this = a
  /\ In (Text a) (elements (investmentThesisSlide this)).
Proof.
  intros Ha Hthesis.
  assert (Ht : thesisText this = a).
  { unfold thesisText. rewrite Hthesis.
    assert (Hne : str_truthy (a +:+ nl +:+ b) = true).
    { unfold str_truthy. destruct a; reflexivity. }
    rewrite Hne. apply first_line_app, Ha. }
  split; [exact Ht|]. unfold investmentThesisSlide. cbn [elements]. rewrite Ht.
  cbn [app In]. tauto.
Qed.

Lemma thesis_is_cut_at_the_first_line_break_witness :
  thesisText (with_texts DeckSamples.full_builder
                ("Services growth is underpriced" +:+ nl +:+ "Buybacks add 3% a year")
                "" "")
  = "Services growth is underpriced".
Proof.
  apply (thesis_is_cut_at_the_first_line_break
           (with_texts DeckSamples.full_builder
              ("Services growth is underpriced" +:+ nl +:+ "Buybacks add 3% a year") "" "")
           "Services growth is underpriced" "Buybacks add 3% a year");
    reflexivity.
Defined.

Import YearNotions.

Lemma by_year_asc_keyed (x y : FMPIncomeStatement) :
  is_finite (fiscalYear x) -> is_finite (fiscalYear y) ->
  keyed by_year_asc year_value x y.
Proof.
  intros [a Ha] [b Hb]. unfold keyed, year_value. rewrite Ha, Hb. cbn [finite_part].
  apply (comes_after_difference fiscalYear); assumption.
Qed.

Lemma by_year_desc_keyed (x y : FMPIncomeStatement) :
  is_finite (fiscalYear x) -> is_finite (fiscalYear y) ->
  keyed by_year_desc (fun s => - year_value s)%Q x y.
Proof.
  intros [a Ha] [b Hb]. unfold keyed, year_value, comes_after, by_year_desc, num_gt.
  rewrite Ha, Hb, num_sub_Num. cbn [finite_part num_lt].
  apply eq_iff_eq_true. rewrite !Qlt_bool_iff, Qred_correct. split; intros; lra.
Qed.

Lemma StronglySorted_impl {A : Type} (R R' : A -> A -> Prop) (l : list A) :
  (forall a b, R a b -> R' a b) -> StronglySorted R l -> StronglySorted R' l.
Proof.
  intros Himp H. induction H as [|a l Hl IH Ha]; constructor; [exact IH|].
  eapply Forall_impl; [exact Ha|]. intros b. apply Himp.
Qed.

Lemma StronglySorted_app_cross {A : Type} (R : A -> A -> Prop) (l k : list A) :
  StronglySorted R (l ++ k) -> forall a b, a ∈ l -> b ∈ k -> R a b.
Proof.
  induction l as [|x l IH]; intros H a b Ha Hb; [inversion Ha|].
  cbn [app] in H. apply StronglySorted_inv in H as [Hs Hx].
  apply elem_of_cons in Ha as [->|Ha]; [|exact (IH Hs a b Ha Hb)].
  rewrite Forall_forall in Hx. apply Hx. apply elem_of_app. right. exact Hb.
Qed.

(** X23. When the year of every statement that has one reads as a number,
    the year columns of the key-metrics table are the most recent four, the
    newest first: the statements left out are not newer than any that is
    shown. The columns of the financial summary are all the statements with
    a year, the oldest first. *)
Theorem year_columns (this : PitchDeckBuilder) :
  let dated := List.filter has_year (incomeStatements (companyData this)) in
  (forall s, s ∈ dated -> is_finite (fiscalYear s)) ->
  (length (keyMetrics_sortedIncome this) <= 4)%nat
  /\ StronglySorted not_older (keyMetrics_sortedIncome this)
  /\ (exists left_out,
        Permutation (keyMetrics_sortedIncome this ++ left_out) dated
        /\ forall shown s, shown ∈ keyMetrics_sortedIncome this -> s ∈ left_out ->
                           not_older shown s)
  /\ StronglySorted not_newer (financialSummary_sortedIncome this)
  /\ Permutation (financialSummary_sortedIncome this) dated.
Proof.
  intros dated Hfin.
  assert (Hdesc : StronglySorted not_older (Array_sort by_year_desc dated)).
  { apply (StronglySorted_impl (key_le (fun s => - year_value s)%Q)).
    - intros a b. unfold key_le, not_older. lra.
    - apply Array_sort_StronglySorted. intros x y Hx Hy.
      apply by_year_desc_keyed; apply Hfin; assumption. }
  split; [unfold keyMetrics_sortedIncome; rewrite length_take; lia|].
  split; [apply StronglySorted_take, Hdesc|]. split; [|split].
  - exists (drop 4 (Array_sort by_year_desc dated)). unfold keyMetrics_sortedIncome.
    fold dated. split.
    + rewrite take_drop. apply Array_sort_Permutation.
    + apply StronglySorted_app_cross. rewrite take_drop. exact Hdesc.
  - unfold financialSummary_sortedIncome. fold dated.
    apply (StronglySorted_impl (key_le year_value)); [intros a b H; exact H|].
    apply Array_sort_StronglySorted. intros x y Hx Hy.
    apply by_year_asc_keyed; apply Hfin; assumption.
  - apply Array_sort_Permutation.
Qed.

Lemma year_columns_witness :
  StronglySorted not_older (keyMetrics_sortedIncome DeckSamples.full_builder).
Proof.
  apply (year_columns DeckSamples.full_builder).
  intros s Hs. cbn in Hs.
  apply elem_of_cons in Hs as [->|Hs]; [eexists; reflexivity|].
  apply elem_of_cons in Hs as [->|Hs]; [eexists; reflexivity|].
  inversion Hs.
Defined.

Lemma substring_length_le (n : nat) (s : string) : (String.length (substring 0 n s) <= n)%nat.
Proof.
  revert s. induction n as [|n IH]; intros s.
  - destruct s; cbn; lia.
  - destruct s as [|c s]; cbn [substring String.length]; [lia|].
    specialize (IH s). lia.
Qed.

Lemma string_length_app (a b : string) :
  String.length (a +:+ b) = (String.length a + String.length b)%nat.
Proof.
  induction a as [|c a IH]; [reflexivity|].
  change (String c a +:+ b) with (String c (a +:+ b)). cbn [String.length]. rewrite IH.
  reflexivity.
Qed.

Lemma substring_first_chars (n : nat) (s : string) : substring 0 n s = first_chars n s.
Proof.
  revert s. induction n as [|n IH]; intros s; [destruct s; reflexivity|].
  destruct s as [|c s]; [reflexivity|]. cbn [substring first_chars]. rewrite IH.
  reflexivity.
Qed.

Lemma share_label_cut (c : Company) : share_label c = cut_label (name c).
Proof. unfold share_label, cut_label. rewrite substring_first_chars. reflexivity. Qed.

Lemma ascii_text_first_chars (n : nat) (s : string) :
  ascii_text s -> ascii_text (first_chars n s).
Proof.
  unfold ascii_text. revert s. induction n as [|n IH]; intros s H; [destruct s; reflexivity|].
  destruct s as [|c s]; [reflexivity|].
  cbn [string_forall] in H. apply andb_prop in H as [Hc H].
  cbn [first_chars string_forall]. rewrite Hc, (IH s H). reflexivity.
Qed.

Lemma ascii_text_cut_label (s : string) : ascii_text s -> ascii_text (cut_label s).
Proof.
  intros H. unfold cut_label. destruct (15 <? String.length s)%nat; [|exact H].
  unfold ascii_text. rewrite string_forall_app.
  rewrite (ascii_text_first_chars 15 s H). reflexivity.
Qed.

(** X24. For a subject and peers with names in ASCII, [calculateMarketShare]
    yields between one and six entities, with one label, one value and one
    percentage for each. The entities are the first six of the subject and
    the peers with a known revenue, in the order of the sort; the label of
    an entity is its name when that has at most 15 characters, and else the
    first 15 characters followed by "...", so a label has at most 18
    characters, all ASCII. *)
Theorem calculateMarketShare_series (companyRevenue : jsnum) (companyName : string)
    (peersData : list PeerData) (peerRevenues : gmap string number) :
  ascii_text companyName ->
  Forall (fun peer => ascii_text (peer_companyName peer)) peersData ->
  let d := calculateMarketShare companyRevenue companyName peersData peerRevenues in
  (1 <= length (values d) <= 6)%nat
  /\ length (share_labels d) = length (values d)
  /\ length (percentages d) = length (values d)
  /\ (exists ranked,
        Permutation ranked
          (ranked_entities companyRevenue companyName peersData peerRevenues)
        /\ share_labels d = map (fun c => cut_label (name c)) (take 6 ranked)
        /\ values d = map company_revenue (take 6 ranked))
  /\ Forall (fun label => ascii_text label /\ (String.length label <= 18)%nat)
            (share_labels d).
Proof.
  intros Hsubject Hpeers d.
  destruct (calculateMarketShare_aligned companyRevenue companyName peersData peerRevenues)
    as (Hl & Hp & Hv).
  fold d in Hl, Hp, Hv. split; [exact Hv|]. split; [exact Hl|]. split; [exact Hp|].
  set (ranked := Array_sort by_revenue_desc
                   (entities companyRevenue companyName peersData peerRevenues)).
  assert (Hperm : Permutation ranked
                    (ranked_entities companyRevenue companyName peersData peerRevenues)).
  { unfold ranked. rewrite Array_sort_Permutation, known_peers_ranked. reflexivity. }
  assert (Hlabels : share_labels d = map (fun c => cut_label (name c)) (take 6 ranked)).
  { subst d ranked. unfold calculateMarketShare, entities. cbn [share_labels].
    apply map_ext. intros c. apply share_label_cut. }
  split.
  { exists ranked. split; [exact Hperm|]. split; [exact Hlabels|]. reflexivity. }
  rewrite Hlabels. apply Forall_forall. intros label Hin.
  apply list_elem_of_In, in_map_iff in Hin as (c & <- & Hc).
  assert (Hname : ascii_text (name c)).
  { apply list_elem_of_In in Hc.
    assert (Hin : c ∈ ranked) by (eapply subseteq_take; exact Hc).
    rewrite Hperm in Hin. unfold ranked_entities in Hin.
    apply elem_of_cons in Hin as [->|Hin]; [exact Hsubject|].
    apply list_elem_of_omap in Hin as (peer & Hpeer & Hsome).
    rewrite Forall_forall in Hpeers. specialize (Hpeers peer Hpeer).
    destruct (known_revenue peerRevenues peer); [|discriminate].
    injection Hsome as <-. exact Hpeers. }
  split; [apply ascii_text_cut_label, Hname|].
  unfold cut_label.
  destruct (Nat.ltb_spec 15 (String.length (name c))) as [Hlong|Hshort]; [|lia].
  rewrite string_length_app, <- substring_first_chars.
  pose proof (substring_length_le 15 (name c)). cbn [String.length]. lia.
Qed.

Lemma calculateMarketShare_series_witness :
  ascii_text "International Business Machines"
  /\ Forall (fun label => ascii_text label /\ (String.length label <= 18)%nat)
            (share_labels
               (calculateMarketShare (JNum (num 30)) "International Business Machines"
                  MarketSamples.three_peers MarketSamples.patchy_estimates)).
Proof.
  assert (Hsubject : ascii_text "International Business Machines") by reflexivity.
  assert (Hpeers : Forall (fun peer => ascii_text (peer_companyName peer))
                          MarketSamples.three_peers).
  { repeat constructor. }
  split; [exact Hsubject|].
  exact (proj2 (proj2 (proj2 (proj2
           (calculateMarketShare_series (JNum (num 30)) "International Business Machines"
              MarketSamples.three_peers MarketSamples.patchy_estimates Hsubject Hpeers))))).
Defined.

(** X25. The peer-comparison table has the header, a row for the subject
    when there is a profile and a row for each of the first five peers: at
    most seven rows, each of four cells, none of them blank. A ratio cell
    reads "N/A" exactly when the ratio is falsy: missing, zero or [NaN]. *)
Theorem peers_table (profile : option FMPCompanyProfile) (ratios : option FMPRatiosTTM)
    (peers : list PeerRow) :
  let rows := PeersCompsTable.peersCompsRows profile ratios peers in
  length rows
  = (1 + (match profile with Some _ => 1 | None => 0 end) + Nat.min 5 (length peers))%nat
  /\ (length rows <= 7)%nat
  /\ Forall (fun row => length row = 4%nat) rows
  /\ Forall (Forall (fun cell => cell <> "")) rows
  /\ (forall v, PeersCompsTable.ratio_cell v = "N/A" <-> truthy v = false).
Proof.
  intros rows. subst rows. unfold PeersCompsTable.peersCompsRows. cbv zeta.
  assert (Hpeers : forall f : PeerRow -> list string,
             length (map f (take 5 peers)) = Nat.min 5 (length peers)).
  { intros f. rewrite length_map, length_take. reflexivity. }
  assert (Hlen : forall subject : list (list string),
             length (subject ++ map (fun peer =>
                        [ safeText (row_companyName peer);
                          safeText (formatLargeNumber (row_marketCap peer));
                          PeersCompsTable.ratio_cell (row_peRatio peer);
                          PeersCompsTable.ratio_cell (row_evToEbitda peer) ])
                      (take 5 peers))
             = (length subject + Nat.min 5 (length peers))%nat).
  { intros subject. rewrite length_app, Hpeers. reflexivity. }
  split; [|split; [|split; [|split]]].
  - cbn [length]. rewrite Hlen. destruct profile; reflexivity.
  - cbn [length]. rewrite Hlen. destruct profile; cbn [length]; lia.
  - constructor; [reflexivity|]. apply Forall_app. split.
    + destruct profile; repeat constructor.
    + apply Forall_forall. intros row Hin.
      apply list_elem_of_In, in_map_iff in Hin as (peer & <- & _). reflexivity.
  - constructor; [repeat constructor; discriminate|]. apply Forall_app. split.
    + destruct profile; repeat constructor; apply safeText_nonempty.
    + apply Forall_forall. intros row Hin.
      apply list_elem_of_In, in_map_iff in Hin as (peer & <- & _).
      repeat constructor; apply safeText_nonempty.
  - intros v. unfold PeersCompsTable.ratio_cell, if_truthy.
    destruct (truthy v) eqn:Hv; [|split; reflexivity].
    split; [|discriminate]. intros H. exfalso. revert H.
    assert (Hn : ToNumber v <> NaN).
    { destruct v as [| |[q| | |]]; cbn in Hv |- *; discriminate. }
    unfold formatRatio. destruct (ToNumber v) as [q| | |] eqn:E; [|contradiction| |];
      rewrite safeText_id;
      try (apply toFixed_suffix_not_NA; discriminate);
      try (intros H0; apply (f_equal String.length) in H0;
           rewrite string_length_app in H0; cbn in H0; lia).
Qed.
